(** * environment-detector: a shallow embedding of the detection and caching engine

    The development follows the layout of the TypeScript sources:

    - [Js]            the string primitives of the host language the code relies on;
    - [Host]          what a detection run observes: [process.env], the [fs] and
                      [os] modules (utils/process.ts, utils/file.ts);
    - [Constants]     core/constants.ts;
    - [CI], [OS], [Container]   the decision logic of detectors/ci.ts,
                      detectors/os.ts and detectors/container.ts;
    - [Cache]         core/cache.ts, the process-wide timed cache;
    - [Detector]      core/detector.ts, the cache-or-compute template;
    - [Facade]        index.ts, the EnvironmentDetector class;
    - [Plugins]       plugins/base.ts and plugins/manager.ts;
    - [JsText], [ProcessUtils], [Node], [Privilege], [Cloud]
                      the rest of utils/process.ts and the detectors of
                      detectors/node.ts, detectors/privileges.ts and
                      detectors/cloud.ts;
    - [JsMap], [Registry]   the detector registry of core/detector.ts;
    - [Env]           index.ts over the seven detectors of the library,
                      with its getters and its summary.

    Conventions of the embedding:

    - strings are byte strings ([String.string]); [toLowerCase] is the
      ASCII case mapping, and the line terminators of a regular
      expression are LF and CR;
    - JavaScript numbers that hold clock readings, cache lifetimes,
      user ids and version components are integers ([Z]);
    - white space, for [trim] and [parseInt], is the ASCII white space;
    - a value that may be [undefined] or [null] is an [option]; an
      options object is a record of optional fields, [None] being an
      absent property (a property given as [undefined], which the
      spread of the constructor would copy over the default, is not
      among the options modelled);
    - what the cache stores and what a detection returns are defined
      values in [Cache] and [Detector]; [MaybeUndefined] has [get] and
      [detectSync] over values that may be [undefined];
    - a call that may throw returns an [Exc]; [os] and [fs] calls may
      throw, as the test suite makes them;
    - [process.env] is a finite map from names to strings;
    - the cache singleton and the clock are threaded as a [World];
      [Date.now()] takes the next reading of the clock;
    - an [async] function is split at its [await]: what runs before
      control returns to the caller, and the promise, which is what is
      left to run when the function resumes. *)

From Stdlib Require Import ZArith String Ascii List Bool Lia.
From stdpp Require Import gmap strings.

Local Open Scope string_scope.

(** ** Exceptions *)

(** The outcome of a call that either returns or throws.  The payload of
    [Throw] is the rendering of the thrown value in a template literal. *)
Inductive Exc (A : Type) : Type :=
| Ok (a : A)
| Throw (err : string).
Arguments Ok {A} a.
Arguments Throw {A} err.

Definition exc_bind {A B} (x : Exc A) (f : A → Exc B) : Exc B :=
  match x with
  | Ok a => f a
  | Throw e => Throw e
  end.

(** [try { body } catch { handler }] *)
Definition try_catch {A} (body : Exc A) (handler : A) : A :=
  match body with
  | Ok a => a
  | Throw _ => handler
  end.

Declare Scope exc_scope.
Delimit Scope exc_scope with exc.
Notation "'let?' x ':=' e 'in' k" :=
  (exc_bind e (fun x => k))
  (at level 10, x name, e at level 100, k at level 200, only parsing) : exc_scope.

(** ** String primitives *)

Module Js.

(** [s.startsWith(prefix)] *)
Fixpoint startsWith (s prefix : string) {struct prefix} : bool :=
  match prefix with
  | EmptyString => true
  | String p prefix' =>
      match s with
      | EmptyString => false
      | String c s' => Ascii.eqb c p && startsWith s' prefix'
      end
  end.

(** [s.includes(needle)] *)
Fixpoint includes (s needle : string) {struct s} : bool :=
  startsWith s needle ||
  match s with
  | EmptyString => false
  | String _ s' => includes s' needle
  end.

Definition isUpper (c : ascii) : bool :=
  let n := nat_of_ascii c in (65 <=? n)%nat && (n <=? 90)%nat.

Definition lowerChar (c : ascii) : ascii :=
  if isUpper c then ascii_of_nat (nat_of_ascii c + 32) else c.

(** [s.toLowerCase()] *)
Fixpoint toLowerCase (s : string) : string :=
  match s with
  | EmptyString => EmptyString
  | String c s' => String (lowerChar c) (toLowerCase s')
  end.

(** Truthiness of a string: every string but the empty one. *)
Definition truthy (s : string) : bool :=
  match s with
  | EmptyString => false
  | String _ _ => true
  end.

(** Truthiness of [string | undefined] and of [string | null]. *)
Definition truthy_opt (o : option string) : bool :=
  match o with
  | Some s => truthy s
  | None => false
  end.

(** [a || b] on [string | undefined], with a string as second operand *)
Definition or_else (a : option string) (b : string) : string :=
  match a with
  | Some s => if truthy s then s else b
  | None => b
  end.

(** [a || b] on [string | undefined], both operands optional *)
Definition or_opt (a b : option string) : option string :=
  match a with
  | Some s => if truthy s then Some s else b
  | None => b
  end.

Definition isDigit (c : ascii) : bool :=
  let n := nat_of_ascii c in (48 <=? n)%nat && (n <=? 57)%nat.

(** [[a-z0-9]] *)
Definition isLowerAlnum (c : ascii) : bool :=
  let n := nat_of_ascii c in
  isDigit c || ((97 <=? n)%nat && (n <=? 122)%nat).

End Js.

(** ** The observable host *)

(** The [fs] module, as far as utils/file.ts calls it.  [statSync] is
    reduced to what the code asks of the returned [Stats]:
    [stats.isDirectory()]. *)
Record Fs : Type := {
  accessSync : string → Exc unit;
  readFileSync : string → Exc string;
  statSync : string → Exc bool;
}.

(** The [os] module.  [os.version] is absent on older runtimes. *)
Record Os : Type := {
  os_platform : Exc string;
  os_release : Exc string;
  os_version : option (Exc string);
  os_arch : Exc string;
  os_hostname : Exc string;
}.

Record Host : Type := {
  process_env : gmap string string;
  fs : Fs;
  os : Os;
}.

(** *** utils/process.ts *)

Definition getEnv (h : Host) (key : string) : option string :=
  process_env h !! key.

Definition hasEnv (h : Host) (key : string) : bool :=
  match process_env h !! key with
  | Some _ => true
  | None => false
  end.

Definition getEnvBoolean (h : Host) (key : string) (defaultValue : bool) : bool :=
  match getEnv h key with
  | None => defaultValue
  | Some value =>
      if negb (Js.truthy value) then defaultValue
      else String.eqb (Js.toLowerCase value) "true" || String.eqb value "1"
  end.

(** *** utils/file.ts *)

Definition fileExists (h : Host) (path : string) : bool :=
  try_catch (exc_bind (accessSync (fs h) path) (fun _ => Ok true)) false.

Definition readFile (h : Host) (path : string) : option string :=
  try_catch (exc_bind (readFileSync (fs h) path) (fun s => Ok (Some s))) None.

Definition isDirectory (h : Host) (path : string) : bool :=
  try_catch (exc_bind (statSync (fs h) path) (fun stats => Ok stats)) false.

(** ** core/constants.ts *)

Module Constants.

Definition DEFAULT_CACHE_TIMEOUT : Z := 60000.

Module CI_ENV_VARS.
Definition CI := "CI".
Definition CONTINUOUS_INTEGRATION := "CONTINUOUS_INTEGRATION".
Definition BUILD_NUMBER := "BUILD_NUMBER".
Definition CI_NAME := "CI_NAME".
End CI_ENV_VARS.

Module CI_PROVIDER_ENV_VARS.
Definition GITHUB_ACTIONS := "GITHUB_ACTIONS".
Definition GITLAB_CI := "GITLAB_CI".
Definition TRAVIS := "TRAVIS".
Definition CIRCLECI := "CIRCLECI".
Definition JENKINS_URL := "JENKINS_URL".
Definition BITBUCKET_BUILD_NUMBER := "BITBUCKET_BUILD_NUMBER".
Definition TEAMCITY_VERSION := "TEAMCITY_VERSION".
Definition APPVEYOR := "APPVEYOR".
Definition CODEBUILD_BUILD_ID := "CODEBUILD_BUILD_ID".
Definition TF_BUILD := "TF_BUILD".

(** [Object.values(CI_PROVIDER_ENV_VARS)], in insertion order *)
Definition values : list string :=
  [GITHUB_ACTIONS; GITLAB_CI; TRAVIS; CIRCLECI; JENKINS_URL;
   BITBUCKET_BUILD_NUMBER; TEAMCITY_VERSION; APPVEYOR;
   CODEBUILD_BUILD_ID; TF_BUILD].
End CI_PROVIDER_ENV_VARS.

Module CONTAINER_FILES.
Definition DOCKER_ENV := "/.dockerenv".
Definition DOCKER_INIT := "/.dockerinit".
Definition WSL_INTEROP := "/run/WSL".
Definition KUBERNETES_SERVICE := "/var/run/secrets/kubernetes.io".
End CONTAINER_FILES.

Module WSL_INDICATORS.
Definition ENV_VAR := "WSL_DISTRO_NAME".
Definition PROC_VERSION := "Microsoft".
Definition PROC_SYS := "/proc/sys/fs/binfmt_misc/WSLInterop".
End WSL_INDICATORS.

End Constants.

(** ** detectors/ci.ts *)

Module CI.
Import Constants.

Inductive CIProvider : Type :=
| github_actions | gitlab_ci | jenkins | circleci | travis_ci
| azure_pipelines | bitbucket_pipelines | teamcity | appveyor
| codebuild | unknown.

Record CIInfo : Type := {
  isCI : bool;
  name : option string;
  isPR : option bool;
  provider : option CIProvider;
}.

Definition detectCI (h : Host) : bool :=
  if getEnvBoolean h CI_ENV_VARS.CI false
     || getEnvBoolean h CI_ENV_VARS.CONTINUOUS_INTEGRATION false
     || hasEnv h CI_ENV_VARS.BUILD_NUMBER
     || hasEnv h CI_ENV_VARS.CI_NAME
  then true
  else existsb (hasEnv h) CI_PROVIDER_ENV_VARS.values.

Definition detectCIProvider (h : Host) : CIProvider :=
  if getEnvBoolean h CI_PROVIDER_ENV_VARS.GITHUB_ACTIONS false then github_actions
  else if getEnvBoolean h CI_PROVIDER_ENV_VARS.GITLAB_CI false then gitlab_ci
  else if getEnvBoolean h CI_PROVIDER_ENV_VARS.TRAVIS false then travis_ci
  else if getEnvBoolean h CI_PROVIDER_ENV_VARS.CIRCLECI false then circleci
  else if hasEnv h CI_PROVIDER_ENV_VARS.JENKINS_URL then jenkins
  else if getEnvBoolean h CI_PROVIDER_ENV_VARS.TF_BUILD false then azure_pipelines
  else if hasEnv h CI_PROVIDER_ENV_VARS.BITBUCKET_BUILD_NUMBER then bitbucket_pipelines
  else if hasEnv h CI_PROVIDER_ENV_VARS.TEAMCITY_VERSION then teamcity
  else if getEnvBoolean h CI_PROVIDER_ENV_VARS.APPVEYOR false then appveyor
  else if hasEnv h CI_PROVIDER_ENV_VARS.CODEBUILD_BUILD_ID then codebuild
  else unknown.

Definition getCIName (h : Host) (p : CIProvider) : string :=
  match p with
  | github_actions => "GitHub Actions"
  | gitlab_ci => "GitLab CI"
  | travis_ci => "Travis CI"
  | circleci => "CircleCI"
  | jenkins => "Jenkins"
  | azure_pipelines => "Azure Pipelines"
  | bitbucket_pipelines => "Bitbucket Pipelines"
  | teamcity => "TeamCity"
  | appveyor => "AppVeyor"
  | codebuild => "AWS CodeBuild"
  | unknown => Js.or_else (getEnv h CI_ENV_VARS.CI_NAME) "Unknown CI"
  end.

(** [getEnv(key) === lit]; [undefined] equals no literal *)
Definition env_is (h : Host) (key lit : string) : bool :=
  match getEnv h key with
  | Some v => String.eqb v lit
  | None => false
  end.

Definition detectPullRequest (h : Host) (p : CIProvider) : bool :=
  match p with
  | github_actions => env_is h "GITHUB_EVENT_NAME" "pull_request"
  | gitlab_ci => hasEnv h "CI_MERGE_REQUEST_ID" || hasEnv h "CI_EXTERNAL_PULL_REQUEST_IID"
  | travis_ci => negb (env_is h "TRAVIS_PULL_REQUEST" "false")
  | circleci => hasEnv h "CIRCLE_PULL_REQUEST" || hasEnv h "CIRCLE_PR_NUMBER"
  | jenkins => hasEnv h "CHANGE_ID" || hasEnv h "ghprbPullId"
  | azure_pipelines => hasEnv h "SYSTEM_PULLREQUEST_PULLREQUESTID"
  | bitbucket_pipelines => hasEnv h "BITBUCKET_PR_ID"
  | teamcity => hasEnv h "TEAMCITY_PULL_REQUEST_NUMBER"
  | appveyor => hasEnv h "APPVEYOR_PULL_REQUEST_NUMBER"
  | codebuild =>
      (hasEnv h "CODEBUILD_WEBHOOK_HEAD_REF" &&
       match getEnv h "CODEBUILD_WEBHOOK_HEAD_REF" with
       | Some v => Js.startsWith v "refs/pull/"
       | None => false
       end) || false
  | unknown => hasEnv h "PR_NUMBER" || hasEnv h "PULL_REQUEST_ID" || hasEnv h "PULL_REQUEST"
  end.

Definition performDetection (h : Host) : CIInfo :=
  let isCI := detectCI h in
  if negb isCI then
    {| isCI := false; name := None; isPR := None; provider := None |}
  else
    let provider := detectCIProvider h in
    let name := getCIName h provider in
    let isPR := detectPullRequest h provider in
    {| isCI := isCI; name := Some name; isPR := Some isPR; provider := Some provider |}.

End CI.

(** ** detectors/os.ts *)

Module OS.

Inductive OSType : Type := windows | macos | linux | unknown.

Record OSInfo : Type := {
  platform : string;
  type : OSType;
  version : string;
  release : string;
  arch : string;
  isWindows : bool;
  isMacOS : bool;
  isLinux : bool;
}.

(** The record of the [catch] branch. *)
Definition fallback : OSInfo :=
  {| platform := "linux"; type := unknown; arch := "unknown";
     release := "unknown"; version := "unknown";
     isWindows := false; isMacOS := false; isLinux := false |}.

(** The body of the [try] block: the four probes in source order, then
    the [switch] on the platform identifier, which starts from
    [unknown] and three [false] flags and assigns in one case at most. *)
Definition probe (h : Host) : Exc OSInfo :=
  (let? platform := os_platform (os h) in
   let? release := os_release (os h) in
   let? version := match os_version (os h) with
                   | Some call => call
                   | None => Ok release
                   end in
   let? arch := os_arch (os h) in
   let '(type, isWindows, isMacOS, isLinux) :=
     if String.eqb platform "win32" then (windows, true, false, false)
     else if String.eqb platform "darwin" then (macos, false, true, false)
     else if String.eqb platform "linux" then (linux, false, false, true)
     else (unknown, false, false, false) in
   Ok {| platform := platform; type := type; version := version;
         release := release; arch := arch;
         isWindows := isWindows; isMacOS := isMacOS; isLinux := isLinux |})%exc.

Definition performDetection (h : Host) : OSInfo :=
  try_catch (probe h) fallback.

End OS.

(** ** detectors/container.ts *)

Module Container.
Import Constants.

Inductive ContainerType : Type := docker | wsl | kubernetes | unknown.

Record ContainerInfo : Type := {
  isContainer : bool;
  isDocker : bool;
  isWSL : bool;
  isKubernetes : bool;
  containerType : option ContainerType;
  wslVersion : option Z;
  wslDistro : option string;
}.

(** The object [detectWSL] returns. *)
Record WslInfo : Type := {
  wsl_isWSL : bool;
  wsl_version : option Z;
  wsl_distro : option string;
}.

(** *** The three regular expressions *)

(** The longest prefix of decimal digits, and what follows it. *)
Fixpoint digits (s : string) : string * string :=
  match s with
  | EmptyString => (EmptyString, EmptyString)
  | String c s' =>
      if Js.isDigit c then let (d, r) := digits s' in (String c d, r)
      else (EmptyString, s)
  end.

(** [/(\d+)\.(\d+)\.(\d+)/] tried at the first character of [s]: the
    three captured groups. *)
Definition triadAt (s : string) : option (string * string * string) :=
  let (d1, r1) := digits s in
  match d1, r1 with
  | String _ _, String "." r1' =>
      let (d2, r2) := digits r1' in
      match d2, r2 with
      | String _ _, String "." r2' =>
          let (d3, _) := digits r2' in
          match d3 with
          | String _ _ => Some (d1, d2, d3)
          | EmptyString => None
          end
      | _, _ => None
      end
  | _, _ => None
  end.

(** [s.match(/(\d+)\.(\d+)\.(\d+)/)]: the leftmost position at which
    the expression matches. *)
Fixpoint matchKernel (s : string) : option (string * string * string) :=
  match triadAt s with
  | Some groups => Some groups
  | None =>
      match s with
      | EmptyString => None
      | String _ s' => matchKernel s'
      end
  end.

(** The value of the leading decimal digits of [s], after [acc]. *)
Fixpoint decimal (acc : Z) (s : string) : Z :=
  match s with
  | EmptyString => acc
  | String c s' =>
      if Js.isDigit c then decimal (10 * acc + Z.of_nat (nat_of_ascii c - 48))%Z s'
      else acc
  end.

(** [parseInt(s, 10)] on the digit strings the code passes to it;
    [None] is [NaN]. *)
Definition parseDigits (s : string) : option Z :=
  match s with
  | EmptyString => None
  | String c _ => if Js.isDigit c then Some (decimal 0 s) else None
  end.

(** The segments of [s] between dashes. *)
Fixpoint splitDash (s : string) : list string :=
  match s with
  | EmptyString => [EmptyString]
  | String c s' =>
      if Ascii.eqb c "-" then EmptyString :: splitDash s'
      else match splitDash s' with
           | seg :: segs => String c seg :: segs
           | [] => [String c EmptyString]
           end
  end.

Fixpoint allLowerAlnum (s : string) : bool :=
  match s with
  | EmptyString => true
  | String c s' => Js.isLowerAlnum c && allLowerAlnum s'
  end.

(** [/^[a-z0-9]+-[a-z0-9]+-[a-z0-9]+(-[a-z0-9]+)*$/.test(s)]: three or
    more non-empty dash-separated segments over [[a-z0-9]]. *)
Definition k8sHostnamePattern (s : string) : bool :=
  let segs := splitDash s in
  (3 <=? length segs)%nat &&
  forallb (fun seg => Js.truthy seg && allLowerAlnum seg) segs.

Definition dquote : ascii := ascii_of_nat 34.

Definition isLineTerminator (c : ascii) : bool :=
  Ascii.eqb c (ascii_of_nat 10) || Ascii.eqb c (ascii_of_nat 13).

(** The lines of [s]; a line starts at the first character and after
    every line terminator. *)
Fixpoint lines (s : string) : list string :=
  match s with
  | EmptyString => [EmptyString]
  | String c s' =>
      if isLineTerminator c then EmptyString :: lines s'
      else match lines s' with
           | l :: ls => String c l :: ls
           | [] => [String c EmptyString]
           end
  end.

(** [s] without its last character when that is a double quote which
    something precedes. *)
Fixpoint dropClosingQuote (s : string) : string :=
  match s with
  | EmptyString => EmptyString
  | String c EmptyString => String c EmptyString
  | String c (String d EmptyString) =>
      if Ascii.eqb d dquote then String c EmptyString
      else String c (String d EmptyString)
  | String c s' => String c (dropClosingQuote s')
  end.

(** What [(.+?)] captures when ["?(.+?)"?$] is matched against the
    rest [r] of a line: a leading quote is skipped when something
    follows it, the capture is the shortest non-empty run that leaves
    at most one closing quote before the end of the line. *)
Definition captureName (r : string) : option string :=
  match r with
  | EmptyString => None
  | String c EmptyString => Some r
  | String c r1 =>
      if Ascii.eqb c dquote then Some (dropClosingQuote r1)
      else Some (dropClosingQuote r)
  end.

Definition dropPrefix (n : nat) (s : string) : string :=
  String.substring n (String.length s - n) s.

(** [s.match(/^NAME="?(.+?)"?$/m)]: group 1 of the first line at
    which the expression matches. *)
Definition matchOsReleaseName (s : string) : option string :=
  let fix first (ls : list string) : option string :=
    match ls with
    | [] => None
    | l :: ls' =>
        if Js.startsWith l "NAME=" then
          match captureName (dropPrefix 5 l) with
          | Some x => Some x
          | None => first ls'
          end
        else first ls'
    end in
  first (lines s).

(** *** The probes *)

Definition detectDocker (h : Host) : bool :=
  if fileExists h CONTAINER_FILES.DOCKER_ENV || fileExists h CONTAINER_FILES.DOCKER_INIT
  then true
  else
    let cgroupContent := readFile h "/proc/self/cgroup" in
    if match cgroupContent with
       | Some c => Js.truthy c && (Js.includes c "docker" || Js.includes c "containerd")
       | None => false
       end
    then true
    else
      let initCgroupContent := readFile h "/proc/1/cgroup" in
      if match initCgroupContent with
         | Some c => Js.truthy c && (Js.includes c "docker" || Js.includes c "containerd")
         | None => false
         end
      then true
      else
        let mountInfo := readFile h "/proc/self/mountinfo" in
        if match mountInfo with
           | Some c => Js.truthy c && Js.includes c "docker"
           | None => false
           end
        then true
        else false.

Definition getWSLVersion (h : Host) : option Z :=
  match readFile h "/proc/version" with
  | Some procVersion =>
      if Js.truthy procVersion then
        if Js.includes procVersion "WSL2"
           || Js.includes procVersion "microsoft-standard-WSL2"
        then Some 2%Z
        else if Js.includes procVersion "Microsoft" || Js.includes procVersion "WSL"
        then
          match matchKernel procVersion with
          | Some (g1, _, _) =>
              match parseDigits (Js.or_else (Some g1) "0") with
              | Some majorVersion =>
                  if (5 <=? majorVersion)%Z then Some 2%Z else Some 1%Z
              | None => Some 1%Z
              end
          | None => Some 1%Z
          end
        else None
      else None
  | None => None
  end.

Definition getWSLDistro (h : Host) : option string :=
  let envDistro := getEnv h WSL_INDICATORS.ENV_VAR in
  if Js.truthy_opt envDistro then envDistro
  else
    match readFile h "/etc/os-release" with
    | Some osRelease =>
        if Js.truthy osRelease then
          match matchOsReleaseName osRelease with
          | Some name => Some name
          | None => None
          end
        else None
    | None => None
    end.

Definition notWSL : WslInfo :=
  {| wsl_isWSL := false; wsl_version := None; wsl_distro := None |}.

Definition detectWSL (h : Host) : Exc WslInfo :=
  (let? platform := os_platform (os h) in
   if String.eqb platform "win32" then Ok notWSL
   else
     let wslDistro := getEnv h WSL_INDICATORS.ENV_VAR in
     if Js.truthy_opt wslDistro then
       Ok {| wsl_isWSL := true; wsl_version := getWSLVersion h; wsl_distro := wslDistro |}
     else
       let procVersion := readFile h "/proc/version" in
       if match procVersion with
          | Some c =>
              Js.truthy c &&
              Js.includes (Js.toLowerCase c) (Js.toLowerCase WSL_INDICATORS.PROC_VERSION)
          | None => false
          end
       then
         Ok {| wsl_isWSL := true; wsl_version := getWSLVersion h;
               wsl_distro := getWSLDistro h |}
       else if fileExists h WSL_INDICATORS.PROC_SYS
               || isDirectory h CONTAINER_FILES.WSL_INTEROP
       then
         Ok {| wsl_isWSL := true; wsl_version := getWSLVersion h;
               wsl_distro := getWSLDistro h |}
       else if hasEnv h "WSLENV" || hasEnv h "WSL_INTEROP"
       then
         Ok {| wsl_isWSL := true; wsl_version := getWSLVersion h;
               wsl_distro := getWSLDistro h |}
       else Ok notWSL)%exc.

Definition detectKubernetes (h : Host) : Exc bool :=
  if isDirectory h CONTAINER_FILES.KUBERNETES_SERVICE then Ok true
  else if hasEnv h "KUBERNETES_SERVICE_HOST" || hasEnv h "KUBERNETES_PORT" then Ok true
  else
    (let? hostname := os_hostname (os h) in
     if Js.truthy hostname && k8sHostnamePattern hostname
        && fileExists h "/var/run/secrets/kubernetes.io/serviceaccount/token"
     then Ok true
     else Ok false)%exc.

Definition performDetection (h : Host) : Exc ContainerInfo :=
  (let isDocker := detectDocker h in
   let? wslInfo := detectWSL h in
   let? isKubernetes := detectKubernetes h in
   let isContainer := isDocker || wsl_isWSL wslInfo || isKubernetes in
   let containerType :=
     if isDocker then Some docker
     else if wsl_isWSL wslInfo then Some wsl
     else if isKubernetes then Some kubernetes
     else None in
   Ok {| isContainer := isContainer;
         isDocker := isDocker;
         isWSL := wsl_isWSL wslInfo;
         isKubernetes := isKubernetes;
         containerType := containerType;
         wslVersion := wsl_version wslInfo;
         wslDistro := wsl_distro wslInfo |})%exc.

End Container.

(** ** core/cache.ts *)

Module Cache.
Section WithValue.
Context {V : Type}.

Record CacheEntry : Type := {
  value : V;
  timestamp : Z;
  timeout : Z;
}.

(** The fields of the one [Cache] object of the process
    ([Cache.getInstance()]). *)
Record Instance : Type := {
  store : gmap string CacheEntry;
  enabled : bool;
}.

(** [new Cache()] *)
Definition fresh : Instance := {| store := ∅; enabled := true |}.

(** The mutable state the engine runs in: the singleton, and the
    system clock as the sequence of readings that successive calls of
    [Date.now()] return. *)
Record World : Type := {
  instance : Instance;
  clock : nat → Z;
  reads : nat;
}.

Definition with_store (m : gmap string CacheEntry) (w : World) : World :=
  {| instance := {| store := m; enabled := enabled (instance w) |};
     clock := clock w; reads := reads w |}.

Definition with_enabled (b : bool) (w : World) : World :=
  {| instance := {| store := store (instance w); enabled := b |};
     clock := clock w; reads := reads w |}.

(** [Date.now()] *)
Definition Date_now (w : World) : Z * World :=
  (clock w (reads w),
   {| instance := instance w; clock := clock w; reads := S (reads w) |}).

Definition get (key : string) (w : World) : option V * World :=
  if negb (enabled (instance w)) then (None, w)
  else
    match store (instance w) !! key with
    | None => (None, w)
    | Some entry =>
        let (now, w1) := Date_now w in
        if (now - timestamp entry >? timeout entry)%Z
        then (None, with_store (base.delete key (store (instance w1))) w1)
        else (Some (value entry), w1)
    end.

(** The third parameter defaults to [DEFAULT_CACHE_TIMEOUT] when the
    caller passes nothing or [undefined]. *)
Definition set (key : string) (v : V) (timeout : option Z) (w : World) : World :=
  if negb (enabled (instance w)) then w
  else
    let timeout := default Constants.DEFAULT_CACHE_TIMEOUT timeout in
    let (now, w1) := Date_now w in
    with_store
      (<[key := {| value := v; timestamp := now; timeout := timeout |}]>
         (store (instance w1)))
      w1.

Definition has (key : string) (w : World) : bool * World :=
  if negb (enabled (instance w)) then (false, w)
  else
    match store (instance w) !! key with
    | None => (false, w)
    | Some entry =>
        let (now, w1) := Date_now w in
        if (now - timestamp entry >? timeout entry)%Z
        then (false, with_store (base.delete key (store (instance w1))) w1)
        else (true, w1)
    end.

Definition delete (key : string) (w : World) : bool * World :=
  (bool_decide (is_Some (store (instance w) !! key)),
   with_store (base.delete key (store (instance w))) w).

Definition clear (w : World) : World := with_store ∅ w.

Definition enable (w : World) : World := with_enabled true w.

Definition disable (w : World) : World := clear (with_enabled false w).

Definition isEnabled (w : World) : bool := enabled (instance w).

Definition size (w : World) : nat := base.size (store (instance w)).

End WithValue.
Arguments CacheEntry : clear implicits.
Arguments Instance : clear implicits.
Arguments World : clear implicits.
End Cache.

(** ** core/detector.ts *)

Module Detector.
Section WithValue.
Context {V : Type}.

Record DetectorOptions : Type := {
  cache : option bool;
  cacheTimeout : option Z;
  async : option bool;
}.

(** [{}], the default of the constructor's parameter *)
Definition noOptions : DetectorOptions :=
  {| cache := None; cacheTimeout := None; async := None |}.

(** [{ cache: true, cacheTimeout: 60000, async: false, ...options }] *)
Definition withDefaults (options : DetectorOptions) : DetectorOptions :=
  {| cache := Some (default true (cache options));
     cacheTimeout := Some (default 60000%Z (cacheTimeout options));
     async := Some (default false (async options)) |}.

(** Truthiness of [boolean | undefined]. *)
Definition on (flag : option bool) : bool := default false flag.

(** An object of a class that extends [BaseDetector]: its [name], the
    merged options, its [performDetection], and its own
    [performAsyncDetection] when the class overrides the inherited one. *)
Record BaseDetector : Type := {
  name : string;
  options : DetectorOptions;
  performDetection : Host → Exc V;
  performAsyncDetection_override : option (Host → Exc V);
}.

(** The constructor, for a class that does not override
    [performAsyncDetection]. *)
Definition new (name : string) (performDetection : Host → Exc V)
    (options : DetectorOptions) : BaseDetector :=
  {| name := name;
     options := withDefaults options;
     performDetection := performDetection;
     performAsyncDetection_override := None |}.

Definition getCacheKey (d : BaseDetector) : string :=
  "detector:" +:+ name d.

(** The outcome of the promise [performAsyncDetection()] returns; the
    inherited method is [return this.performDetection()]. *)
Definition performAsyncDetection (d : BaseDetector) (h : Host) : Exc V :=
  match performAsyncDetection_override d with
  | Some routine => routine h
  | None => performDetection d h
  end.

(** A computation over the world that returns or throws. *)
Definition M (A : Type) : Type := Cache.World V → Exc A * Cache.World V.

Definition ret {A} (a : A) : M A := fun w => (Ok a, w).

Definition bind {A B} (m : M A) (k : A → M B) : M B :=
  fun w => match m w with
           | (Ok a, w1) => k a w1
           | (Throw e, w1) => (Throw e, w1)
           end.

(** The cache lookup both detection paths start with. *)
Definition lookupCached (d : BaseDetector) (w : Cache.World V)
    : option V * Cache.World V :=
  if on (cache (options d)) then Cache.get (getCacheKey d) w else (None, w).

(** The cache write both detection paths end with. *)
Definition storeResult (d : BaseDetector) (result : V) (w : Cache.World V)
    : Cache.World V :=
  if on (cache (options d))
  then Cache.set (getCacheKey d) result (cacheTimeout (options d)) w
  else w.

Definition detectSync (d : BaseDetector) (h : Host) : M V :=
  fun w =>
    let (cached, w1) := lookupCached d w in
    match cached with
    | Some v => (Ok v, w1)
    | None =>
        match performDetection d h with
        | Throw e => (Throw e, w1)
        | Ok result => (Ok result, storeResult d result w1)
        end
    end.

(** A promise of an asynchronous detection: what is left to run when
    the function resumes after its [await], or nothing but the value
    when it returned without awaiting. *)
Definition Promise : Type := M V.

(** [await p] *)
Definition await (p : Promise) : M V := p.

(** The part of [detectAsync] that runs before control returns to the
    caller: the cache lookup and, on a miss, the call of
    [performAsyncDetection], whose body runs at once.  The cache write
    is in the returned promise. *)
Definition detectAsync (d : BaseDetector) (h : Host) (w : Cache.World V)
    : Promise * Cache.World V :=
  let (cached, w1) := lookupCached d w in
  match cached with
  | Some v => (ret v, w1)
  | None =>
      let outcome := performAsyncDetection d h in
      (fun w' =>
         match outcome with
         | Throw e => (Throw e, w')
         | Ok result => (Ok result, storeResult d result w')
         end,
       w1)
  end.

(** [T | Promise<T>] *)
Inductive Detected : Type :=
| Value (v : V)
| Deferred (p : Promise).

Definition detect (d : BaseDetector) (h : Host) : M Detected :=
  fun w =>
    if on (async (options d)) then
      let (p, w1) := detectAsync d h w in (Ok (Deferred p), w1)
    else
      match detectSync d h w with
      | (Ok v, w1) => (Ok (Value v), w1)
      | (Throw e, w1) => (Throw e, w1)
      end.

Definition reset (d : BaseDetector) (w : Cache.World V) : Cache.World V :=
  snd (Cache.delete (getCacheKey d) w).

(** [await Promise.resolve(x)] for [x : T | Promise<T>] *)
Definition settle (x : Detected) : M V :=
  match x with
  | Value v => ret v
  | Deferred p => await p
  end.

End WithValue.
Arguments DetectorOptions : clear implicits.
Arguments BaseDetector : clear implicits.
Arguments Detected : clear implicits.
Arguments Promise : clear implicits.
Arguments M : clear implicits.
End Detector.

(** ** index.ts *)

Module Facade.
Section WithRoutines.
Context {V : Type}.
Import Detector.

(** The [performDetection] methods of the seven detector classes.
    None of the seven overrides [performAsyncDetection]. *)
Variables (osRoutine containerRoutine ciRoutine cloudRoutine
           nodeRoutine modeRoutine privilegeRoutine : Host → Exc V).

Definition OSDetector := @new V "os" osRoutine.
Definition ContainerDetector := @new V "container" containerRoutine.
Definition CIDetector := @new V "ci" ciRoutine.
Definition CloudDetector := @new V "cloud" cloudRoutine.
Definition NodeDetector := @new V "node" nodeRoutine.
Definition EnvironmentModeDetector := @new V "mode" modeRoutine.
Definition PrivilegeDetector := @new V "privileges" privilegeRoutine.

(** The detector fields of an [EnvironmentDetector]; its [cache] field
    is the singleton of the world. *)
Record EnvironmentDetector : Type := {
  osDetector : BaseDetector V;
  containerDetector : BaseDetector V;
  ciDetector : BaseDetector V;
  cloudDetector : BaseDetector V;
  nodeDetector : BaseDetector V;
  modeDetector : BaseDetector V;
  privilegeDetector : BaseDetector V;
}.

Definition withOptions (options : DetectorOptions) : EnvironmentDetector :=
  {| osDetector := OSDetector options;
     containerDetector := ContainerDetector options;
     ciDetector := CIDetector options;
     cloudDetector := CloudDetector options;
     nodeDetector := NodeDetector options;
     modeDetector := EnvironmentModeDetector options;
     privilegeDetector := PrivilegeDetector options |}.

(** [new EnvironmentDetector(options?)]: the object, and the world the
    constructor leaves. *)
Definition constructor (options : option DetectorOptions) (w : Cache.World V)
    : EnvironmentDetector * Cache.World V :=
  match options with
  | Some options =>
      (withOptions options,
       match cache options with
       | Some false => Cache.disable w
       | _ => w
       end)
  | None => (withOptions noOptions, w)
  end.

Record EnvironmentInfo (A : Type) : Type := {
  os : A;
  container : A;
  ci : A;
  cloud : A;
  node : A;
  privileges : A;
  mode : A;
}.
Arguments os {A}.
Arguments container {A}.
Arguments ci {A}.
Arguments cloud {A}.
Arguments node {A}.
Arguments privileges {A}.
Arguments mode {A}.

(** The fields hold what [detect()] returned, cast to [any]. *)
Definition getEnvironmentInfo (self : EnvironmentDetector) (h : Host)
    : M V (EnvironmentInfo (Detected V)) :=
  bind (detect (osDetector self) h) (fun os =>
  bind (detect (containerDetector self) h) (fun container =>
  bind (detect (ciDetector self) h) (fun ci =>
  bind (detect (cloudDetector self) h) (fun cloud =>
  bind (detect (nodeDetector self) h) (fun node =>
  bind (detect (privilegeDetector self) h) (fun privileges =>
  bind (detect (modeDetector self) h) (fun mode =>
  ret {| os := os; container := container; ci := ci; cloud := cloud;
         node := node; privileges := privileges; mode := mode |}))))))).

(** [Promise.all] over seven settled outcomes: the record of the
    values, or the first rejection. *)
Definition all (os container ci cloud node privileges mode : Exc V)
    : Exc (EnvironmentInfo V) :=
  (let? os := os in
   let? container := container in
   let? ci := ci in
   let? cloud := cloud in
   let? node := node in
   let? privileges := privileges in
   let? mode := mode in
   Ok {| os := os; container := container; ci := ci; cloud := cloud;
         node := node; privileges := privileges; mode := mode |})%exc.

(** [getEnvironmentInfoAsync()] run until its promise settles.  The
    array literal calls the seven [detect()] in order, and a
    synchronous throw among them rejects at once; then every pending
    detection resumes, in call order. *)
Definition getEnvironmentInfoAsync (self : EnvironmentDetector) (h : Host)
    : M V (EnvironmentInfo V) :=
  bind (detect (osDetector self) h) (fun d1 =>
  bind (detect (containerDetector self) h) (fun d2 =>
  bind (detect (ciDetector self) h) (fun d3 =>
  bind (detect (cloudDetector self) h) (fun d4 =>
  bind (detect (nodeDetector self) h) (fun d5 =>
  bind (detect (privilegeDetector self) h) (fun d6 =>
  bind (detect (modeDetector self) h) (fun d7 =>
  fun w =>
    let (o1, w1) := settle d1 w in
    let (o2, w2) := settle d2 w1 in
    let (o3, w3) := settle d3 w2 in
    let (o4, w4) := settle d4 w3 in
    let (o5, w5) := settle d5 w4 in
    let (o6, w6) := settle d6 w5 in
    let (o7, w7) := settle d7 w6 in
    (all o1 o2 o3 o4 o5 o6 o7, w7)))))))).

Definition clearCache (w : Cache.World V) : Cache.World V := Cache.clear w.
Definition enableCache (w : Cache.World V) : Cache.World V := Cache.enable w.
Definition disableCache (w : Cache.World V) : Cache.World V := Cache.disable w.

Definition reset (self : EnvironmentDetector) (w : Cache.World V) : Cache.World V :=
  Detector.reset (privilegeDetector self)
    (Detector.reset (modeDetector self)
      (Detector.reset (nodeDetector self)
        (Detector.reset (cloudDetector self)
          (Detector.reset (ciDetector self)
            (Detector.reset (containerDetector self)
              (Detector.reset (osDetector self) w)))))).

Definition getPackageInfo_cacheEnabled (w : Cache.World V) : bool :=
  Cache.isEnabled w.

End WithRoutines.
Arguments EnvironmentDetector : clear implicits.
Arguments os {A}.
Arguments container {A}.
Arguments ci {A}.
Arguments cloud {A}.
Arguments node {A}.
Arguments privileges {A}.
Arguments mode {A}.
End Facade.

(** ** plugins/base.ts and plugins/manager.ts *)

Module Plugins.
Section WithDetectors.
(** The detector objects plugins carry, and their [name] property. *)
Context {D : Type} (detectorName : D → string).

(** What [emit] was called with: the event, the plugin of the payload,
    and the payload's [error] rendered as text, when it has one.  The
    registered handlers run inside [emit], which swallows whatever they
    throw; they are observers and stay outside the model. *)
Record Emitted : Type := {
  event : string;
  pluginName : string;
  error : option string;
}.

Record PluginContextImpl : Type := {
  detectors : gmap string D;
  emitted : list Emitted;
}.

(** [new PluginContextImpl()] *)
Definition emptyContext : PluginContextImpl :=
  {| detectors := ∅; emitted := [] |}.

Definition registerDetector (detector : D) (ctx : PluginContextImpl) : PluginContextImpl :=
  {| detectors := <[detectorName detector := detector]> (detectors ctx);
     emitted := emitted ctx |}.

Definition unregisterDetector (name : string) (ctx : PluginContextImpl) : PluginContextImpl :=
  {| detectors := base.delete name (detectors ctx);
     emitted := emitted ctx |}.

Definition getDetector (name : string) (ctx : PluginContextImpl) : option D :=
  detectors ctx !! name.

Definition emit (event : string) (pluginName : string) (error : option string)
    (ctx : PluginContextImpl) : PluginContextImpl :=
  {| detectors := detectors ctx;
     emitted := emitted ctx ++ [{| event := event; pluginName := pluginName; error := error |}] |}.

(** A lifecycle hook run to completion: it may change the context it
    was handed at installation, and it returns, or throws or rejects. *)
Definition Hook : Type := PluginContextImpl → Exc unit * PluginContextImpl.

Record Plugin : Type := {
  name : string;
  version : string;
  description : option string;
  plugin_detectors : list D;
  install : option Hook;
  uninstall : option Hook;
}.

(** [BasePlugin.install]: register every detector of the plugin, then
    run [onInstall] when the subclass defines it. *)
Definition BasePlugin_install (detectors : list D) (onInstall : option Hook) : Hook :=
  fun ctx =>
    let ctx1 := fold_left (fun c d => registerDetector d c) detectors ctx in
    match onInstall with
    | Some hook => hook ctx1
    | None => (Ok tt, ctx1)
    end.

(** [BasePlugin.uninstall]: run [onUninstall] when the subclass defines it. *)
Definition BasePlugin_uninstall (onUninstall : option Hook) : Hook :=
  fun ctx =>
    match onUninstall with
    | Some hook => hook ctx
    | None => (Ok tt, ctx)
    end.

(** An object of a class that extends [BasePlugin]. *)
Definition BasePlugin (name version : string) (detectors : list D)
    (onInstall onUninstall : option Hook) : Plugin :=
  {| name := name; version := version; description := None;
     plugin_detectors := detectors;
     install := Some (BasePlugin_install detectors onInstall);
     uninstall := Some (BasePlugin_uninstall onUninstall) |}.

(** The fields of the [PluginManagerImpl] singleton. *)
Record PluginManagerImpl : Type := {
  plugins : gmap string Plugin;
  context : PluginContextImpl;
}.

Definition emptyManager : PluginManagerImpl :=
  {| plugins := ∅; context := emptyContext |}.

(** [hook?.(...)] *)
Definition callOptional (hook : option Hook) : Hook :=
  match hook with
  | Some f => f
  | None => fun ctx => (Ok tt, ctx)
  end.

(** [new Error(message)] as a template literal renders it *)
Definition Error (message : string) : string := "Error: " +:+ message.

(** [use(plugin)], run to completion. *)
Definition use (plugin : Plugin) (self : PluginManagerImpl)
    : Exc unit * PluginManagerImpl :=
  match plugins self !! name plugin with
  | Some _ =>
      (Throw (Error ("Plugin '" +:+ name plugin +:+ "' is already installed")), self)
  | None =>
      match callOptional (install plugin) (context self) with
      | (Ok _, ctx1) =>
          (Ok tt,
           {| plugins := <[name plugin := plugin]> (plugins self);
              context := emit "plugin:installed" (name plugin) None ctx1 |})
      | (Throw error, ctx1) =>
          (Throw (Error ("Failed to install plugin '" +:+ name plugin +:+ "': " +:+ error)),
           {| plugins := plugins self;
              context := emit "plugin:error" (name plugin) (Some error) ctx1 |})
      end
  end.

(** [remove(pluginName)], run to completion. *)
Definition remove (pluginName : string) (self : PluginManagerImpl)
    : Exc unit * PluginManagerImpl :=
  match plugins self !! pluginName with
  | None =>
      (Throw (Error ("Plugin '" +:+ pluginName +:+ "' is not installed")), self)
  | Some plugin =>
      let ctx1 :=
        fold_left (fun c d => unregisterDetector (detectorName d) c)
                  (plugin_detectors plugin) (context self) in
      match callOptional (uninstall plugin) ctx1 with
      | (Ok _, ctx2) =>
          (Ok tt,
           {| plugins := base.delete pluginName (plugins self);
              context := emit "plugin:removed" (name plugin) None ctx2 |})
      | (Throw error, ctx2) =>
          (Throw (Error ("Failed to remove plugin '" +:+ pluginName +:+ "': " +:+ error)),
           {| plugins := plugins self;
              context := emit "plugin:error" (name plugin) (Some error) ctx2 |})
      end
  end.

Definition get (pluginName : string) (self : PluginManagerImpl) : option Plugin :=
  plugins self !! pluginName.

End WithDetectors.
Arguments PluginContextImpl : clear implicits.
Arguments Plugin : clear implicits.
Arguments PluginManagerImpl : clear implicits.
Arguments Hook : clear implicits.
End Plugins.

(** ** The three detector classes modelled in full *)

Module Builtin.

Definition OSDetector : Detector.DetectorOptions → Detector.BaseDetector OS.OSInfo :=
  Detector.new "os" (fun h => Ok (OS.performDetection h)).

Definition ContainerDetector
    : Detector.DetectorOptions → Detector.BaseDetector Container.ContainerInfo :=
  Detector.new "container" Container.performDetection.

Definition CIDetector : Detector.DetectorOptions → Detector.BaseDetector CI.CIInfo :=
  Detector.new "ci" (fun h => Ok (CI.performDetection h)).

End Builtin.

(** ** Vocabulary of the statements *)

(** Every entry the cache holds under [key] satisfies [P]. *)
Definition cache_holds {V : Type} (P : V → Prop) (key : string) (w : Cache.World V) : Prop :=
  ∀ e, Cache.store (Cache.instance w) !! key = Some e → P (Cache.value e).

(** A call threw. *)
Definition threw {A : Type} (x : Exc A) : Prop :=
  match x with
  | Throw _ => True
  | Ok _ => False
  end.

(** A CI record that is not CI has no other field. *)
Definition bare_when_not_ci (r : CI.CIInfo) : Prop :=
  CI.isCI r = false → CI.name r = None ∧ CI.provider r = None ∧ CI.isPR r = None.

(** At most one of the three family flags of an OS record is true. *)
Definition at_most_one_family (r : OS.OSInfo) : Prop :=
  (OS.isWindows r = true → OS.isMacOS r = false ∧ OS.isLinux r = false)
  ∧ (OS.isMacOS r = true → OS.isWindows r = false ∧ OS.isLinux r = false)
  ∧ (OS.isLinux r = true → OS.isWindows r = false ∧ OS.isMacOS r = false).

(** Reading the OS information fails: one of the calls inside the
    [try] block of the OS detector throws. *)
Definition os_reading_fails (h : Host) : Prop :=
  threw (os_platform (os h))
  ∨ threw (os_release (os h))
  ∨ match os_version (os h) with
    | Some call => threw call
    | None => False
    end
  ∨ threw (os_arch (os h)).

(** The relations among the fields of a container record. *)
Definition container_consistent (r : Container.ContainerInfo) : Prop :=
  Container.isContainer r
    = Container.isDocker r || Container.isWSL r || Container.isKubernetes r
  ∧ (is_Some (Container.containerType r) ↔ Container.isContainer r = true)
  ∧ (Container.isDocker r = true → Container.containerType r = Some Container.docker)
  ∧ Container.containerType r =
      (if Container.isDocker r then Some Container.docker
       else if Container.isWSL r then Some Container.wsl
       else if Container.isKubernetes r then Some Container.kubernetes
       else None).

(** The outcome of a call, with [f] applied to what it returned. *)
Definition exc_map {A B : Type} (f : A → B) (x : Exc A) : Exc B :=
  match x with
  | Ok a => Ok (f a)
  | Throw e => Throw e
  end.

(** An environment record, with [f] applied to each field. *)
Definition info_map {A B : Type} (f : A → B) (i : Facade.EnvironmentInfo A)
    : Facade.EnvironmentInfo B :=
  {| Facade.os := f (Facade.os i);
     Facade.container := f (Facade.container i);
     Facade.ci := f (Facade.ci i);
     Facade.cloud := f (Facade.cloud i);
     Facade.node := f (Facade.node i);
     Facade.privileges := f (Facade.privileges i);
     Facade.mode := f (Facade.mode i) |}.

(** The clock does not move: every reading is the same. *)
Definition stable_clock {V : Type} (w : Cache.World V) : Prop :=
  ∀ n, Cache.clock w n = Cache.clock w 0.

(** [w] is [w0] but for the entries under the keys of [K] and the
    number of clock readings taken. *)
Definition same_outside {V : Type} (K : list string) (w0 w : Cache.World V) : Prop :=
  Cache.enabled (Cache.instance w) = Cache.enabled (Cache.instance w0)
  ∧ Cache.clock w = Cache.clock w0
  ∧ ∀ k, k ∉ K → Cache.store (Cache.instance w) !! k = Cache.store (Cache.instance w0) !! k.

(** Options [o] with the [async] flag set to [b]. *)
Definition withAsync (b : bool) (o : Detector.DetectorOptions) : Detector.DetectorOptions :=
  {| Detector.cache := Detector.cache o;
     Detector.cacheTimeout := Detector.cacheTimeout o;
     Detector.async := Some b |}.

(** Every detector of the facade has its [async] option equal to [b]. *)
Definition all_in_mode {V : Type} (b : bool) (self : Facade.EnvironmentDetector V) : Prop :=
  Detector.on (Detector.async (Detector.options (Facade.osDetector self))) = b
  ∧ Detector.on (Detector.async (Detector.options (Facade.containerDetector self))) = b
  ∧ Detector.on (Detector.async (Detector.options (Facade.ciDetector self))) = b
  ∧ Detector.on (Detector.async (Detector.options (Facade.cloudDetector self))) = b
  ∧ Detector.on (Detector.async (Detector.options (Facade.nodeDetector self))) = b
  ∧ Detector.on (Detector.async (Detector.options (Facade.privilegeDetector self))) = b
  ∧ Detector.on (Detector.async (Detector.options (Facade.modeDetector self))) = b.

(** A string of decimal digits, possibly empty. *)
Fixpoint allDigits (s : string) : bool :=
  match s with
  | EmptyString => true
  | String c s' => Js.isDigit c && allDigits s'
  end.

(** A decimal number: one digit or more. *)
Definition number (s : string) : Prop := s ≠ "" ∧ allDigits s = true.

Definition startsWithDigit (s : string) : bool :=
  match s with
  | EmptyString => false
  | String c _ => Js.isDigit c
  end.

(** [s] is a dotted triad of numbers, the groups of which are [g],
    followed by something that does not go on with a digit. *)
Definition triad_then (g : string * string * string) (s : string) : Prop :=
  let '(g1, g2, g3) := g in
  ∃ rest, s = g1 +:+ "." +:+ g2 +:+ "." +:+ g3 +:+ rest
          ∧ number g1 ∧ number g2 ∧ number g3 ∧ startsWithDigit rest = false.

(** ** Hosts and worlds used as concrete inputs *)

Module Examples.

(** A file system with the given regular files and directories; every
    other path fails with [ENOENT], reading a directory with [EISDIR]. *)
Definition fsOf (files : gmap string string) (dirs : list string) : Fs :=
  {| accessSync := fun path =>
       match files !! path with
       | Some _ => Ok tt
       | None => if existsb (String.eqb path) dirs then Ok tt else Throw "ENOENT"
       end;
     readFileSync := fun path =>
       match files !! path with
       | Some content => Ok content
       | None => if existsb (String.eqb path) dirs then Throw "EISDIR" else Throw "ENOENT"
       end;
     statSync := fun path =>
       match files !! path with
       | Some _ => Ok false
       | None => if existsb (String.eqb path) dirs then Ok true else Throw "ENOENT"
       end |}.

Definition linuxOs : Os :=
  {| os_platform := Ok "linux";
     os_release := Ok "5.15.0-91-generic";
     os_version := Some (Ok "#101-Ubuntu SMP");
     os_arch := Ok "x64";
     os_hostname := Ok "buildhost" |}.

(** A Linux host with the given environment and regular files. *)
Definition linuxHost (env files : gmap string string) : Host :=
  {| process_env := env; fs := fsOf files []; os := linuxOs |}.

(** An [os] module whose [platform()] throws. *)
Definition brokenOs : Os :=
  {| os_platform := Throw "Error: Platform detection failed";
     os_release := Ok "10.0.19041";
     os_version := Some (Ok "Windows 10 Pro");
     os_arch := Ok "x64";
     os_hostname := Ok "desktop" |}.

(** A world whose cache is new and whose clock stands at [t]. *)
Definition worldAt {V : Type} (t : Z) : Cache.World V :=
  {| Cache.instance := Cache.fresh; Cache.clock := fun _ => t; Cache.reads := 0 |}.

(** [TRAVIS=true] and nothing else. *)
Definition travisHost : Host := linuxHost {[ "TRAVIS" := "true" ]} ∅.

(** [JENKINS_URL=false] and nothing else. *)
Definition jenkinsFalseHost : Host := linuxHost {[ "JENKINS_URL" := "false" ]} ∅.

(** No variable, no file. *)
Definition bareHost : Host := linuxHost ∅ ∅.

(** A host on which [os.platform()] throws, whatever the platform is. *)
Definition brokenHost : Host :=
  {| process_env := ∅; fs := fsOf ∅ []; os := brokenOs |}.

(** The Docker marker file exists and [WSL_DISTRO_NAME] is set. *)
Definition dockerInWslHost : Host :=
  linuxHost {[ "WSL_DISTRO_NAME" := "Ubuntu" ]} {[ "/.dockerenv" := "" ]}.

(** A Linux host whose [/proc/version] holds [content]. *)
Definition procVersionHost (content : string) : Host :=
  linuxHost ∅ {[ "/proc/version" := content ]}.

(** A plugin of a [BasePlugin] subclass that carries one detector and
    whose [onUninstall] throws; detector objects are told apart by
    their names. *)
Definition failingPlugin : Plugins.Plugin string :=
  Plugins.BasePlugin (fun d => d) "mock-plugin" "1.0.0" ["test-detector"]
    None (Some (fun ctx => (Throw "Error: Uninstall failed", ctx))).

(** The manager after [use(failingPlugin)]. *)
Definition managerWithFailingPlugin : Plugins.PluginManagerImpl string :=
  snd (Plugins.use failingPlugin Plugins.emptyManager).

(** [GITHUB_ACTIONS=false] and nothing else. *)
Definition githubFalseHost : Host := linuxHost {[ "GITHUB_ACTIONS" := "false" ]} ∅.

End Examples.

(** ** More of the host language and of the host *)

Module JsText.

(** White space and line terminators, as [trim] and [parseInt] skip them. *)
Definition isWhiteSpace (c : ascii) : bool :=
  let n := nat_of_ascii c in
  ((9 <=? n)%nat && (n <=? 13)%nat) || (n =? 32)%nat.

(** [s.trimStart()] *)
Fixpoint trimStart (s : string) : string :=
  match s with
  | EmptyString => EmptyString
  | String c s' => if isWhiteSpace c then trimStart s' else s
  end.

(** [s.trimEnd()] *)
Fixpoint trimEnd (s : string) : string :=
  match s with
  | EmptyString => EmptyString
  | String c s' =>
      match trimEnd s' with
      | EmptyString => if isWhiteSpace c then EmptyString else String c EmptyString
      | t => String c t
      end
  end.

(** [s.trim()] *)
Definition trim (s : string) : string := trimEnd (trimStart s).

(** [s.split(sep)] for a separator of one character *)
Fixpoint split (sep : ascii) (s : string) : list string :=
  match s with
  | EmptyString => [EmptyString]
  | String c s' =>
      if Ascii.eqb c sep then EmptyString :: split sep s'
      else match split sep s' with
           | seg :: segs => String c seg :: segs
           | [] => [String c EmptyString]
           end
  end.

(** [s.slice(1)] *)
Definition slice1 (s : string) : string :=
  match s with
  | EmptyString => EmptyString
  | String _ s' => s'
  end.

(** [parseInt(s, 10)]: leading white space, a sign, then the decimal
    digits that follow; [None] is [NaN]. *)
Definition parseInt (s : string) : option Z :=
  match trimStart s with
  | String "-" r => option_map Z.opp (Container.parseDigits r)
  | String "+" r => Container.parseDigits r
  | r => Container.parseDigits r
  end.

(** [n || 0] for [n] a number, [NaN] or [undefined] *)
Definition orZero (n : option Z) : Z :=
  match n with
  | Some z => z
  | None => 0%Z
  end.

(** [parts.join(sep)]; an [undefined] element is rendered empty. *)
Fixpoint join (sep : string) (parts : list (option string)) : string :=
  match parts with
  | [] => EmptyString
  | [x] => default EmptyString x
  | x :: rest => default EmptyString x +:+ sep +:+ join sep rest
  end.

End JsText.

(** The [process] object, [os.userInfo] and [child_process.execSync], as
    far as utils/process.ts uses them.  [process.getuid] and
    [process.getgid] are absent on some platforms. *)
Record Process : Type := {
  process_version : string;
  process_getuid : option Z;
  process_getgid : option Z;
  os_userInfo_username : Exc string;
  child_process_execSync : string → Exc string;
}.

(** The global object, as far as the Cloudflare probe looks at it.
    [global] itself may be undefined.  The [caches] property, when
    there is one, is an object that has a [default] property or not, or
    is no object at all; [CloudflareWorker] and [MINIFLARE] are given by
    their truthiness; [navigator], when truthy, by its [userAgent] when
    that is a string. *)
Inductive GlobalCaches : Type :=
| CachesObject (hasDefault : bool)
| CachesNotAnObject.

Record GlobalObject : Type := {
  global_caches : option GlobalCaches;
  global_CloudflareWorker : bool;
  global_MINIFLARE : bool;
  global_navigator : option (option string);
}.

(** *** utils/process.ts, continued *)

Module ProcessUtils.

Definition execSync (p : Process) (command : string) : option string :=
  try_catch
    (exc_bind (child_process_execSync p command) (fun out => Ok (Some (JsText.trim out))))
    None.

Definition getUID (p : Process) : option Z := process_getuid p.

Definition getGID (p : Process) : option Z := process_getgid p.

Definition getUsername (p : Process) : option string :=
  try_catch (exc_bind (os_userInfo_username p) (fun name => Ok (Some name))) None.

Definition isRoot (p : Process) : bool :=
  match getUID p with
  | Some uid => (uid =? 0)%Z
  | None => false
  end.

Record ParsedVersion : Type := {
  pv_version : string;
  pv_major : Z;
  pv_minor : Z;
  pv_patch : Z;
}.

Definition parseNodeVersion (p : Process) : ParsedVersion :=
  let version := process_version p in
  let parts := map JsText.parseInt (JsText.split "." (JsText.slice1 version)) in
  let major := nth 0 parts None in
  let minor := nth 1 parts None in
  let patch := nth 2 parts None in
  {| pv_version := version;
     pv_major := JsText.orZero major;
     pv_minor := JsText.orZero minor;
     pv_patch := JsText.orZero patch |}.

End ProcessUtils.

(** ** core/constants.ts, continued *)

Module MoreConstants.

Module CLOUD_ENV_VARS.
Definition AWS_LAMBDA_FUNCTION_NAME := "AWS_LAMBDA_FUNCTION_NAME".
Definition AWS_EXECUTION_ENV := "AWS_EXECUTION_ENV".
Definition AWS_REGION := "AWS_REGION".
Definition FUNCTION_NAME := "FUNCTION_NAME".
Definition K_SERVICE := "K_SERVICE".
Definition WEBSITE_SITE_NAME := "WEBSITE_SITE_NAME".
Definition VERCEL := "VERCEL".
Definition VERCEL_ENV := "VERCEL_ENV".
Definition NETLIFY := "NETLIFY".
Definition CF_WORKER := "CF_WORKER".
End CLOUD_ENV_VARS.

Module NODE_ENV_VALUES.
Definition DEVELOPMENT := "development".
Definition PRODUCTION := "production".
Definition TEST := "test".
Definition STAGING := "staging".
End NODE_ENV_VALUES.

End MoreConstants.

(** ** detectors/node.ts *)

Module Node.
Import MoreConstants.

Record NodeInfo : Type := {
  version : string;
  major : Z;
  minor : Z;
  patch : Z;
  arch : string;
  platform : string;
}.

Definition performDetection (p : Process) (h : Host) : Exc NodeInfo :=
  (let parsed := ProcessUtils.parseNodeVersion p in
   let? arch := os_arch (os h) in
   let? platform := os_platform (os h) in
   Ok {| version := ProcessUtils.pv_version parsed;
         major := ProcessUtils.pv_major parsed;
         minor := ProcessUtils.pv_minor parsed;
         patch := ProcessUtils.pv_patch parsed;
         arch := arch;
         platform := platform |})%exc.

Inductive EnvironmentMode : Type := development | production | test | staging.

(** [EnvironmentModeDetector.performDetection] *)
Definition detectMode (h : Host) : EnvironmentMode :=
  match option_map Js.toLowerCase (getEnv h "NODE_ENV") with
  | Some nodeEnv =>
      if String.eqb nodeEnv NODE_ENV_VALUES.PRODUCTION then production
      else if String.eqb nodeEnv NODE_ENV_VALUES.DEVELOPMENT then development
      else if String.eqb nodeEnv NODE_ENV_VALUES.TEST then test
      else if String.eqb nodeEnv NODE_ENV_VALUES.STAGING then staging
      else development
  | None => development
  end.

End Node.

(** ** detectors/privileges.ts *)

Module Privilege.

Record PrivilegeInfo : Type := {
  isElevated : bool;
  isRoot : bool;
  isAdmin : bool;
  uid : option Z;
  gid : option Z;
  username : option string;
}.

Definition notNull (result : option string) : bool :=
  match result with
  | Some _ => true
  | None => false
  end.

Definition systemDirCommand : string :=
  "dir " +:+ String Container.dquote "%SystemRoot%\System32\config"
  +:+ String Container.dquote " 2>nul".

Section WithExecSync.
(** The [execSync] the detector imports.  The detector wraps its calls
    in [try] blocks, so the function is taken as one that may throw. *)
Variable execSync : string → Exc (option string).
Variable p : Process.

Definition isWindowsAdmin : bool :=
  match execSync "net session 2>nul" with
  | Ok result => notNull result
  | Throw _ =>
      let byGroups : option bool :=
        match execSync "whoami /groups" with
        | Ok (Some whoami) =>
            if Js.truthy whoami
            then Some (Js.includes (Js.toLowerCase whoami) "s-1-5-32-544"
                       || Js.includes (Js.toLowerCase whoami) "administrators")
            else None
        | Ok None => None
        | Throw _ => None
        end in
      match byGroups with
      | Some answer => answer
      | None =>
          match execSync systemDirCommand with
          | Ok systemDir => notNull systemDir
          | Throw _ => false
          end
      end
  end.

Definition isUnixAdmin : bool :=
  if ProcessUtils.isRoot p then true
  else
    match execSync "groups" with
    | Ok (Some groups) =>
        if Js.truthy groups
        then
          let groupList := Js.toLowerCase groups in
          Js.includes groupList "admin"
          || Js.includes groupList "sudo"
          || Js.includes groupList "wheel"
          || Js.includes groupList "root"
        else false
    | Ok None => false
    | Throw _ =>
        match execSync "sudo -n true 2>/dev/null" with
        | Ok sudoCheck => notNull sudoCheck
        | Throw _ => false
        end
    end.

Definition isAdminOn (platform : string) : bool :=
  if String.eqb platform "win32" then isWindowsAdmin
  else if String.eqb platform "darwin" || String.eqb platform "linux" then isUnixAdmin
  else false.

Definition performDetectionWith (h : Host) : Exc PrivilegeInfo :=
  (let? platform := os_platform (os h) in
   let uid := ProcessUtils.getUID p in
   let gid := ProcessUtils.getGID p in
   let username := ProcessUtils.getUsername p in
   let isRootUser := ProcessUtils.isRoot p in
   let isAdminUser := isAdminOn platform in
   let isElevated := isRootUser || isAdminUser in
   Ok {| isElevated := isElevated;
         isRoot := isRootUser;
         isAdmin := isAdminUser;
         uid := uid;
         gid := gid;
         username := username |})%exc.

End WithExecSync.

(** [PrivilegeDetector.performDetection] with the [execSync] of
    utils/process.ts. *)
Definition performDetection (p : Process) (h : Host) : Exc PrivilegeInfo :=
  performDetectionWith (fun command => Ok (ProcessUtils.execSync p command)) p h.

End Privilege.

(** ** detectors/cloud.ts *)

Module Cloud.
Import MoreConstants.

Inductive CloudProvider : Type :=
| aws_lambda
| google_cloud_functions
| azure_functions
| vercel
| netlify
| cloudflare_workers
| unknown.

Record CloudInfo : Type := {
  isCloud : bool;
  provider : option CloudProvider;
  isServerless : bool;
  functionName : option string;
  region : option string;
}.

(** The first probe is outside the [try] block: the [in] operator
    applied to a [caches] that is no object throws a [TypeError].  The
    second probe is inside it, where reading an undefined [global] is
    caught. *)
Definition detectCloudflareWorkers (g : option GlobalObject) : Exc bool :=
  (let? hasDefaultCache :=
     match g with
     | Some global =>
         match global_caches global with
         | Some (CachesObject hasDefault) => Ok hasDefault
         | Some CachesNotAnObject => Throw "TypeError: Cannot use 'in' operator to search for 'default'"
         | None => Ok false
         end
     | None => Ok false
     end in
   if hasDefaultCache : bool then Ok true
   else
     Ok (try_catch
           match g with
           | Some globalAny =>
               Ok (global_CloudflareWorker globalAny
                   || global_MINIFLARE globalAny
                   || match global_navigator globalAny with
                      | Some userAgent =>
                          match userAgent with
                          | Some ua => String.eqb ua "Cloudflare-Workers"
                          | None => false
                          end
                      | None => false
                      end)
           | None => Throw "ReferenceError: global is not defined"
           end
           false))%exc.

Definition detectAWS (h : Host) : bool :=
  if hasEnv h "AWS_EXECUTION_ENV"
     || hasEnv h "AWS_LAMBDA_RUNTIME_API"
     || hasEnv h "_HANDLER"
     || hasEnv h "LAMBDA_TASK_ROOT"
     || hasEnv h "LAMBDA_RUNTIME_DIR"
  then true
  else if hasEnv h "ECS_CONTAINER_METADATA_URI" || hasEnv h "ECS_CONTAINER_METADATA_URI_V4"
  then true
  else if fileExists h "/sys/hypervisor/uuid"
  then true
  else false.

Definition detectCloudProvider (g : option GlobalObject) (h : Host)
    : Exc (option CloudProvider) :=
  if hasEnv h CLOUD_ENV_VARS.AWS_LAMBDA_FUNCTION_NAME || hasEnv h CLOUD_ENV_VARS.AWS_EXECUTION_ENV
  then Ok (Some aws_lambda)
  else if hasEnv h CLOUD_ENV_VARS.FUNCTION_NAME || hasEnv h CLOUD_ENV_VARS.K_SERVICE
  then Ok (Some google_cloud_functions)
  else if hasEnv h CLOUD_ENV_VARS.WEBSITE_SITE_NAME && hasEnv h "FUNCTIONS_EXTENSION_VERSION"
  then Ok (Some azure_functions)
  else if hasEnv h CLOUD_ENV_VARS.VERCEL || hasEnv h CLOUD_ENV_VARS.VERCEL_ENV
  then Ok (Some vercel)
  else if hasEnv h CLOUD_ENV_VARS.NETLIFY || hasEnv h "NETLIFY_BUILD_BASE"
  then Ok (Some netlify)
  else
    (let? cloudflare :=
       if hasEnv h CLOUD_ENV_VARS.CF_WORKER then Ok true else detectCloudflareWorkers g in
     if cloudflare : bool then Ok (Some cloudflare_workers)
     else if detectAWS h then Ok (Some aws_lambda)
     else Ok None)%exc.

Definition isServerlessEnvironment (h : Host) (provider : option CloudProvider) : bool :=
  match provider with
  | None => false
  | Some aws_lambda
  | Some google_cloud_functions
  | Some azure_functions
  | Some cloudflare_workers => true
  | Some vercel
  | Some netlify =>
      hasEnv h "VERCEL_FUNCTION" || hasEnv h "NETLIFY_FUNCTION_NAME" || hasEnv h "NETLIFY_DEV"
  | Some unknown => false
  end.

Definition getFunctionName (h : Host) (provider : option CloudProvider) : option string :=
  match provider with
  | None => None
  | Some aws_lambda => getEnv h CLOUD_ENV_VARS.AWS_LAMBDA_FUNCTION_NAME
  | Some google_cloud_functions =>
      Js.or_opt (getEnv h CLOUD_ENV_VARS.FUNCTION_NAME) (getEnv h CLOUD_ENV_VARS.K_SERVICE)
  | Some azure_functions => getEnv h CLOUD_ENV_VARS.WEBSITE_SITE_NAME
  | Some vercel => getEnv h "VERCEL_FUNCTION"
  | Some netlify => getEnv h "NETLIFY_FUNCTION_NAME"
  | Some cloudflare_workers => Js.or_opt (getEnv h "CF_WORKER_NAME") (getEnv h "WORKER_NAME")
  | Some unknown => None
  end.

Definition getRegion (h : Host) (provider : option CloudProvider) : option string :=
  match provider with
  | None => None
  | Some aws_lambda => Js.or_opt (getEnv h CLOUD_ENV_VARS.AWS_REGION) (getEnv h "AWS_DEFAULT_REGION")
  | Some google_cloud_functions => Js.or_opt (getEnv h "FUNCTION_REGION") (getEnv h "GCP_REGION")
  | Some azure_functions => Js.or_opt (getEnv h "REGION_NAME") (getEnv h "AZURE_REGION")
  | Some vercel => getEnv h "VERCEL_REGION"
  | Some cloudflare_workers => getEnv h "CF_REGION"
  | Some netlify => None
  | Some unknown => None
  end.

Definition performDetection (g : option GlobalObject) (h : Host) : Exc CloudInfo :=
  (let? provider := detectCloudProvider g h in
   let isCloud := match provider with Some _ => true | None => false end in
   let isServerless := isServerlessEnvironment h provider in
   let functionName := getFunctionName h provider in
   let region := getRegion h provider in
   Ok {| isCloud := isCloud;
         provider := provider;
         isServerless := isServerless;
         functionName := functionName;
         region := region |})%exc.

End Cloud.

(** ** core/detector.ts: the registry *)

(** A [Map] with string keys: the entries in insertion order, one per
    key. *)
Module JsMap.
Section WithValue.
Context {A : Type}.

Definition t : Type := list (string * A).

Definition empty : t := [].

Fixpoint get (k : string) (m : t) : option A :=
  match m with
  | [] => None
  | (k', v) :: m' => if String.eqb k' k then Some v else get k m'
  end.

Definition has (k : string) (m : t) : bool :=
  match get k m with
  | Some _ => true
  | None => false
  end.

(** [m.set(k, v)]: a present key keeps its place, a new one goes last. *)
Fixpoint set (k : string) (v : A) (m : t) : t :=
  match m with
  | [] => [(k, v)]
  | (k', v') :: m' => if String.eqb k' k then (k, v) :: m' else (k', v') :: set k v m'
  end.

Fixpoint delete (k : string) (m : t) : t :=
  match m with
  | [] => []
  | (k', v') :: m' => if String.eqb k' k then m' else (k', v') :: delete k m'
  end.

Definition values (m : t) : list A := map snd m.

Definition keys (m : t) : list string := map fst m.

End WithValue.
Arguments t : clear implicits.
End JsMap.

Module Registry.
Section WithDetectors.
(** The [Detector] interface: an object with a [name]. *)
Context {D : Type}.
Variable name : D → string.

Record DetectorRegistry : Type := {
  detectors : JsMap.t D;
}.

(** The instance [getInstance] creates on its first call. *)
Definition fresh : DetectorRegistry := {| detectors := JsMap.empty |}.

Definition register (detector : D) (r : DetectorRegistry) : DetectorRegistry :=
  {| detectors := JsMap.set (name detector) detector (detectors r) |}.

Definition unregister (n : string) (r : DetectorRegistry) : DetectorRegistry :=
  {| detectors := JsMap.delete n (detectors r) |}.

Definition get (n : string) (r : DetectorRegistry) : option D :=
  JsMap.get n (detectors r).

Definition getAll (r : DetectorRegistry) : list D :=
  JsMap.values (detectors r).

Definition has (n : string) (r : DetectorRegistry) : bool :=
  JsMap.has n (detectors r).

Definition clear (r : DetectorRegistry) : DetectorRegistry :=
  {| detectors := JsMap.empty |}.

(** A call that changes the registry. *)
Inductive Call : Type :=
| Register (detector : D)
| Unregister (n : string)
| Clear.

Definition afterCall (r : DetectorRegistry) (c : Call) : DetectorRegistry :=
  match c with
  | Register detector => register detector r
  | Unregister n => unregister n r
  | Clear => clear r
  end.

Definition afterCalls (cs : list Call) : DetectorRegistry :=
  fold_left afterCall cs fresh.

End WithDetectors.
Arguments DetectorRegistry : clear implicits.
Arguments Call : clear implicits.
End Registry.

(** ** index.ts with the seven detectors of the library *)

Module Env.
Import Detector.

(** What the detectors of the library return and the cache stores for
    them. *)
Inductive Info : Type :=
| OfOS (i : OS.OSInfo)
| OfContainer (i : Container.ContainerInfo)
| OfCI (i : CI.CIInfo)
| OfCloud (i : Cloud.CloudInfo)
| OfNode (i : Node.NodeInfo)
| OfPrivileges (i : Privilege.PrivilegeInfo)
| OfMode (m : Node.EnvironmentMode).

(** Property reads on what [detect()] returned, cast to [any]: a
    promise and a record of another kind have no such property. *)
Definition get_isWindows (x : Detected Info) : option bool :=
  match x with Value (OfOS i) => Some (OS.isWindows i) | _ => None end.
Definition get_isMacOS (x : Detected Info) : option bool :=
  match x with Value (OfOS i) => Some (OS.isMacOS i) | _ => None end.
Definition get_isLinux (x : Detected Info) : option bool :=
  match x with Value (OfOS i) => Some (OS.isLinux i) | _ => None end.
Definition get_isWSL (x : Detected Info) : option bool :=
  match x with Value (OfContainer i) => Some (Container.isWSL i) | _ => None end.
Definition get_isDocker (x : Detected Info) : option bool :=
  match x with Value (OfContainer i) => Some (Container.isDocker i) | _ => None end.
Definition get_isKubernetes (x : Detected Info) : option bool :=
  match x with Value (OfContainer i) => Some (Container.isKubernetes i) | _ => None end.
Definition get_isContainer (x : Detected Info) : option bool :=
  match x with Value (OfContainer i) => Some (Container.isContainer i) | _ => None end.
Definition get_isCI (x : Detected Info) : option bool :=
  match x with Value (OfCI i) => Some (CI.isCI i) | _ => None end.
Definition get_isCloud (x : Detected Info) : option bool :=
  match x with Value (OfCloud i) => Some (Cloud.isCloud i) | _ => None end.
Definition get_isServerless (x : Detected Info) : option bool :=
  match x with Value (OfCloud i) => Some (Cloud.isServerless i) | _ => None end.
Definition get_isElevated (x : Detected Info) : option bool :=
  match x with Value (OfPrivileges i) => Some (Privilege.isElevated i) | _ => None end.
Definition get_isRoot (x : Detected Info) : option bool :=
  match x with Value (OfPrivileges i) => Some (Privilege.isRoot i) | _ => None end.
Definition get_isAdmin (x : Detected Info) : option bool :=
  match x with Value (OfPrivileges i) => Some (Privilege.isAdmin i) | _ => None end.

Definition osTypeName (t : OS.OSType) : string :=
  match t with
  | OS.windows => "windows"
  | OS.macos => "macos"
  | OS.linux => "linux"
  | OS.unknown => "unknown"
  end.

Definition containerTypeName (t : Container.ContainerType) : string :=
  match t with
  | Container.docker => "docker"
  | Container.wsl => "wsl"
  | Container.kubernetes => "kubernetes"
  | Container.unknown => "unknown"
  end.

Definition get_type (x : Detected Info) : option string :=
  match x with Value (OfOS i) => Some (osTypeName (OS.type i)) | _ => None end.
Definition get_containerType (x : Detected Info) : option string :=
  match x with
  | Value (OfContainer i) => option_map containerTypeName (Container.containerType i)
  | _ => None
  end.

(** Truthiness of [boolean | undefined]. *)
Definition holds (flag : option bool) : bool := default false flag.

Section WithProcess.
Variable g : option GlobalObject.
Variable p : Process.

Local Abbreviation EnvironmentDetector := (Facade.EnvironmentDetector Info) (only parsing).

(** [new EnvironmentDetector(options?)] *)
Definition new (options : option DetectorOptions) (w : Cache.World Info)
    : EnvironmentDetector * Cache.World Info :=
  Facade.constructor
    (fun h => Ok (OfOS (OS.performDetection h)))
    (fun h => exc_map OfContainer (Container.performDetection h))
    (fun h => Ok (OfCI (CI.performDetection h)))
    (fun h => exc_map OfCloud (Cloud.performDetection g h))
    (fun h => exc_map OfNode (Node.performDetection p h))
    (fun h => Ok (OfMode (Node.detectMode h)))
    (fun h => exc_map OfPrivileges (Privilege.performDetection p h))
    options w.

Definition isWindows (self : EnvironmentDetector) (h : Host) : M Info (option bool) :=
  bind (detect (Facade.osDetector self) h) (fun x => ret (get_isWindows x)).
Definition isMacOS (self : EnvironmentDetector) (h : Host) : M Info (option bool) :=
  bind (detect (Facade.osDetector self) h) (fun x => ret (get_isMacOS x)).
Definition isLinux (self : EnvironmentDetector) (h : Host) : M Info (option bool) :=
  bind (detect (Facade.osDetector self) h) (fun x => ret (get_isLinux x)).
Definition isWSL (self : EnvironmentDetector) (h : Host) : M Info (option bool) :=
  bind (detect (Facade.containerDetector self) h) (fun x => ret (get_isWSL x)).
Definition isDocker (self : EnvironmentDetector) (h : Host) : M Info (option bool) :=
  bind (detect (Facade.containerDetector self) h) (fun x => ret (get_isDocker x)).
Definition isKubernetes (self : EnvironmentDetector) (h : Host) : M Info (option bool) :=
  bind (detect (Facade.containerDetector self) h) (fun x => ret (get_isKubernetes x)).
Definition isContainer (self : EnvironmentDetector) (h : Host) : M Info (option bool) :=
  bind (detect (Facade.containerDetector self) h) (fun x => ret (get_isContainer x)).
Definition isCI (self : EnvironmentDetector) (h : Host) : M Info (option bool) :=
  bind (detect (Facade.ciDetector self) h) (fun x => ret (get_isCI x)).
Definition isCloud (self : EnvironmentDetector) (h : Host) : M Info (option bool) :=
  bind (detect (Facade.cloudDetector self) h) (fun x => ret (get_isCloud x)).
Definition isServerless (self : EnvironmentDetector) (h : Host) : M Info (option bool) :=
  bind (detect (Facade.cloudDetector self) h) (fun x => ret (get_isServerless x)).
Definition isElevated (self : EnvironmentDetector) (h : Host) : M Info (option bool) :=
  bind (detect (Facade.privilegeDetector self) h) (fun x => ret (get_isElevated x)).
Definition isRoot (self : EnvironmentDetector) (h : Host) : M Info (option bool) :=
  bind (detect (Facade.privilegeDetector self) h) (fun x => ret (get_isRoot x)).
Definition isAdmin (self : EnvironmentDetector) (h : Host) : M Info (option bool) :=
  bind (detect (Facade.privilegeDetector self) h) (fun x => ret (get_isAdmin x)).

Definition getEnvironmentSummary (self : EnvironmentDetector) (h : Host) : M Info string :=
  bind (Facade.getEnvironmentInfo self h) (fun info =>
    let parts := [get_type (Facade.os info)] in
    let parts :=
      if holds (get_isContainer (Facade.container info))
      then (parts ++ [Some (Js.or_else (get_containerType (Facade.container info)) "container")])%list
      else parts in
    let parts :=
      if holds (get_isCI (Facade.ci info)) then (parts ++ [Some "ci"])%list else parts in
    let parts :=
      if holds (get_isCloud (Facade.cloud info)) then (parts ++ [Some "cloud"])%list else parts in
    let parts :=
      if holds (get_isElevated (Facade.privileges info))
      then (parts ++ [Some "elevated"])%list else parts in
    ret (JsText.join "+" parts)).

End WithProcess.
End Env.

(** ** Stored values that may be [undefined]

    [Cache.get] and [Detector.detectSync] above give the stored values
    and the results of detections as defined values.  Here they are of
    type [option U], [None] being [undefined]: [get] returns
    [entry.value] as it is, so that its caller cannot tell a stored
    [undefined] from a miss, and [detectSync] takes a cached
    [undefined] for a miss, by its test [cached !== undefined]. *)

Module MaybeUndefined.
Section WithValue.
Context {U : Type}.
Import Detector.

Definition get (key : string) (w : Cache.World (option U))
    : option U * Cache.World (option U) :=
  if negb (Cache.enabled (Cache.instance w)) then (None, w)
  else
    match Cache.store (Cache.instance w) !! key with
    | None => (None, w)
    | Some entry =>
        let (now, w1) := Cache.Date_now w in
        if (now - Cache.timestamp entry >? Cache.timeout entry)%Z
        then (None, Cache.with_store (base.delete key (Cache.store (Cache.instance w1))) w1)
        else (Cache.value entry, w1)
    end.

Definition detectSync (d : BaseDetector (option U)) (h : Host) : M (option U) (option U) :=
  fun w =>
    let (cached, w1) :=
      if on (cache (options d)) then get (getCacheKey d) w else (None, w) in
    match cached with
    | Some v => (Ok (Some v), w1)
    | None =>
        match performDetection d h with
        | Throw e => (Throw e, w1)
        | Ok result =>
            (Ok result,
             if on (cache (options d))
             then Cache.set (getCacheKey d) result (cacheTimeout (options d)) w1
             else w1)
        end
    end.

End WithValue.

(** A detector as a plugin may bring one, whose result is the value
    of the variable SHELL, or [undefined] where that is not set. *)
Definition shellDetector : Detector.BaseDetector (option string) :=
  Detector.new "shell" (fun h => Ok (getEnv h "SHELL")) Detector.noOptions.

(** SHELL is set and nothing else. *)
Definition shellHost : Host := Examples.linuxHost {[ "SHELL" := "/bin/zsh" ]} ∅.

End MaybeUndefined.

(** ** Sequences of calls on the cache *)

(** A call of one of the public methods of [Cache] that change it or may
    change it. *)
Inductive CacheCall (V : Type) : Type :=
| CallGet (key : string)
| CallSet (key : string) (v : V) (timeout : option Z)
| CallHas (key : string)
| CallDelete (key : string)
| CallClear
| CallEnable
| CallDisable.
Arguments CallGet {V} key.
Arguments CallSet {V} key v timeout.
Arguments CallHas {V} key.
Arguments CallDelete {V} key.
Arguments CallClear {V}.
Arguments CallEnable {V}.
Arguments CallDisable {V}.

(** The world a call leaves. *)
Definition afterCall {V : Type} (c : CacheCall V) (w : Cache.World V) : Cache.World V :=
  match c with
  | CallGet key => snd (Cache.get key w)
  | CallSet key v timeout => Cache.set key v timeout w
  | CallHas key => snd (Cache.has key w)
  | CallDelete key => snd (Cache.delete key w)
  | CallClear => Cache.clear w
  | CallEnable => Cache.enable w
  | CallDisable => Cache.disable w
  end.

(** The world a sequence of calls leaves. *)
Definition afterCalls {V : Type} (cs : list (CacheCall V)) (w : Cache.World V) : Cache.World V :=
  fold_left (fun w c => afterCall c w) cs w.

(** A world whose cache is the new one of a starting process. *)
Definition startingWorld {V : Type} (clock : nat → Z) : Cache.World V :=
  {| Cache.instance := Cache.fresh; Cache.clock := clock; Cache.reads := 0 |}.

(** ** More plugins used as concrete inputs *)

Module PluginExamples.

(** A [BasePlugin] without custom hooks that carries one detector,
    named "shared". *)
Definition sharing (name : string) : Plugins.Plugin string :=
  Plugins.BasePlugin (fun d => d) name "1.0.0" ["shared"] None None.

(** The manager after [use(sharing "a")] and [use(sharing "b")]. *)
Definition managerWithTwoSharing : Plugins.PluginManagerImpl string :=
  snd (Plugins.use (sharing "b") (snd (Plugins.use (sharing "a") Plugins.emptyManager))).

(** A [BasePlugin] with two detectors whose [onInstall] throws. *)
Definition failingInstall : Plugins.Plugin string :=
  Plugins.BasePlugin (fun d => d) "broken" "1.0.0" ["first"; "second"]
    (Some (fun ctx => (Throw "Error: Install failed", ctx))) None.

(** A [BasePlugin] with two detectors and no custom hook. *)
Definition plainPlugin : Plugins.Plugin string :=
  Plugins.BasePlugin (fun d => d) "plain" "1.0.0" ["first"; "second"] None None.

End PluginExamples.

Module NodeExamples.

(** Processes as seen by utils/process.ts: the version string, the
    user id when [process.getuid] exists, and the commands that
    succeed with their output; every other command fails. *)
Definition processOf (version : string) (uid : option Z)
    (commands : list (string * string)) : Process :=
  {| process_version := version;
     process_getuid := uid;
     process_getgid := uid;
     os_userInfo_username := Ok "testuser";
     child_process_execSync := fun command =>
       match JsMap.get command commands with
       | Some out => Ok out
       | None => Throw "Error: Command failed"
       end |}.

(** A pre-release build of the runtime. *)
Definition preRelease : Process := processOf "v18.0.0-pre" (Some 1000%Z) [].

(** A Windows host with nothing in its environment. *)
Definition windowsHost : Host :=
  {| process_env := ∅;
     fs := Examples.fsOf ∅ [];
     os := {| os_platform := Ok "win32";
              os_release := Ok "10.0.19041";
              os_version := Some (Ok "Windows 10 Pro");
              os_arch := Ok "x64";
              os_hostname := Ok "desktop" |} |}.

(** A process for which [net session] succeeds, with empty output. *)
Definition windowsAdministrator : Process :=
  processOf "v18.0.0" None [("net session 2>nul", EmptyString)].

(** A user who is not root and is a member of the [sudo] group. *)
Definition sudoer : Process :=
  processOf "v18.0.0" (Some 1000%Z) [("groups", "testuser adm cdrom sudo dip")].

End NodeExamples.

(** One of the first five tests of [detectCloudProvider] succeeds:
    the environment names AWS Lambda, Google Cloud, Azure Functions,
    Vercel or Netlify. *)
Definition namedByEnvironment (h : Host) : bool :=
  hasEnv h "AWS_LAMBDA_FUNCTION_NAME" || hasEnv h "AWS_EXECUTION_ENV"
  || hasEnv h "FUNCTION_NAME" || hasEnv h "K_SERVICE"
  || (hasEnv h "WEBSITE_SITE_NAME" && hasEnv h "FUNCTIONS_EXTENSION_VERSION")
  || hasEnv h "VERCEL" || hasEnv h "VERCEL_ENV"
  || hasEnv h "NETLIFY" || hasEnv h "NETLIFY_BUILD_BASE".

Module CloudExamples.

(** A global object with none of the properties the Cloudflare probe
    looks for. *)
Definition plainGlobal : GlobalObject :=
  {| global_caches := None;
     global_CloudflareWorker := false;
     global_MINIFLARE := false;
     global_navigator := None |}.

(** A virtual machine that exposes [/sys/hypervisor/uuid]; no variable
    is set. *)
Definition ec2Host : Host :=
  Examples.linuxHost ∅ {[ "/sys/hypervisor/uuid" := "ec2e1916-9099-7caf-fd21-012345abcdef" ]}.

(** [FUNCTION_NAME] is set and nothing else. *)
Definition gcfHost : Host := Examples.linuxHost {[ "FUNCTION_NAME" := "resize" ]} ∅.

End CloudExamples.

(** Every entry of [m] is stored under the name of its detector, and
    no key occurs twice. *)
Definition keyed {D : Type} (name : D → string) (m : JsMap.t D) : Prop :=
  NoDup (JsMap.keys m) ∧ ∀ k v, (k, v) ∈ m → name v = k.

(** The thirteen boolean getters of an [EnvironmentDetector]. *)
Definition booleanGetters
    : list (Facade.EnvironmentDetector Env.Info → Host → Detector.M Env.Info (option bool)) :=
  [Env.isWindows; Env.isMacOS; Env.isLinux; Env.isWSL; Env.isDocker; Env.isKubernetes;
   Env.isContainer; Env.isCI; Env.isCloud; Env.isServerless; Env.isElevated; Env.isRoot;
   Env.isAdmin].

(** Options that ask for asynchronous detection and nothing else. *)
Definition asyncOptions : Detector.DetectorOptions :=
  {| Detector.cache := None; Detector.cacheTimeout := None; Detector.async := Some true |}.

(** Options that switch caching off and nothing else. *)
Definition uncachedOptions : Detector.DetectorOptions :=
  {| Detector.cache := Some false; Detector.cacheTimeout := None; Detector.async := None |}.

(** * Properties *)

(** ** The cache-or-compute template preserves invariants of results *)

Section DetectorInvariant.
Context {V : Type} (P : V → Prop).
Import Detector.

Lemma cache_holds_fresh key t : cache_holds P key (Examples.worldAt t).
Proof. intros e He. cbn in He. by rewrite lookup_empty in He. Qed.

Lemma get_holds key w v :
  cache_holds P key w → fst (Cache.get key w) = Some v → P v.
Proof.
  intros Hc. unfold Cache.get.
  destruct (negb _); [done|].
  destruct (_ !! key) as [e|] eqn:He; [|done].
  cbn. destruct (_ >? _)%Z; cbn; [done|].
  intros [= <-]. by apply Hc.
Qed.

Lemma get_preserves key w :
  cache_holds P key w → cache_holds P key (snd (Cache.get key w)).
Proof.
  intros Hc. unfold Cache.get.
  destruct (negb _); [done|].
  destruct (_ !! key) as [e|] eqn:He; [|done].
  cbn. destruct (_ >? _)%Z; cbn; [|done].
  intros e'. cbn. by rewrite lookup_delete_eq.
Qed.

Lemma set_preserves key w v t :
  P v → cache_holds P key w → cache_holds P key (Cache.set key v t w).
Proof.
  intros Hv Hc. unfold Cache.set.
  destruct (negb _); [done|].
  intros e'. cbn. rewrite lookup_insert_eq. by intros [= <-].
Qed.

Lemma detectSync_invariant (d : BaseDetector V) (h : Host) (w : Cache.World V) (r : V) :
  (∀ r, performDetection d h = Ok r → P r) →
  cache_holds P (getCacheKey d) w →
  fst (detectSync d h w) = Ok r →
  P r ∧ cache_holds P (getCacheKey d) (snd (detectSync d h w)).
Proof.
  intros Hp Hc. unfold detectSync, lookupCached, storeResult.
  destruct (on _) eqn:Hon.
  - pose proof (fun v => get_holds _ _ v Hc) as Hg.
    pose proof (get_preserves _ _ Hc) as Hs.
    destruct (Cache.get _ w) as [[v|] w1]; cbn in *.
    + intros [= <-]. split; [by apply Hg | done].
    + destruct (performDetection d h) as [r'|e] eqn:Hr; cbn; [|done].
      intros [= <-]. split; [by apply Hp|]. apply set_preserves; [by apply Hp | done].
  - destruct (performDetection d h) as [r'|e] eqn:Hr; cbn; [|done].
    intros [= <-]. split; [by apply Hp | done].
Qed.

End DetectorInvariant.

(** ** detectors/ci.ts *)

Section CIFacts.
Import Constants CI.

Lemma hasEnv_false_getEnvBoolean h key : hasEnv h key = false → getEnvBoolean h key false = false.
Proof.
  unfold hasEnv, getEnvBoolean, getEnv. by destruct (process_env h !! key).
Qed.

Lemma detectCI_of_provider_variable h x :
  In x CI_PROVIDER_ENV_VARS.values → hasEnv h x = true → detectCI h = true.
Proof.
  intros Hin Hx. unfold detectCI.
  destruct (_ || _); [done|].
  apply existsb_exists. eauto.
Qed.

Lemma performDetection_not_ci h : bare_when_not_ci (performDetection h).
Proof.
  unfold bare_when_not_ci, performDetection.
  destruct (detectCI h); cbn; [discriminate | done].
Qed.

(** What the Travis branch of [detectPullRequest] answers, by the
    state of [TRAVIS_PULL_REQUEST]. *)
Lemma travis_isPR_unset h :
  getEnv h "TRAVIS_PULL_REQUEST" = None → detectPullRequest h travis_ci = true.
Proof. intros H. cbn. unfold env_is. by rewrite H. Qed.

Lemma travis_isPR_false h :
  getEnv h "TRAVIS_PULL_REQUEST" = Some "false" → detectPullRequest h travis_ci = false.
Proof. intros H. cbn. unfold env_is. by rewrite H. Qed.

Lemma travis_isPR_other h v :
  getEnv h "TRAVIS_PULL_REQUEST" = Some v → v ≠ "false" →
  detectPullRequest h travis_ci = true.
Proof.
  intros H Hv. cbn. unfold env_is. rewrite H.
  destruct (String.eqb_spec v "false"); [done | reflexivity].
Qed.

End CIFacts.

(** C6. Whenever the CI detector returns a record whose [isCI] is
    false, the record has no [name], no [provider] and no [isPR]: the
    three fields are unset.  This holds of a freshly computed record and
    of one served from the cache, whose entries keep the property. *)
Theorem ci_not_ci_record_is_bare :
  ∀ (o : Detector.DetectorOptions) (h : Host) (w : Cache.World CI.CIInfo) (r : CI.CIInfo),
    cache_holds bare_when_not_ci "detector:ci" w →
    fst (Detector.detectSync (Builtin.CIDetector o) h w) = Ok r →
    CI.isCI r = false →
    (CI.name r = None ∧ CI.provider r = None ∧ CI.isPR r = None)
    ∧ bare_when_not_ci (CI.performDetection h)
    ∧ cache_holds bare_when_not_ci "detector:ci"
        (snd (Detector.detectSync (Builtin.CIDetector o) h w)).
Proof.
  intros o h w r Hc Hr Hci.
  destruct (detectSync_invariant bare_when_not_ci (Builtin.CIDetector o) h w r) as [Hp Hc'];
    [| exact Hc | exact Hr |].
  - intros r' [= <-]. apply performDetection_not_ci.
  - split; [by apply Hp | split; [apply performDetection_not_ci | exact Hc']].
Qed.

Lemma ci_not_ci_record_is_bare_witness :
  let d := Builtin.CIDetector Detector.noOptions in
  let w := Examples.worldAt 0 in
  let r := {| CI.isCI := false; CI.name := None; CI.isPR := None; CI.provider := None |} in
  (CI.name r = None ∧ CI.provider r = None ∧ CI.isPR r = None)
  ∧ bare_when_not_ci (CI.performDetection Examples.bareHost)
  ∧ cache_holds bare_when_not_ci "detector:ci" (snd (Detector.detectSync d Examples.bareHost w)).
Proof.
  apply (ci_not_ci_record_is_bare Detector.noOptions Examples.bareHost (Examples.worldAt 0)).
  - apply cache_holds_fresh.
  - vm_compute; reflexivity.
  - reflexivity.
Defined.

(** C2. On a host whose only variable is [TRAVIS=true], CI detection
    classifies the provider as travis-ci and, [TRAVIS_PULL_REQUEST]
    being unset, reports [isPR] as true: the comparison
    [getEnv('TRAVIS_PULL_REQUEST') !== 'false'] holds of [undefined]. *)
Theorem travis_unset_pull_request_is_reported :
  getEnv Examples.travisHost "TRAVIS_PULL_REQUEST" = None
  ∧ CI.performDetection Examples.travisHost =
      {| CI.isCI := true;
         CI.name := Some "Travis CI";
         CI.isPR := Some true;
         CI.provider := Some CI.travis_ci |}.
Proof. split; vm_compute; reflexivity. Qed.

(** C9, as stated, fails for a provider variable the provider phase
    tests by presence: with [JENKINS_URL=false] as the only variable,
    the variable is present and not truthy, and the provider is
    jenkins, not unknown. *)
Lemma jenkins_url_false_is_jenkins :
  process_env Examples.jenkinsFalseHost = {[ "JENKINS_URL" := "false" ]}
  ∧ In "JENKINS_URL" Constants.CI_PROVIDER_ENV_VARS.values
  ∧ hasEnv Examples.jenkinsFalseHost "JENKINS_URL" = true
  ∧ getEnvBoolean Examples.jenkinsFalseHost "JENKINS_URL" false = false
  ∧ CI.isCI (CI.performDetection Examples.jenkinsFalseHost) = true
  ∧ CI.provider (CI.performDetection Examples.jenkinsFalseHost) = Some CI.jenkins
  ∧ CI.provider (CI.performDetection Examples.jenkinsFalseHost) ≠ Some CI.unknown.
Proof.
  repeat split; try (vm_compute; reflexivity).
  - cbn. tauto.
  - vm_compute. discriminate.
Qed.

(** C9, amended.  Let [x] be one of the six provider variables that
    [detectCIProvider] tests for truthiness (GITHUB_ACTIONS, GITLAB_CI,
    TRAVIS, CIRCLECI, TF_BUILD, APPVEYOR).  If [x] is present with a
    value that is not truthy and no other provider variable is present,
    then [isCI] is true, the provider is unknown, and the name is the
    value of CI_NAME when that is set and not empty, "Unknown CI"
    otherwise. *)
Theorem present_but_not_truthy_is_unknown_ci :
  ∀ (h : Host) (x : string),
    In x [Constants.CI_PROVIDER_ENV_VARS.GITHUB_ACTIONS;
          Constants.CI_PROVIDER_ENV_VARS.GITLAB_CI;
          Constants.CI_PROVIDER_ENV_VARS.TRAVIS;
          Constants.CI_PROVIDER_ENV_VARS.CIRCLECI;
          Constants.CI_PROVIDER_ENV_VARS.TF_BUILD;
          Constants.CI_PROVIDER_ENV_VARS.APPVEYOR] →
    hasEnv h x = true →
    getEnvBoolean h x false = false →
    (∀ y, In y Constants.CI_PROVIDER_ENV_VARS.values → y ≠ x → hasEnv h y = false) →
    CI.isCI (CI.performDetection h) = true
    ∧ CI.provider (CI.performDetection h) = Some CI.unknown
    ∧ CI.name (CI.performDetection h) =
        Some (Js.or_else (getEnv h Constants.CI_ENV_VARS.CI_NAME) "Unknown CI").
Proof.
  intros h x Hx Hpresent Hfalsy Hothers.
  assert (Hci : CI.detectCI h = true).
  { apply (detectCI_of_provider_variable h x); [|exact Hpresent].
    cbn in Hx |- *. intuition. }
  assert (Hb : ∀ y, In y Constants.CI_PROVIDER_ENV_VARS.values →
                    getEnvBoolean h y false = false).
  { intros y Hy. destruct (String.eqb_spec y x) as [->|Hne]; [exact Hfalsy|].
    apply hasEnv_false_getEnvBoolean. by apply Hothers. }
  assert (Hprov : CI.detectCIProvider h = CI.unknown).
  { unfold CI.detectCIProvider.
    rewrite !Hb by (cbn; tauto).
    cbn in Hx.
    destruct Hx as [<-|[<-|[<-|[<-|[<-|[<-|[]]]]]]];
      rewrite !Hothers by (first [cbn; tauto | discriminate]); reflexivity. }
  unfold CI.performDetection. rewrite Hci, Hprov. cbn. done.
Qed.

Lemma present_but_not_truthy_is_unknown_ci_witness :
  let r := CI.performDetection Examples.githubFalseHost in
  CI.isCI r = true
  ∧ CI.provider r = Some CI.unknown
  ∧ CI.name r =
      Some (Js.or_else (getEnv Examples.githubFalseHost Constants.CI_ENV_VARS.CI_NAME)
              "Unknown CI").
Proof.
  apply (present_but_not_truthy_is_unknown_ci Examples.githubFalseHost "GITHUB_ACTIONS").
  - cbn. tauto.
  - vm_compute; reflexivity.
  - vm_compute; reflexivity.
  - intros y Hy Hne. cbn in Hy.
    destruct Hy as [<-|[<-|[<-|[<-|[<-|[<-|[<-|[<-|[<-|[<-|[]]]]]]]]]]];
      first [by destruct Hne | vm_compute; reflexivity].
Defined.

(** ** detectors/os.ts *)

Section OSFacts.
Import OS.

Lemma probe_throws_iff h : threw (probe h) ↔ os_reading_fails h.
Proof.
  unfold probe, os_reading_fails.
  destruct (os_platform (os h)) as [p|]; cbn; [|tauto].
  destruct (os_release (os h)) as [r|]; cbn; [|tauto].
  destruct (os_version (os h)) as [[v|]|]; cbn; [| tauto |].
  - destruct (os_arch (os h)) as [a|]; cbn; [|tauto].
    repeat destruct (String.eqb p _); cbn; tauto.
  - destruct (os_arch (os h)) as [a|]; cbn; [|tauto].
    repeat destruct (String.eqb p _); cbn; tauto.
Qed.

Lemma probe_at_most_one h r : probe h = Ok r → at_most_one_family r.
Proof.
  unfold probe.
  destruct (os_platform (os h)) as [p|]; cbn; [|done].
  destruct (os_release (os h)) as [rl|]; cbn; [|done].
  destruct (os_version (os h)) as [[v|]|]; cbn; [| done |];
    (destruct (os_arch (os h)) as [a|]; cbn; [|done]);
    repeat destruct (String.eqb p _); cbn; intros [= <-];
    unfold at_most_one_family; cbn; done.
Qed.

Lemma performDetection_at_most_one h : at_most_one_family (performDetection h).
Proof.
  unfold performDetection.
  destruct (probe h) as [r|e] eqn:Hp; cbn.
  - by apply (probe_at_most_one h).
  - unfold at_most_one_family. cbn. done.
Qed.

Lemma performDetection_fallback h : os_reading_fails h → performDetection h = fallback.
Proof.
  intros Hf. apply probe_throws_iff in Hf. unfold performDetection.
  by destruct (probe h).
Qed.

End OSFacts.

(** The cache lookup of a detection misses when nothing is stored under
    the detector's key. *)
Lemma detectSync_uncached {V} (d : Detector.BaseDetector V) (h : Host) (w : Cache.World V) :
  Cache.store (Cache.instance w) !! Detector.getCacheKey d = None →
  fst (Detector.detectSync d h w) = Detector.performDetection d h.
Proof.
  intros Hn. unfold Detector.detectSync, Detector.lookupCached, Cache.get.
  destruct (Detector.on _); [destruct (negb _); [|rewrite Hn]|];
    by destruct (Detector.performDetection d h).
Qed.

(** C5. Every OS record the OS detector returns, computed or cached,
    has at most one of [isWindows], [isMacOS], [isLinux] true.  When
    reading the OS information fails, the computed record has the three
    flags false, [type] unknown and [platform] equal to "linux"; it is
    the record returned when nothing is cached. *)
Theorem os_flags_exclusive_and_failure_fallback :
  ∀ (o : Detector.DetectorOptions) (h : Host) (w : Cache.World OS.OSInfo) (r : OS.OSInfo),
    cache_holds at_most_one_family "detector:os" w →
    fst (Detector.detectSync (Builtin.OSDetector o) h w) = Ok r →
    at_most_one_family r
    ∧ cache_holds at_most_one_family "detector:os"
        (snd (Detector.detectSync (Builtin.OSDetector o) h w))
    ∧ (os_reading_fails h →
       OS.isWindows (OS.performDetection h) = false
       ∧ OS.isMacOS (OS.performDetection h) = false
       ∧ OS.isLinux (OS.performDetection h) = false
       ∧ OS.type (OS.performDetection h) = OS.unknown
       ∧ OS.platform (OS.performDetection h) = "linux"
       ∧ (Cache.store (Cache.instance w) !! "detector:os" = None →
          r = OS.performDetection h)).
Proof.
  intros o h w r Hc Hr.
  destruct (detectSync_invariant at_most_one_family (Builtin.OSDetector o) h w r) as [Hp Hc'];
    [| exact Hc | exact Hr |].
  - intros r' [= <-]. apply performDetection_at_most_one.
  - split; [exact Hp|]. split; [exact Hc'|].
    intros Hf. rewrite (performDetection_fallback h Hf). cbn.
    repeat split; try reflexivity.
    intros Hn. rewrite detectSync_uncached in Hr by exact Hn.
    cbn in Hr. rewrite (performDetection_fallback h Hf) in Hr. by injection Hr.
Qed.

Lemma os_flags_exclusive_and_failure_fallback_witness :
  let d := Builtin.OSDetector Detector.noOptions in
  let w := Examples.worldAt 0 in
  os_reading_fails Examples.brokenHost
  ∧ fst (Detector.detectSync d Examples.brokenHost w) = Ok OS.fallback
  ∧ at_most_one_family OS.fallback
  ∧ OS.platform (OS.performDetection Examples.brokenHost) = "linux".
Proof.
  assert (Hf : os_reading_fails Examples.brokenHost) by (left; exact I).
  split; [exact Hf|]. split; [vm_compute; reflexivity|].
  destruct (os_flags_exclusive_and_failure_fallback Detector.noOptions Examples.brokenHost
              (Examples.worldAt 0) OS.fallback) as (H1 & _ & H3).
  - apply cache_holds_fresh.
  - vm_compute; reflexivity.
  - split; [exact H1|]. apply (H3 Hf).
Defined.

(** ** detectors/container.ts *)

Section ContainerFacts.
Import Container.

Lemma detectWSL_returns h p : os_platform (os h) = Ok p → ∃ info, detectWSL h = Ok info.
Proof.
  intros Hp. unfold detectWSL. rewrite Hp. cbn.
  repeat match goal with
         | |- context [if ?b then _ else _] => destruct b
         end; eauto.
Qed.

Lemma detectKubernetes_returns h n : os_hostname (os h) = Ok n → ∃ b, detectKubernetes h = Ok b.
Proof.
  intros Hn. unfold detectKubernetes. rewrite Hn. cbn.
  repeat match goal with
         | |- context [if ?b then _ else _] => destruct b
         end; eauto.
Qed.

(** Detection returns whenever the two [os] calls it makes return. *)
Lemma performDetection_returns h p n :
  os_platform (os h) = Ok p → os_hostname (os h) = Ok n → ∃ r, performDetection h = Ok r.
Proof.
  intros Hp Hn. unfold performDetection.
  destruct (detectWSL_returns h p Hp) as [info ->].
  destruct (detectKubernetes_returns h n Hn) as [b ->].
  cbn. eauto.
Qed.

Lemma performDetection_consistent h r : performDetection h = Ok r → container_consistent r.
Proof.
  unfold performDetection.
  destruct (detectWSL h) as [info|]; cbn; [|done].
  destruct (detectKubernetes h) as [k|]; cbn; [|done].
  intros [= <-]. unfold container_consistent. cbn.
  destruct (detectDocker h), (wsl_isWSL info), k; cbn;
    (split; [reflexivity|]); (split; [|split; [done|reflexivity]]);
    (split; [intros [x Hx]; first [reflexivity | discriminate Hx]
            | intros H; first [discriminate H | eexists; reflexivity]]).
Qed.

(** The version of the record is that of [detectWSL]: unset unless WSL
    was detected. *)
Lemma detectWSL_version h info :
  detectWSL h = Ok info →
  wsl_version info = if wsl_isWSL info then getWSLVersion h else None.
Proof.
  unfold detectWSL.
  destruct (os_platform (os h)); cbn; [|done].
  intros H.
  repeat match type of H with
         | context [if ?b then _ else _] => destruct b
         end; injection H as <-; reflexivity.
Qed.

Lemma performDetection_wslVersion h r :
  performDetection h = Ok r →
  wslVersion r = if isWSL r then getWSLVersion h else None.
Proof.
  unfold performDetection.
  destruct (detectWSL h) as [info|] eqn:Hw; cbn; [|done].
  destruct (detectKubernetes h) as [k|]; cbn; [|done].
  intros [= <-]. cbn. by apply detectWSL_version.
Qed.

End ContainerFacts.

(** C1. Every container record the container detector returns,
    computed or cached, satisfies: [isContainer] is the disjunction of
    [isDocker], [isWSL] and [isKubernetes]; [containerType] is defined
    exactly when [isContainer] is true; [containerType] is docker
    whenever [isDocker] is true, and in general the first of docker,
    wsl, kubernetes whose flag is true.  A record is returned whenever
    [os.platform()] and [os.hostname()] return. *)
Theorem container_record_consistent :
  ∀ (o : Detector.DetectorOptions) (h : Host)
    (w : Cache.World Container.ContainerInfo) (r : Container.ContainerInfo),
    cache_holds container_consistent "detector:container" w →
    fst (Detector.detectSync (Builtin.ContainerDetector o) h w) = Ok r →
    container_consistent r
    ∧ cache_holds container_consistent "detector:container"
        (snd (Detector.detectSync (Builtin.ContainerDetector o) h w))
    ∧ (∀ p n, os_platform (os h) = Ok p → os_hostname (os h) = Ok n →
       ∃ r', Container.performDetection h = Ok r' ∧ container_consistent r').
Proof.
  intros o h w r Hc Hr.
  destruct (detectSync_invariant container_consistent (Builtin.ContainerDetector o) h w r)
    as [Hp Hc']; [| exact Hc | exact Hr |].
  - intros r' Hr'. by apply (performDetection_consistent h).
  - split; [exact Hp|]. split; [exact Hc'|].
    intros p n Hpl Hn. destruct (performDetection_returns h p n Hpl Hn) as [r' Hr'].
    exists r'. split; [exact Hr' | by apply (performDetection_consistent h)].
Qed.

Lemma container_record_consistent_witness :
  let d := Builtin.ContainerDetector Detector.noOptions in
  let w := Examples.worldAt 0 in
  let r := {| Container.isContainer := true;
              Container.isDocker := true;
              Container.isWSL := true;
              Container.isKubernetes := false;
              Container.containerType := Some Container.docker;
              Container.wslVersion := None;
              Container.wslDistro := Some "Ubuntu" |} in
  fst (Detector.detectSync d Examples.dockerInWslHost w) = Ok r
  ∧ container_consistent r.
Proof.
  split; [vm_compute; reflexivity|].
  apply (container_record_consistent Detector.noOptions Examples.dockerInWslHost
           (Examples.worldAt 0)).
  - apply cache_holds_fresh.
  - vm_compute; reflexivity.
Defined.

Section WslVersionFacts.
Import Container.

Lemma append_nil (q : string) : "" +:+ q = q.
Proof. reflexivity. Qed.

Lemma append_cons (a : ascii) (p q : string) : String a p +:+ q = String a (p +:+ q).
Proof. reflexivity. Qed.

Lemma append_assoc_s (a b c : string) : (a +:+ b) +:+ c = a +:+ (b +:+ c).
Proof.
  induction a as [|x a IH]; [done|].
  rewrite !append_cons. by f_equal.
Qed.

(** [startsWith] and [includes] against their meaning on strings. *)
Lemma startsWith_iff s p : Js.startsWith s p = true ↔ ∃ post, s = p +:+ post.
Proof.
  revert s. induction p as [|a p IH]; intros s; cbn.
  - split; [intros _; by exists s | done].
  - destruct s as [|c s].
    + split; [done | by intros [post [=]]].
    + rewrite andb_true_iff, IH. split.
      * intros [->%Ascii.eqb_eq [post ->]]. by exists post.
      * intros [post H]. rewrite append_cons in H. injection H as -> ->.
        split; [apply Ascii.eqb_refl | by exists post].
Qed.

Lemma includes_iff s p : Js.includes s p = true ↔ ∃ pre post, s = pre +:+ p +:+ post.
Proof.
  induction s as [|c s IH]; cbn -[Js.startsWith].
  - rewrite orb_false_r, startsWith_iff. split.
    + intros [post H]. by exists "", post.
    + intros [[|x pre] [post H]]; [by exists post | done].
  - rewrite orb_true_iff, startsWith_iff, IH. split.
    + intros [[post H]|(pre & post & ->)]; [by exists "", post | by exists (String c pre), post].
    + intros [[|x pre] [post H]]; [left; by exists post|].
      rewrite append_cons in H. injection H as <- ->. right. by exists pre, post.
Qed.

Lemma includes_app s p q : Js.includes s (p +:+ q) = true → Js.includes s p = true.
Proof.
  rewrite !includes_iff. intros (pre & post & ->).
  exists pre, (q +:+ post). by rewrite append_assoc_s.
Qed.

Lemma includes_suffix s p q : Js.includes s (p +:+ q) = true → Js.includes s q = true.
Proof.
  rewrite !includes_iff. intros (pre & post & ->).
  exists (pre +:+ p), post. by rewrite !append_assoc_s.
Qed.

Lemma includes_false_app s p q : Js.includes s q = false → Js.includes s (p +:+ q) = false.
Proof.
  intros H. destruct (Js.includes s (p +:+ q)) eqn:E; [|done].
  apply includes_suffix in E. congruence.
Qed.

Lemma no_WSL2_no_standard_WSL2 c :
  Js.includes c "WSL2" = false → Js.includes c "microsoft-standard-WSL2" = false.
Proof. exact (includes_false_app c "microsoft-standard-" "WSL2"). Qed.

Lemma no_WSL_no_WSL2 c : Js.includes c "WSL" = false → Js.includes c "WSL2" = false.
Proof.
  intros H. destruct (Js.includes c "WSL2") eqn:E; [|done].
  apply (includes_app c "WSL" "2") in E. congruence.
Qed.

Lemma includes_nonempty s p : Js.includes s p = true → Js.truthy p = true → Js.truthy s = true.
Proof. destruct s; [by destruct p | done]. Qed.

Lemma digits_head s a d r : digits s = (String a d, r) → Js.isDigit a = true.
Proof.
  destruct s as [|c s]; cbn; [done|].
  destruct (Js.isDigit c) eqn:Hc; [|done].
  destruct (digits s). by intros [= <- _ _].
Qed.

Lemma triadAt_head s g1 g2 g3 :
  triadAt s = Some (g1, g2, g3) → ∃ a d, g1 = String a d ∧ Js.isDigit a = true.
Proof.
  unfold triadAt. destruct (digits s) as [d1 r1] eqn:Hd.
  destruct d1 as [|a d]; [done|].
  destruct r1 as [|c r1']; [done|].
  intros H. exists a, d. split; [|by eapply digits_head].
  repeat match type of H with
         | context [match ?x with _ => _ end] => destruct x; try discriminate H
         end; by injection H.
Qed.

Lemma matchKernel_head s g1 g2 g3 :
  matchKernel s = Some (g1, g2, g3) → ∃ a d, g1 = String a d ∧ Js.isDigit a = true.
Proof.
  induction s as [|c s IH]; cbn -[triadAt].
  - destruct (triadAt "") as [[[x y] z]|] eqn:Ht; [|done].
    intros [= -> -> ->]. by eapply triadAt_head.
  - destruct (triadAt (String c s)) as [[[x y] z]|] eqn:Ht; [|exact IH].
    intros [= -> -> ->]. by eapply triadAt_head.
Qed.

Lemma major_of_match s g1 g2 g3 :
  matchKernel s = Some (g1, g2, g3) →
  parseDigits (Js.or_else (Some g1) "0") = Some (decimal 0 g1).
Proof.
  intros (a & d & -> & Ha)%matchKernel_head. cbn -[decimal]. by rewrite Ha.
Qed.

(** *** The kernel expression against its meaning *)

Lemma digits_spec s d r :
  digits s = (d, r) → s = d +:+ r ∧ allDigits d = true ∧ startsWithDigit r = false.
Proof.
  revert d r. induction s as [|c s IH]; intros d r; cbn.
  - by intros [= <- <-].
  - destruct (Js.isDigit c) eqn:Hc.
    + destruct (digits s) as [d' r'] eqn:Hd. intros [= <- <-].
      destruct (IH d' r' eq_refl) as (-> & Ha & Hr).
      rewrite append_cons. cbn. by rewrite Hc, Ha.
    + intros [= <- <-]. cbn. by rewrite Hc.
Qed.

Lemma digits_complete d r :
  allDigits d = true → startsWithDigit r = false → digits (d +:+ r) = (d, r).
Proof.
  intros Hd Hr. induction d as [|c d IH].
  - rewrite append_nil. destruct r as [|x r]; [done|]. cbn in *. by rewrite Hr.
  - cbn in Hd. apply andb_prop in Hd as [Hc Hd].
    rewrite append_cons. cbn. by rewrite Hc, (IH Hd).
Qed.

Lemma triadAt_sound s g : triadAt s = Some g → triad_then g s.
Proof.
  unfold triadAt.
  destruct (digits s) as [d1 r1] eqn:H1. apply digits_spec in H1 as (-> & A1 & _).
  destruct d1 as [|a1 d1]; [done|]. destruct r1 as [|x r1]; [done|].
  destruct (Ascii.eqb_spec x "."%char) as [->|Hne]; [|by destruct x as [[] [] [] [] [] [] [] []]].
  destruct (digits r1) as [d2 r2] eqn:H2. apply digits_spec in H2 as (-> & A2 & _).
  destruct d2 as [|a2 d2]; [done|]. destruct r2 as [|y r2]; [done|].
  destruct (Ascii.eqb_spec y "."%char) as [->|Hne]; [|by destruct y as [[] [] [] [] [] [] [] []]].
  destruct (digits r2) as [d3 r3] eqn:H3. apply digits_spec in H3 as (-> & A3 & R3).
  destruct d3 as [|a3 d3]; [done|].
  intros [= <-]. exists r3. unfold number.
  repeat split; done.
Qed.

Lemma triadAt_complete s g : triad_then g s → triadAt s = Some g.
Proof.
  destruct g as [[g1 g2] g3]. intros (rest & -> & [N1 A1] & [N2 A2] & [N3 A3] & R).
  unfold triadAt.
  rewrite (digits_complete g1 ("." +:+ g2 +:+ "." +:+ g3 +:+ rest) A1 eq_refl).
  destruct g1 as [|a1 g1]; [done|].
  rewrite (append_cons "." "" (g2 +:+ "." +:+ g3 +:+ rest)), append_nil. cbn.
  rewrite (digits_complete g2 ("." +:+ g3 +:+ rest) A2 eq_refl).
  destruct g2 as [|a2 g2]; [done|].
  rewrite (append_cons "." "" (g3 +:+ rest)), append_nil. cbn.
  rewrite (digits_complete g3 rest A3 R).
  by destruct g3.
Qed.

(** [matchKernel] returns the groups of the leftmost position at
    which a dotted triad starts. *)
Lemma matchKernel_leftmost s g :
  matchKernel s = Some g ↔
  ∃ pre s', s = pre +:+ s' ∧ triad_then g s'
            ∧ ∀ p1 p2 g', pre = p1 +:+ p2 → p2 ≠ "" → ¬ triad_then g' (p2 +:+ s').
Proof.
  induction s as [|c s IH].
  - cbn. split; [done|].
    intros ([|x pre] & s' & Hs & Ht & _); [|done].
    rewrite append_nil in Hs. subst s'. by apply triadAt_complete in Ht.
  - cbn -[triadAt]. destruct (triadAt (String c s)) as [g0|] eqn:E.
    + split.
      * intros [= <-]. exists "", (String c s). split; [done|].
        split; [by apply triadAt_sound|].
        intros [|? ?] p2 g' Hp Hne; [|done]. rewrite append_nil in Hp. by subst p2.
      * intros ([|x pre] & s' & Hs & Ht & Hleft).
        -- rewrite append_nil in Hs. subst s'.
           apply triadAt_complete in Ht. congruence.
        -- exfalso. apply (Hleft "" (String x pre) g0); [done | done |].
           rewrite <- Hs. by apply triadAt_sound.
    + rewrite IH. split.
      * intros (pre & s' & -> & Ht & Hleft). exists (String c pre), s'.
        split; [done|]. split; [done|].
        intros [|y p1] p2 g' Hp Hne Hg'.
        -- rewrite append_nil in Hp. subst p2. rewrite append_cons in Hg'.
           apply triadAt_complete in Hg'. congruence.
        -- rewrite append_cons in Hp. injection Hp as -> ->.
           by apply (Hleft p1 p2 g').
      * intros ([|x pre] & s' & Hs & Ht & Hleft).
        -- rewrite append_nil in Hs. subst s'.
           apply triadAt_complete in Ht. congruence.
        -- rewrite append_cons in Hs. injection Hs as <- ->.
           exists pre, s'. split; [done|]. split; [done|].
           intros p1 p2 g' -> Hne. by apply (Hleft (String c p1) p2 g').
Qed.

(** [matchKernel] finds nothing exactly when no position starts a
    dotted triad. *)
Lemma matchKernel_none s :
  matchKernel s = None ↔ ∀ pre s' g, s = pre +:+ s' → ¬ triad_then g s'.
Proof.
  split.
  - intros Hn pre s' g Hs Ht.
    assert (∃ g0, matchKernel s = Some g0) as [g0 Hg0]; [|congruence].
    clear Hn. subst s. induction pre as [|c pre IH].
    + rewrite append_nil. apply triadAt_complete in Ht.
      exists g. destruct s' as [|c s']; cbn -[triadAt]; by rewrite Ht.
    + rewrite append_cons. cbn -[triadAt].
      destruct (triadAt (String c (pre +:+ s'))) as [g1|]; [by exists g1 | exact IH].
  - intros Hno. destruct (matchKernel s) as [g|] eqn:E; [|done].
    apply matchKernel_leftmost in E as (pre & s' & Hs & Ht & _).
    by destruct (Hno pre s' g Hs).
Qed.

End WslVersionFacts.

(** What [getWSLVersion] computes, case by case, with [c] the content
    of [/proc/version]. *)
Lemma getWSLVersion_cases :
  ∀ (h : Host),
    (∀ c, readFile h "/proc/version" = Some c →
          Js.includes c "WSL2" = true →
          Container.getWSLVersion h = Some 2%Z)
    ∧ (∀ c g1 g2 g3, readFile h "/proc/version" = Some c →
          Js.includes c "WSL2" = false →
          Js.includes c "Microsoft" || Js.includes c "WSL" = true →
          Container.matchKernel c = Some (g1, g2, g3) →
          Container.getWSLVersion h =
            Some (if (5 <=? Container.decimal 0 g1)%Z then 2 else 1)%Z)
    ∧ (∀ c, readFile h "/proc/version" = Some c →
          Js.includes c "WSL2" = false →
          Js.includes c "Microsoft" || Js.includes c "WSL" = true →
          Container.matchKernel c = None →
          Container.getWSLVersion h = Some 1%Z)
    ∧ (∀ c, readFile h "/proc/version" = Some c →
          Js.includes c "Microsoft" = false →
          Js.includes c "WSL" = false →
          Container.getWSLVersion h = None)
    ∧ (readFile h "/proc/version" = None → Container.getWSLVersion h = None)
    ∧ (∀ r, Container.performDetection h = Ok r →
          Container.wslVersion r =
            if Container.isWSL r then Container.getWSLVersion h else None).
Proof.
  intros h. unfold Container.getWSLVersion. repeat split.
  - intros c -> H2.
    rewrite (includes_nonempty c "WSL2" H2 eq_refl), H2. reflexivity.
  - intros c g1 g2 g3 -> H2 Hm Hk.
    assert (Js.truthy c = true) as ->.
    { apply orb_prop in Hm as [Hm|Hm]; by eapply includes_nonempty. }
    rewrite (no_WSL2_no_standard_WSL2 c H2), H2, Hm, Hk.
    cbn [orb]. rewrite (major_of_match c g1 g2 g3 Hk).
    by destruct (5 <=? Container.decimal 0 g1)%Z.
  - intros c -> H2 Hm Hk.
    assert (Js.truthy c = true) as ->.
    { apply orb_prop in Hm as [Hm|Hm]; by eapply includes_nonempty. }
    rewrite (no_WSL2_no_standard_WSL2 c H2), H2, Hm, Hk.
    reflexivity.
  - intros c -> Hm Hw.
    pose proof (no_WSL_no_WSL2 c Hw) as H2.
    rewrite (no_WSL2_no_standard_WSL2 c H2), H2, Hm, Hw.
    by destruct (Js.truthy c).
  - by intros ->.
  - intros r. apply performDetection_wslVersion.
Qed.

(** [detectWSL] looks for the marker in the lower-cased content,
    [getWSLVersion] for "Microsoft" and "WSL" in the content as it is:
    a content that has the marker in lower case only is reported as
    WSL with no version, whatever kernel triad it holds. *)
Lemma detectWSL_lowercase_marker h platform c :
  os_platform (os h) = Ok platform →
  platform ≠ "win32" →
  Js.truthy_opt (getEnv h Constants.WSL_INDICATORS.ENV_VAR) = false →
  readFile h "/proc/version" = Some c →
  Js.includes (Js.toLowerCase c) "microsoft" = true →
  Js.includes c "Microsoft" = false →
  Js.includes c "WSL" = false →
  Container.detectWSL h =
    Ok {| Container.wsl_isWSL := true;
          Container.wsl_version := None;
          Container.wsl_distro := Container.getWSLDistro h |}.
Proof.
  intros Hp Hw He Hc Hl Hm Hwsl.
  destruct (getWSLVersion_cases h) as (_ & _ & _ & Hnone & _).
  unfold Container.detectWSL. rewrite Hp. cbn [exc_bind].
  destruct (String.eqb_spec platform "win32") as [->|_]; [done|].
  rewrite He, Hc.
  assert (Js.truthy c = true) as ->.
  { destruct c; [discriminate Hl | reflexivity]. }
  change (Js.toLowerCase Constants.WSL_INDICATORS.PROC_VERSION) with "microsoft".
  rewrite Hl. cbn [andb]. by rewrite (Hnone c Hc Hm Hwsl).
Qed.

(** C3.  On a Linux host whose [/proc/version] is
    "Linux version 5.15.90.1-microsoft-standard", the line of a stock
    WSL 2 kernel, detection reports WSL, by the lower-cased test of
    [detectWSL], and no version: [getWSLVersion] looks for "Microsoft"
    and "WSL" in the content as it is, finds neither, and never comes
    to the kernel triad 5.15.90, whose first number is 5. *)
Theorem lowercase_microsoft_marker_gets_no_version :
  let c := "Linux version 5.15.90.1-microsoft-standard" in
  Js.includes c "5.15.90.1-microsoft-standard" = true
  ∧ Js.includes (Js.toLowerCase c) "microsoft" = true
  ∧ Js.includes c "Microsoft" = false
  ∧ Js.includes c "WSL" = false
  ∧ Container.matchKernel c = Some ("5", "15", "90")
  ∧ Container.parseDigits "5" = Some 5%Z
  ∧ Container.performDetection (Examples.procVersionHost c) =
      Ok {| Container.isContainer := true;
            Container.isDocker := false;
            Container.isWSL := true;
            Container.isKubernetes := false;
            Container.containerType := Some Container.wsl;
            Container.wslVersion := None;
            Container.wslDistro := None |}.
Proof. repeat split; vm_compute; reflexivity. Qed.

(** The three [/proc/version] lines of the test suite. *)
Example wsl_version_515_with_marker :
  Container.getWSLVersion
    (Examples.procVersionHost "Linux version 5.15.90.1-microsoft-standard with Microsoft kernel")
  = Some 2%Z.
Proof. vm_compute; reflexivity. Qed.

Example wsl_version_44 :
  Container.getWSLVersion (Examples.procVersionHost "Linux version 4.4.0-19041-Microsoft")
  = Some 1%Z.
Proof. vm_compute; reflexivity. Qed.

Example wsl_version_510_wsl2 :
  Container.getWSLVersion
    (Examples.procVersionHost "Linux version 5.10.16.3-microsoft-standard-WSL2")
  = Some 2%Z.
Proof. vm_compute; reflexivity. Qed.



(** ** core/cache.ts *)

Section CacheFacts.
Context {V : Type}.
Implicit Types (w : Cache.World V) (e : Cache.CacheEntry V).

Lemma set_stores key (v : V) timeout w :
  Cache.isEnabled w = true →
  Cache.store (Cache.instance (Cache.set key v timeout w)) !! key =
    Some {| Cache.value := v;
            Cache.timestamp := Cache.clock w (Cache.reads w);
            Cache.timeout := default Constants.DEFAULT_CACHE_TIMEOUT timeout |}.
Proof.
  unfold Cache.isEnabled, Cache.set. intros ->. cbn. apply lookup_insert_eq.
Qed.

Lemma set_clock key (v : V) timeout w :
  Cache.isEnabled w = true →
  Cache.isEnabled (Cache.set key v timeout w) = true
  ∧ Cache.clock (Cache.set key v timeout w) = Cache.clock w
  ∧ Cache.reads (Cache.set key v timeout w) = S (Cache.reads w).
Proof. unfold Cache.isEnabled, Cache.set. intros He. rewrite He. cbn. done. Qed.

(** A read of a live entry: the value, and the store as it was. *)
Lemma get_live key w e :
  Cache.isEnabled w = true →
  Cache.store (Cache.instance w) !! key = Some e →
  (Cache.clock w (Cache.reads w) - Cache.timestamp e ≤ Cache.timeout e)%Z →
  fst (Cache.get key w) = Some (Cache.value e)
  ∧ Cache.store (Cache.instance (snd (Cache.get key w))) = Cache.store (Cache.instance w)
  ∧ fst (Cache.has key w) = true
  ∧ Cache.store (Cache.instance (snd (Cache.has key w))) = Cache.store (Cache.instance w).
Proof.
  unfold Cache.isEnabled, Cache.get, Cache.has. intros -> -> Hle. cbn.
  destruct (Z.gtb_spec (Cache.clock w (Cache.reads w) - Cache.timestamp e) (Cache.timeout e));
    [lia | done].
Qed.

(** A read of an expired entry: absent, and the entry is deleted, which
    takes the size down by one. *)
Lemma get_expired key w e :
  Cache.isEnabled w = true →
  Cache.store (Cache.instance w) !! key = Some e →
  (Cache.timeout e < Cache.clock w (Cache.reads w) - Cache.timestamp e)%Z →
  fst (Cache.get key w) = None
  ∧ Cache.store (Cache.instance (snd (Cache.get key w))) !! key = None
  ∧ S (Cache.size (snd (Cache.get key w))) = Cache.size w
  ∧ fst (Cache.has key w) = false
  ∧ Cache.store (Cache.instance (snd (Cache.has key w))) !! key = None
  ∧ S (Cache.size (snd (Cache.has key w))) = Cache.size w.
Proof.
  unfold Cache.isEnabled, Cache.get, Cache.has, Cache.size. intros He Hk Hlt.
  rewrite He, Hk. cbn.
  destruct (Z.gtb_spec (Cache.clock w (Cache.reads w) - Cache.timestamp e) (Cache.timeout e));
    [|lia].
  cbn. rewrite lookup_delete_eq, map_size_delete, Hk.
  assert (base.size (Cache.store (Cache.instance w)) ≠ 0).
  { apply map_size_non_empty_iff. intros Hm. rewrite Hm in Hk. by rewrite lookup_empty in Hk. }
  repeat split; lia.
Qed.

End CacheFacts.

(** C4, as stated, fails for a negative lifetime: with the cache
    enabled and the clock standing still, [set(k, v, -1)] followed at
    once by [get(k)] reports the entry absent. *)
Lemma negative_ttl_is_expired_at_once :
  let w : Cache.World string := Examples.worldAt 1000 in
  Cache.isEnabled w = true
  ∧ Cache.clock w (S (Cache.reads w)) = Cache.clock w (Cache.reads w)
  ∧ fst (Cache.get "k" (Cache.set "k" "v" (Some (-1)%Z) w)) = None
  ∧ fst (Cache.get "k" (Cache.set "k" "v" (Some (-1)%Z) w)) ≠ Some "v".
Proof. repeat split; try (vm_compute; reflexivity). vm_compute. discriminate. Qed.

(** C4, amended.  With the cache enabled, [set(k, v, ttl)] stores [v]
    with the reading of the clock.  A [get(k)] that follows while the
    elapsed time is at most [ttl] returns [v], as [has(k)] returns
    true, and leaves the store alone; this is so immediately after the
    [set], at the same reading, for every [ttl] that is not negative.
    A [get(k)] or [has(k)] that follows once the elapsed time exceeds
    [ttl] reports the entry absent, deletes it, and leaves [size()] one
    below what it was.  The same holds of a read at any later moment at
    which the entry is still stored. *)
Theorem cache_round_trip_and_expiry :
  ∀ (V : Type) (k : string) (v : V) (ttl : Z) (w : Cache.World V),
    Cache.isEnabled w = true →
    let w1 := Cache.set k v (Some ttl) w in
    let elapsed := (Cache.clock w (S (Cache.reads w)) - Cache.clock w (Cache.reads w))%Z in
    ((elapsed ≤ ttl)%Z →
       fst (Cache.get k w1) = Some v
       ∧ fst (Cache.has k w1) = true
       ∧ Cache.size (snd (Cache.get k w1)) = Cache.size w1)
    ∧ ((0 ≤ ttl)%Z → elapsed = 0%Z → fst (Cache.get k w1) = Some v)
    ∧ ((ttl < elapsed)%Z →
       fst (Cache.get k w1) = None
       ∧ S (Cache.size (snd (Cache.get k w1))) = Cache.size w1
       ∧ fst (Cache.has k w1) = false
       ∧ S (Cache.size (snd (Cache.has k w1))) = Cache.size w1)
    ∧ (∀ (w' : Cache.World V) (e : Cache.CacheEntry V),
         Cache.isEnabled w' = true →
         Cache.store (Cache.instance w') !! k = Some e →
         (Cache.timeout e < Cache.clock w' (Cache.reads w') - Cache.timestamp e)%Z →
         fst (Cache.get k w') = None
         ∧ S (Cache.size (snd (Cache.get k w'))) = Cache.size w'
         ∧ fst (Cache.has k w') = false
         ∧ S (Cache.size (snd (Cache.has k w'))) = Cache.size w').
Proof.
  intros V k v ttl w He w1 elapsed.
  pose proof (set_stores k v (Some ttl) w He) as Hs.
  destruct (set_clock k v (Some ttl) w He) as (He1 & Hc1 & Hr1).
  fold w1 in Hs, He1, Hc1, Hr1.
  assert (Hlive : (elapsed ≤ ttl)%Z →
                  fst (Cache.get k w1) = Some v
                  ∧ fst (Cache.has k w1) = true
                  ∧ Cache.size (snd (Cache.get k w1)) = Cache.size w1).
  { intros Hle.
    destruct (get_live k w1 _ He1 Hs) as (Hg & Hgs & Hh & _).
    { rewrite Hc1, Hr1. cbn. exact Hle. }
    unfold Cache.size. by rewrite Hgs. }
  split; [exact Hlive|]. split; [|split].
  - intros Hnn H0. apply Hlive. lia.
  - intros Hlt.
    destruct (get_expired k w1 _ He1 Hs) as (Hg & _ & Hgs & Hh & _ & Hhs).
    { rewrite Hc1, Hr1. cbn. exact Hlt. }
    done.
  - intros w' e He' Hk Hlt.
    destruct (get_expired k w' e He' Hk Hlt) as (Hg & _ & Hgs & Hh & _ & Hhs).
    done.
Qed.

Lemma cache_round_trip_and_expiry_witness :
  let w : Cache.World string := Examples.worldAt 1000 in
  let w1 := Cache.set "k" "v" (Some 500%Z) w in
  fst (Cache.get "k" w1) = Some "v".
Proof.
  destruct (cache_round_trip_and_expiry string "k" "v" 500 (Examples.worldAt 1000))
    as (_ & H & _).
  - reflexivity.
  - apply H; [lia | reflexivity].
Defined.

(** ** A disabled cache: nothing is served, nothing is stored *)

Section DisabledCache.
Context {V : Type}.
Implicit Types (w : Cache.World V) (d : Detector.BaseDetector V).
Import Detector.

Lemma disable_spec w :
  Cache.isEnabled (Cache.disable w) = false
  ∧ Cache.size (Cache.disable w) = 0
  ∧ Cache.store (Cache.instance (Cache.disable w)) = ∅.
Proof. unfold Cache.isEnabled, Cache.size, Cache.disable. cbn. done. Qed.

Lemma get_disabled key w : Cache.isEnabled w = false → Cache.get key w = (None, w).
Proof. unfold Cache.isEnabled, Cache.get. by intros ->. Qed.

Lemma has_disabled key w : Cache.isEnabled w = false → Cache.has key w = (false, w).
Proof. unfold Cache.isEnabled, Cache.has. by intros ->. Qed.

Lemma set_disabled key (v : V) t w : Cache.isEnabled w = false → Cache.set key v t w = w.
Proof. unfold Cache.isEnabled, Cache.set. by intros ->. Qed.

Lemma lookupCached_disabled d w : Cache.isEnabled w = false → lookupCached d w = (None, w).
Proof.
  intros He. unfold lookupCached. destruct (on _); [by apply get_disabled | done].
Qed.

Lemma storeResult_disabled d (r : V) w : Cache.isEnabled w = false → storeResult d r w = w.
Proof.
  intros He. unfold storeResult. destruct (on _); [by apply set_disabled | done].
Qed.

Lemma detectSync_disabled d h w :
  Cache.isEnabled w = false → detectSync d h w = (performDetection d h, w).
Proof.
  intros He. unfold detectSync. rewrite lookupCached_disabled by done.
  destruct (performDetection d h); [|done]. by rewrite storeResult_disabled.
Qed.

Lemma detectAsync_disabled d h w :
  Cache.isEnabled w = false →
  snd (detectAsync d h w) = w
  ∧ ∀ w', Cache.isEnabled w' = false →
          await (fst (detectAsync d h w)) w' = (performAsyncDetection d h, w').
Proof.
  intros He. unfold detectAsync. rewrite lookupCached_disabled by done. cbn.
  split; [done|]. intros w' He'. unfold await.
  destruct (performAsyncDetection d h); [|done]. by rewrite storeResult_disabled.
Qed.

(** [detect()] leaves a disabled world as it is, and so does settling
    what it returned. *)
Lemma detect_disabled d h w :
  Cache.isEnabled w = false →
  snd (detect d h w) = w
  ∧ ∀ x, fst (detect d h w) = Ok x →
         ∀ w', Cache.isEnabled w' = false → snd (settle x w') = w'.
Proof.
  intros He. unfold detect. destruct (on (async (options d))).
  - destruct (detectAsync_disabled d h w He) as [Hs Hp].
    destruct (detectAsync d h w) as [p w1]. cbn in *. split; [done|].
    intros x [= <-] w' He'. cbn. by rewrite Hp.
  - rewrite detectSync_disabled by done.
    destruct (performDetection d h); cbn; [|done].
    split; [done|]. by intros x [= <-] w' He'.
Qed.

End DisabledCache.

Section DisabledFacade.
Context {V : Type}.
Implicit Types (self : Facade.EnvironmentDetector V) (w : Cache.World V).

Ltac step_detect He :=
  match goal with
  | |- context [Detector.detect ?d ?h ?w] =>
      let H := fresh "H" in
      let x := fresh "x" in
      let w1 := fresh "w" in
      destruct (detect_disabled d h w He) as [H _];
      destruct (Detector.detect d h w) as [[x|?] w1]; cbn in H; subst w1; cbn; [|done]
  end.

Lemma getEnvironmentInfo_disabled self h w :
  Cache.isEnabled w = false → snd (Facade.getEnvironmentInfo self h w) = w.
Proof.
  intros He. unfold Facade.getEnvironmentInfo, Detector.bind, Detector.ret.
  do 7 step_detect He. done.
Qed.

Lemma getEnvironmentInfoAsync_disabled self h w :
  Cache.isEnabled w = false → snd (Facade.getEnvironmentInfoAsync self h w) = w.
Proof.
  intros He. unfold Facade.getEnvironmentInfoAsync, Detector.bind.
  repeat match goal with
  | |- context [Detector.detect ?d ?h ?w] =>
      let H := fresh "H" in
      let Hx := fresh "Hx" in
      let x := fresh "x" in
      let w1 := fresh "w" in
      destruct (detect_disabled d h w He) as [H Hx];
      destruct (Detector.detect d h w) as [[x|?] w1]; cbn in H; subst w1; cbn;
      [specialize (Hx x eq_refl w He)|done]
  end.
  repeat match goal with
  | Hx : snd (Detector.settle ?x ?w0) = ?w0 |- context [Detector.settle ?x ?w0] =>
      let o := fresh "o" in
      let w1 := fresh "w" in
      destruct (Detector.settle x w0) as [o w1]; cbn in Hx; subst w1; cbn
  end.
  done.
Qed.

End DisabledFacade.

Lemma detectSync_stores_when_enabled {V} (d : Detector.BaseDetector V) h (w : Cache.World V) r :
  Cache.isEnabled w = true →
  Cache.store (Cache.instance w) !! Detector.getCacheKey d = None →
  Detector.on (Detector.cache (Detector.options d)) = true →
  Detector.performDetection d h = Ok r →
  Cache.store (Cache.instance (snd (Detector.detectSync d h w))) !! Detector.getCacheKey d =
    Some {| Cache.value := r;
            Cache.timestamp := Cache.clock w (Cache.reads w);
            Cache.timeout := default Constants.DEFAULT_CACHE_TIMEOUT
                               (Detector.cacheTimeout (Detector.options d)) |}.
Proof.
  intros He Hn Hon Hr.
  unfold Detector.detectSync, Detector.lookupCached, Detector.storeResult, Cache.get.
  unfold Cache.isEnabled in He. rewrite Hon, He, Hn, Hr. cbn.
  by apply set_stores.
Qed.

(** C10. Constructing an [EnvironmentDetector] with options whose
    [cache] is [false] disables the one cache of the process: whatever
    it held is gone and it is off.  From then on every detector,
    whatever its own options, and every [EnvironmentDetector], recompute
    on each call and leave the cache empty and off; after
    [enableCache()] a detector whose caching is on stores its result
    again. *)
Theorem cache_false_disables_the_shared_cache :
  ∀ (V : Type)
    (osRoutine containerRoutine ciRoutine cloudRoutine
     nodeRoutine modeRoutine privilegeRoutine : Host → Exc V)
    (o : Detector.DetectorOptions) (w : Cache.World V),
    Detector.cache o = Some false →
    let w1 := snd (Facade.constructor osRoutine containerRoutine ciRoutine cloudRoutine
                     nodeRoutine modeRoutine privilegeRoutine (Some o) w) in
    (Cache.size w1 = 0 ∧ Cache.isEnabled w1 = false)
    ∧ (∀ key v timeout,
         fst (Cache.get key w1) = None ∧ Cache.set key v timeout w1 = w1)
    ∧ (∀ (d : Detector.BaseDetector V) (h : Host),
         Detector.detectSync d h w1 = (Detector.performDetection d h, w1)
         ∧ snd (Detector.detect d h w1) = w1)
    ∧ (∀ (other : Facade.EnvironmentDetector V) (h : Host),
         snd (Facade.getEnvironmentInfo other h w1) = w1
         ∧ snd (Facade.getEnvironmentInfoAsync other h w1) = w1)
    ∧ (∀ (d : Detector.BaseDetector V) (h : Host) (r : V),
         Detector.on (Detector.cache (Detector.options d)) = true →
         Detector.performDetection d h = Ok r →
         let w2 := Facade.enableCache w1 in
         Cache.isEnabled w2 = true
         ∧ Cache.store (Cache.instance (snd (Detector.detectSync d h w2)))
             !! Detector.getCacheKey d =
           Some {| Cache.value := r;
                   Cache.timestamp := Cache.clock w (Cache.reads w);
                   Cache.timeout := default Constants.DEFAULT_CACHE_TIMEOUT
                                      (Detector.cacheTimeout (Detector.options d)) |}).
Proof.
  intros V r1 r2 r3 r4 r5 r6 r7 o w Ho w1.
  assert (Hw1 : w1 = Cache.disable w) by (subst w1; cbn; by rewrite Ho).
  destruct (disable_spec w) as (He & Hs & Hst). rewrite <- Hw1 in He, Hs, Hst.
  split; [done|]. split; [|split; [|split]].
  - intros key v t. by rewrite get_disabled, set_disabled.
  - intros d h. split; [by apply detectSync_disabled | by apply detect_disabled].
  - intros other h.
    split; [by apply getEnvironmentInfo_disabled | by apply getEnvironmentInfoAsync_disabled].
  - intros d h r Hon Hr w2.
    assert (He2 : Cache.isEnabled w2 = true) by reflexivity.
    split; [exact He2|].
    rewrite (detectSync_stores_when_enabled d h w2 r He2); [| | done | done].
    + unfold w2. by rewrite Hw1.
    + change (Cache.store (Cache.instance w1) !! Detector.getCacheKey d = None).
      rewrite Hst. apply lookup_empty.
Qed.

Lemma cache_false_disables_the_shared_cache_witness :
  let o := {| Detector.cache := Some false;
              Detector.cacheTimeout := None;
              Detector.async := None |} in
  let routine := fun _ : Host => Ok "linux" in
  let w := Cache.set "detector:os" "darwin" None (Examples.worldAt 0) in
  let w1 := snd (Facade.constructor routine routine routine routine routine routine routine
                   (Some o) w) in
  Cache.size w = 1 ∧ Cache.size w1 = 0 ∧ Cache.isEnabled w1 = false.
Proof.
  split; [vm_compute; reflexivity|].
  apply (cache_false_disables_the_shared_cache string
           (fun _ => Ok "linux") (fun _ => Ok "linux") (fun _ => Ok "linux")
           (fun _ => Ok "linux") (fun _ => Ok "linux") (fun _ => Ok "linux")
           (fun _ => Ok "linux")
           {| Detector.cache := Some false;
              Detector.cacheTimeout := None;
              Detector.async := None |}
           (Cache.set "detector:os" "darwin" None (Examples.worldAt 0))).
  reflexivity.
Defined.

(** ** plugins/manager.ts *)

Section PluginFacts.
Context {D : Type} (detectorName : D → string).
Import Plugins.

Lemma unregister_all (l : list D) (ctx : PluginContextImpl D) (n : string) :
  detectors (fold_left (fun c d => unregisterDetector (detectorName d) c) l ctx) !! n =
    if bool_decide (n ∈ map detectorName l) then None else detectors ctx !! n.
Proof.
  revert ctx. induction l as [|d l IH]; intros ctx; cbn; [done|].
  rewrite IH. cbn.
  destruct (decide (n = detectorName d)) as [->|Hne].
  - rewrite lookup_delete_eq. rewrite (bool_decide_eq_true_2 (_ ∈ _ :: _)) by left.
    by case_bool_decide.
  - rewrite lookup_delete_ne by done.
    case_bool_decide as H1; case_bool_decide as H2; try done.
    + exfalso. apply H2. by right.
    + exfalso. apply H1. by apply elem_of_cons in H2 as [?|?].
Qed.

(** What [remove] does when the uninstall hook throws: the wrapped
    error, the plugin map as it was, the error event, and the plugin's
    detectors already unregistered before the hook ran. *)
Lemma remove_when_uninstall_throws (self : PluginManagerImpl D) (pluginName : string)
    (plugin : Plugin D) (error : string) (ctx2 : PluginContextImpl D) :
  plugins self !! pluginName = Some plugin →
  callOptional (uninstall plugin)
    (fold_left (fun c d => unregisterDetector (detectorName d) c)
       (plugin_detectors plugin) (context self)) = (Throw error, ctx2) →
  remove detectorName pluginName self =
    (Throw (Error ("Failed to remove plugin '" +:+ pluginName +:+ "': " +:+ error)),
     {| plugins := plugins self;
        context := emit "plugin:error" (name plugin) (Some error) ctx2 |}).
Proof. intros Hp Hu. unfold remove. by rewrite Hp, Hu. Qed.

End PluginFacts.

(** C7. A plugin with one registered detector whose uninstall hook
    throws: [remove] emits the error event, throws the wrapped error and
    keeps the plugin in the manager's map, but the plugin's detector is
    no longer registered in the context; the loop that unregisters the
    detectors runs before the hook is called. *)
Theorem failed_uninstall_leaves_detectors_unregistered :
  let m := Examples.managerWithFailingPlugin in
  let after := snd (Plugins.remove (fun d => d) "mock-plugin" m) in
  Plugins.get "mock-plugin" m = Some Examples.failingPlugin
  ∧ Plugins.getDetector "test-detector" (Plugins.context m) = Some "test-detector"
  ∧ fst (Plugins.remove (fun d => d) "mock-plugin" m) =
      Throw "Error: Failed to remove plugin 'mock-plugin': Error: Uninstall failed"
  ∧ last (Plugins.emitted (Plugins.context after)) =
      Some {| Plugins.event := "plugin:error";
              Plugins.pluginName := "mock-plugin";
              Plugins.error := Some "Error: Uninstall failed" |}
  ∧ Plugins.get "mock-plugin" after = Some Examples.failingPlugin
  ∧ Plugins.getDetector "test-detector" (Plugins.context after) = None.
Proof. repeat split; vm_compute; reflexivity. Qed.

(** ** The asynchronous path against the synchronous one *)

Section SyncAsync.
Context {V : Type}.
Implicit Types (w : Cache.World V) (d : Detector.BaseDetector V).
Import Detector.

Lemma performAsyncDetection_default d h :
  performAsyncDetection_override d = None →
  performAsyncDetection d h = performDetection d h.
Proof. unfold performAsyncDetection. by intros ->. Qed.

(** Awaiting [detectAsync] right away is [detectSync]. *)
Lemma detectAsync_await d h w :
  performAsyncDetection_override d = None →
  await (fst (detectAsync d h w)) (snd (detectAsync d h w)) = detectSync d h w.
Proof.
  intros Hd. unfold detectAsync, detectSync, await.
  rewrite (performAsyncDetection_default d h Hd).
  destruct (lookupCached d w) as [[v|] w1]; cbn; [done|].
  by destruct (performDetection d h).
Qed.

Lemma detect_sync_mode d h w :
  on (async (options d)) = false →
  detect d h w = (exc_map Value (fst (detectSync d h w)), snd (detectSync d h w)).
Proof.
  intros Hm. unfold detect. rewrite Hm. by destruct (detectSync d h w) as [[v|e] w1].
Qed.

Lemma detect_async_mode d h w :
  on (async (options d)) = true →
  detect d h w = (Ok (Deferred (fst (detectAsync d h w))), snd (detectAsync d h w)).
Proof.
  intros Hm. unfold detect. rewrite Hm. by destruct (detectAsync d h w).
Qed.

Lemma same_outside_refl w : same_outside [] w w.
Proof. by repeat split. Qed.

Lemma get_frame key K w0 w :
  same_outside K w0 w → same_outside (key :: K) w0 (snd (Cache.get key w)).
Proof.
  intros (He & Hc & Hs). unfold Cache.get.
  destruct (negb _); cbn.
  { repeat split; try done. intros k Hk. apply Hs. set_solver. }
  destruct (_ !! key) as [e|]; cbn.
  2:{ repeat split; try done. intros k Hk. apply Hs. set_solver. }
  destruct (_ >? _)%Z; cbn; (repeat split; [done | done |]); intros k Hk.
  - cbn. rewrite lookup_delete_ne by set_solver. apply Hs. set_solver.
  - apply Hs. set_solver.
Qed.

Lemma set_frame key (v : V) t K w0 w :
  same_outside (key :: K) w0 w → same_outside (key :: K) w0 (Cache.set key v t w).
Proof.
  intros (He & Hc & Hs). unfold Cache.set.
  destruct (negb _); cbn; [done|].
  repeat split; [done | done |]. intros k Hk.
  cbn. rewrite lookup_insert_ne by set_solver. by apply Hs.
Qed.

Lemma lookupCached_frame d K w0 w :
  same_outside K w0 w → same_outside (getCacheKey d :: K) w0 (snd (lookupCached d w)).
Proof.
  intros H. unfold lookupCached. destruct (on _); [by apply get_frame|].
  destruct H as (He & Hc & Hs). repeat split; [done | done |].
  intros k Hk. apply Hs. set_solver.
Qed.

Lemma storeResult_frame d (r : V) K w0 w :
  same_outside (getCacheKey d :: K) w0 w →
  same_outside (getCacheKey d :: K) w0 (storeResult d r w).
Proof. intros H. unfold storeResult. destruct (on _); [by apply set_frame | done]. Qed.

(** A detection touches the cache under its own key only. *)
Lemma detectSync_frame d h K w0 w :
  same_outside K w0 w → same_outside (getCacheKey d :: K) w0 (snd (detectSync d h w)).
Proof.
  intros H. unfold detectSync.
  pose proof (lookupCached_frame d K w0 w H) as H1.
  destruct (lookupCached d w) as [[v|] w1]; cbn in *; [done|].
  destruct (performDetection d h); cbn; [by apply storeResult_frame | done].
Qed.

Lemma detectAsync_frame d h K w0 w :
  same_outside K w0 w → same_outside (getCacheKey d :: K) w0 (snd (detectAsync d h w)).
Proof.
  intros H. unfold detectAsync.
  pose proof (lookupCached_frame d K w0 w H) as H1.
  by destruct (lookupCached d w) as [[v|] w1].
Qed.

(** Under a clock that stands still, a lookup depends on the switch
    and on the entry under the key only. *)
Lemma lookupCached_outcome ds da K w0 ws wa :
  getCacheKey ds = getCacheKey da →
  on (cache (options ds)) = on (cache (options da)) →
  stable_clock w0 →
  same_outside K w0 ws → same_outside K w0 wa →
  getCacheKey ds ∉ K →
  fst (lookupCached ds ws) = fst (lookupCached da wa).
Proof.
  intros Hk Hon Hclk (Hes & Hcs & Hss) (Hea & Hca & Hsa) Hnin.
  unfold lookupCached, Cache.get. rewrite <- Hon, <- Hk.
  destruct (on _); [|done].
  rewrite Hes, Hea, (Hss _ Hnin), (Hsa _ Hnin).
  destruct (negb _); [done|].
  destruct (_ !! getCacheKey ds) as [e|]; [|done].
  cbn. rewrite Hcs, Hca, (Hclk (Cache.reads ws)), (Hclk (Cache.reads wa)).
  by destruct (_ >? _)%Z.
Qed.

(** The promise of the asynchronous path settles to the outcome of the
    synchronous path, whenever it is resumed. *)
Lemma detectAsync_outcome ds da h K w0 ws wa :
  getCacheKey ds = getCacheKey da →
  on (cache (options ds)) = on (cache (options da)) →
  performDetection ds = performDetection da →
  performAsyncDetection_override da = None →
  stable_clock w0 →
  same_outside K w0 ws → same_outside K w0 wa →
  getCacheKey ds ∉ K →
  ∀ u, fst (await (fst (detectAsync da h wa)) u) = fst (detectSync ds h ws).
Proof.
  intros Hk Hon Hp Hd Hclk Hs Ha Hnin u.
  pose proof (lookupCached_outcome ds da K w0 ws wa Hk Hon Hclk Hs Ha Hnin) as Hl.
  unfold detectAsync, detectSync, await.
  rewrite (performAsyncDetection_default da h Hd), <- Hp.
  destruct (lookupCached ds ws) as [cs ws1], (lookupCached da wa) as [ca wa1].
  cbn in Hl. subst ca. destruct cs as [v|]; cbn; [done|].
  by destruct (performDetection ds h).
Qed.

End SyncAsync.

Section FacadePaths.
Context {V : Type}.
Implicit Types (self : Facade.EnvironmentDetector V) (w : Cache.World V).
Import Detector Facade.

Ltac step_sync :=
  match goal with
  | |- context [detect ?d ?h ?w] =>
      rewrite (detect_sync_mode d h w) by assumption;
      let v := fresh "v" in
      let e := fresh "e" in
      let w1 := fresh "w" in
      destruct (detectSync d h w) as [[v|e] w1]; cbn; [|done]
  end.

(** With synchronous detectors, [getEnvironmentInfoAsync] is
    [getEnvironmentInfo]: same outcome, same world. *)
Lemma facade_sync_mode self h w :
  all_in_mode false self →
  fst (getEnvironmentInfo self h w)
    = exc_map (info_map Value) (fst (getEnvironmentInfoAsync self h w))
  ∧ snd (getEnvironmentInfo self h w) = snd (getEnvironmentInfoAsync self h w).
Proof.
  intros (H1 & H2 & H3 & H4 & H5 & H6 & H7).
  unfold getEnvironmentInfo, getEnvironmentInfoAsync, bind, ret.
  do 7 step_sync. done.
Qed.

(** The outcome of the synchronous facade, from the outcomes of the
    seven detections run one after the other. *)
Lemma sync_facade_outcome self h w :
  all_in_mode false self →
  let r1 := detectSync (osDetector self) h w in
  let r2 := detectSync (containerDetector self) h (snd r1) in
  let r3 := detectSync (ciDetector self) h (snd r2) in
  let r4 := detectSync (cloudDetector self) h (snd r3) in
  let r5 := detectSync (nodeDetector self) h (snd r4) in
  let r6 := detectSync (privilegeDetector self) h (snd r5) in
  let r7 := detectSync (modeDetector self) h (snd r6) in
  fst (getEnvironmentInfo self h w)
    = exc_map (info_map Value)
        (Facade.all (fst r1) (fst r2) (fst r3) (fst r4) (fst r5) (fst r6) (fst r7)).
Proof.
  intros (H1 & H2 & H3 & H4 & H5 & H6 & H7). cbv zeta.
  unfold getEnvironmentInfo, bind, ret.
  do 7 step_sync. done.
Qed.

Ltac step_async :=
  match goal with
  | |- context [detect ?d ?h ?w] =>
      rewrite (detect_async_mode d h w) by assumption; cbn [fst snd]
  end.

(** The outcome of the asynchronous facade, from the seven promises
    and the order in which they are resumed. *)
Lemma async_facade_outcome self h w :
  all_in_mode true self →
  let q1 := detectAsync (osDetector self) h w in
  let q2 := detectAsync (containerDetector self) h (snd q1) in
  let q3 := detectAsync (ciDetector self) h (snd q2) in
  let q4 := detectAsync (cloudDetector self) h (snd q3) in
  let q5 := detectAsync (nodeDetector self) h (snd q4) in
  let q6 := detectAsync (privilegeDetector self) h (snd q5) in
  let q7 := detectAsync (modeDetector self) h (snd q6) in
  let t1 := await (fst q1) (snd q7) in
  let t2 := await (fst q2) (snd t1) in
  let t3 := await (fst q3) (snd t2) in
  let t4 := await (fst q4) (snd t3) in
  let t5 := await (fst q5) (snd t4) in
  let t6 := await (fst q6) (snd t5) in
  let t7 := await (fst q7) (snd t6) in
  fst (getEnvironmentInfoAsync self h w)
    = Facade.all (fst t1) (fst t2) (fst t3) (fst t4) (fst t5) (fst t6) (fst t7).
Proof.
  intros (H1 & H2 & H3 & H4 & H5 & H6 & H7). cbv zeta.
  unfold getEnvironmentInfoAsync, bind.
  do 7 step_async. cbn [settle].
  repeat match goal with
         | |- context [await ?p ?u] => destruct (await p u); cbn [fst snd]
         end.
  done.
Qed.

(** Over asynchronous detectors the fields of [getEnvironmentInfo] are
    the promises themselves; awaited in call order, they settle as
    [getEnvironmentInfoAsync] does. *)
Lemma sync_facade_over_async_detectors self h w :
  all_in_mode true self →
  ∃ p1 p2 p3 p4 p5 p6 p7 w7,
    getEnvironmentInfo self h w =
      (Ok {| os := Deferred p1; container := Deferred p2; ci := Deferred p3;
             cloud := Deferred p4; node := Deferred p5; privileges := Deferred p6;
             mode := Deferred p7 |}, w7)
    ∧ fst (getEnvironmentInfoAsync self h w) =
        let t1 := await p1 w7 in
        let t2 := await p2 (snd t1) in
        let t3 := await p3 (snd t2) in
        let t4 := await p4 (snd t3) in
        let t5 := await p5 (snd t4) in
        let t6 := await p6 (snd t5) in
        let t7 := await p7 (snd t6) in
        Facade.all (fst t1) (fst t2) (fst t3) (fst t4) (fst t5) (fst t6) (fst t7).
Proof.
  intros Hm. pose proof (async_facade_outcome self h w Hm) as Ha. cbv zeta in Ha.
  destruct Hm as (H1 & H2 & H3 & H4 & H5 & H6 & H7).
  unfold getEnvironmentInfo, bind, ret.
  do 7 step_async.
  do 8 eexists. split; [reflexivity|]. exact Ha.
Qed.

End FacadePaths.

Section FacadeModes.
Context {V : Type}.
Variables (osRoutine containerRoutine ciRoutine cloudRoutine
           nodeRoutine modeRoutine privilegeRoutine : Host → Exc V).
Import Detector Facade.

Local Abbreviation facade :=
  (withOptions osRoutine containerRoutine ciRoutine cloudRoutine
     nodeRoutine modeRoutine privilegeRoutine) (only parsing).

Lemma facade_mode b o : all_in_mode b (facade (withAsync b o)).
Proof. by repeat split. Qed.

Ltac frames :=
  repeat match goal with
         | |- same_outside (_ :: ?K) ?w0 (snd (detectSync ?d ?h ?w)) =>
             apply (detectSync_frame d h K w0 w)
         | |- same_outside (_ :: ?K) ?w0 (snd (detectAsync ?d ?h ?w)) =>
             apply (detectAsync_frame d h K w0 w)
         | |- same_outside [] ?w ?w => apply same_outside_refl
         end.

Ltac fresh_key :=
  repeat (apply not_elem_of_cons; split; [intros Heq; vm_compute in Heq; discriminate Heq|]);
  apply not_elem_of_nil.

(** The asynchronous facade over asynchronous detectors settles to the
    outcome of the synchronous facade over synchronous detectors. *)
Lemma facade_cross_mode o h (w : Cache.World V) :
  stable_clock w →
  exc_map (info_map Value) (fst (getEnvironmentInfoAsync (facade (withAsync true o)) h w))
    = fst (getEnvironmentInfo (facade (withAsync false o)) h w).
Proof.
  intros Hclk.
  rewrite (sync_facade_outcome _ h w (facade_mode false o)).
  rewrite (async_facade_outcome _ h w (facade_mode true o)).
  cbv zeta. f_equal.
  set (S := facade (withAsync false o)).
  set (A := facade (withAsync true o)).
  f_equal.
  - apply (detectAsync_outcome (osDetector S) (osDetector A) h [] w);
      try reflexivity; try assumption; [frames | frames | fresh_key].
  - apply (detectAsync_outcome (containerDetector S) (containerDetector A) h
             [getCacheKey (osDetector S)] w);
      try reflexivity; try assumption; [frames | frames | fresh_key].
  - apply (detectAsync_outcome (ciDetector S) (ciDetector A) h
             [getCacheKey (containerDetector S); getCacheKey (osDetector S)] w);
      try reflexivity; try assumption; [frames | frames | fresh_key].
  - apply (detectAsync_outcome (cloudDetector S) (cloudDetector A) h
             [getCacheKey (ciDetector S); getCacheKey (containerDetector S);
              getCacheKey (osDetector S)] w);
      try reflexivity; try assumption; [frames | frames | fresh_key].
  - apply (detectAsync_outcome (nodeDetector S) (nodeDetector A) h
             [getCacheKey (cloudDetector S); getCacheKey (ciDetector S);
              getCacheKey (containerDetector S); getCacheKey (osDetector S)] w);
      try reflexivity; try assumption; [frames | frames | fresh_key].
  - apply (detectAsync_outcome (privilegeDetector S) (privilegeDetector A) h
             [getCacheKey (nodeDetector S); getCacheKey (cloudDetector S);
              getCacheKey (ciDetector S); getCacheKey (containerDetector S);
              getCacheKey (osDetector S)] w);
      try reflexivity; try assumption; [frames | frames | fresh_key].
  - apply (detectAsync_outcome (modeDetector S) (modeDetector A) h
             [getCacheKey (privilegeDetector S); getCacheKey (nodeDetector S);
              getCacheKey (cloudDetector S); getCacheKey (ciDetector S);
              getCacheKey (containerDetector S); getCacheKey (osDetector S)] w);
      try reflexivity; try assumption; [frames | frames | fresh_key].
Qed.

End FacadeModes.

(** C8. The inherited [performAsyncDetection] delegates to
    [performDetection].  For every detector that does not override it,
    [detectAsync], awaited, yields what [detectSync] yields and leaves
    the same cache.  For the facade: over synchronous detectors
    [getEnvironmentInfoAsync] yields the record of
    [getEnvironmentInfo] and leaves the same cache; over asynchronous
    detectors, with the host and the clock stable, it settles to the
    record [getEnvironmentInfo] yields over synchronous ones, or
    rejects with the error that throws. *)
Theorem async_path_agrees_with_sync_path :
  ∀ (V : Type)
    (osRoutine containerRoutine ciRoutine cloudRoutine
     nodeRoutine modeRoutine privilegeRoutine : Host → Exc V)
    (o : Detector.DetectorOptions) (h : Host) (w : Cache.World V),
    let facade :=
      Facade.withOptions osRoutine containerRoutine ciRoutine cloudRoutine
        nodeRoutine modeRoutine privilegeRoutine in
    (∀ (d : Detector.BaseDetector V),
       Detector.performAsyncDetection_override d = None →
       Detector.performAsyncDetection d h = Detector.performDetection d h
       ∧ Detector.await (fst (Detector.detectAsync d h w)) (snd (Detector.detectAsync d h w))
         = Detector.detectSync d h w)
    ∧ (fst (Facade.getEnvironmentInfo (facade (withAsync false o)) h w)
         = exc_map (info_map Detector.Value)
             (fst (Facade.getEnvironmentInfoAsync (facade (withAsync false o)) h w))
       ∧ snd (Facade.getEnvironmentInfo (facade (withAsync false o)) h w)
         = snd (Facade.getEnvironmentInfoAsync (facade (withAsync false o)) h w))
    ∧ (stable_clock w →
       exc_map (info_map Detector.Value)
         (fst (Facade.getEnvironmentInfoAsync (facade (withAsync true o)) h w))
       = fst (Facade.getEnvironmentInfo (facade (withAsync false o)) h w)).
Proof.
  intros V r1 r2 r3 r4 r5 r6 r7 o h w facade. split; [|split].
  - intros d Hd. split; [by apply performAsyncDetection_default | by apply detectAsync_await].
  - apply facade_sync_mode. apply facade_mode.
  - apply facade_cross_mode.
Qed.

Lemma async_path_agrees_with_sync_path_witness :
  let routine := fun _ : Host => Ok "value" in
  let facade := Facade.withOptions routine routine routine routine routine routine routine in
  let w : Cache.World string := Examples.worldAt 1000 in
  stable_clock w
  ∧ exc_map (info_map Detector.Value)
      (fst (Facade.getEnvironmentInfoAsync
              (facade (withAsync true Detector.noOptions)) Examples.bareHost w))
    = fst (Facade.getEnvironmentInfo
             (facade (withAsync false Detector.noOptions)) Examples.bareHost w).
Proof.
  assert (Hclk : stable_clock (Examples.worldAt 1000 : Cache.World string))
    by (intros n; reflexivity).
  split; [exact Hclk|].
  destruct (async_path_agrees_with_sync_path string
              (fun _ => Ok "value") (fun _ => Ok "value") (fun _ => Ok "value")
              (fun _ => Ok "value") (fun _ => Ok "value") (fun _ => Ok "value")
              (fun _ => Ok "value")
              Detector.noOptions Examples.bareHost (Examples.worldAt 1000)) as (_ & _ & H).
  exact (H Hclk).
Defined.

(** ** The scenarios of the test suite, replayed on the embedding *)

Example github_actions_pull_request :
  CI.performDetection
    (Examples.linuxHost
       {[ "GITHUB_ACTIONS" := "true"; "GITHUB_EVENT_NAME" := "pull_request" ]} ∅)
  = {| CI.isCI := true;
       CI.name := Some "GitHub Actions";
       CI.isPR := Some true;
       CI.provider := Some CI.github_actions |}.
Proof. vm_compute; reflexivity. Qed.

Example travis_pull_request_number :
  CI.isPR (CI.performDetection
             (Examples.linuxHost
                {[ "TRAVIS" := "true"; "TRAVIS_PULL_REQUEST" := "123" ]} ∅))
  = Some true.
Proof. vm_compute; reflexivity. Qed.

Example travis_pull_request_false :
  CI.isPR (CI.performDetection
             (Examples.linuxHost
                {[ "TRAVIS" := "true"; "TRAVIS_PULL_REQUEST" := "false" ]} ∅))
  = Some false.
Proof. vm_compute; reflexivity. Qed.

Example codebuild_pull_request :
  CI.performDetection
    (Examples.linuxHost
       {[ "CODEBUILD_BUILD_ID" := "build:1";
          "CODEBUILD_WEBHOOK_HEAD_REF" := "refs/pull/7/head" ]} ∅)
  = {| CI.isCI := true;
       CI.name := Some "AWS CodeBuild";
       CI.isPR := Some true;
       CI.provider := Some CI.codebuild |}.
Proof. vm_compute; reflexivity. Qed.

Example docker_marker_file_only :
  Container.performDetection (Examples.linuxHost ∅ {[ "/.dockerenv" := "" ]})
  = Ok {| Container.isContainer := true;
          Container.isDocker := true;
          Container.isWSL := false;
          Container.isKubernetes := false;
          Container.containerType := Some Container.docker;
          Container.wslVersion := None;
          Container.wslDistro := None |}.
Proof. vm_compute; reflexivity. Qed.

Example wsl_distro_from_os_release :
  Container.performDetection
    (Examples.linuxHost ∅
       {[ "/proc/version" := "Linux version 5.10.16.3-microsoft-standard-WSL2";
          "/etc/os-release" :=
            "NAME=" +:+ String Container.dquote "Ubuntu 20.04.3 LTS"
            +:+ String Container.dquote (String (ascii_of_nat 10) "VERSION=20.04") ]})
  = Ok {| Container.isContainer := true;
          Container.isDocker := false;
          Container.isWSL := true;
          Container.isKubernetes := false;
          Container.containerType := Some Container.wsl;
          Container.wslVersion := Some 2%Z;
          Container.wslDistro := Some "Ubuntu 20.04.3 LTS" |}.
Proof. vm_compute; reflexivity. Qed.

Example kubernetes_hostname_needs_token :
  Container.k8sHostnamePattern "my-app-7d9f8b6c5-x2k4j" = true
  ∧ Container.k8sHostnamePattern "my-app" = false
  ∧ Container.k8sHostnamePattern "My-app-x2k4j" = false
  ∧ Container.k8sHostnamePattern "my--app-x2k4j" = false.
Proof. repeat split; vm_compute; reflexivity. Qed.

Example os_linux :
  OS.performDetection Examples.bareHost
  = {| OS.platform := "linux"; OS.type := OS.linux;
       OS.version := "#101-Ubuntu SMP"; OS.release := "5.15.0-91-generic";
       OS.arch := "x64";
       OS.isWindows := false; OS.isMacOS := false; OS.isLinux := true |}.
Proof. vm_compute; reflexivity. Qed.

Example cache_expires_after_timeout :
  let w : Cache.World string :=
    {| Cache.instance := Cache.fresh;
       Cache.clock := fun n => match n with 0 => 0%Z | _ => 1001%Z end;
       Cache.reads := 0 |} in
  fst (Cache.get "key" (Cache.set "key" "value" (Some 1000%Z) w)) = None.
Proof. vm_compute; reflexivity. Qed.

Example cache_live_before_timeout :
  let w : Cache.World string :=
    {| Cache.instance := Cache.fresh;
       Cache.clock := fun n => match n with 0 => 0%Z | _ => 999%Z end;
       Cache.reads := 0 |} in
  fst (Cache.get "key" (Cache.set "key" "value" (Some 1000%Z) w)) = Some "value".
Proof. vm_compute; reflexivity. Qed.

(** * Further properties of the engine *)

(** ** core/cache.ts: the calls and how they compose *)

(** [has] answers true exactly when [get] serves an entry, and the
    two calls leave the cache in the same state. *)
Lemma has_tracks_served_entry {V : Type} (key : string) (w : Cache.World V) :
  fst (Cache.has key w) = bool_decide (is_Some (fst (Cache.get key w)))
  ∧ snd (Cache.has key w) = snd (Cache.get key w).
Proof.
  unfold Cache.has, Cache.get.
  destruct (negb _); [done|].
  destruct (_ !! key) as [e|]; [|done].
  cbn. by destruct (_ >? _)%Z.
Qed.

(** X1. [has(key)] and [get(key)] leave the cache in the same state:
    both delete an expired entry.  Where [has(key)] answers false,
    [get(key)] returns [undefined]; where it answers true, [get(key)]
    returns the value stored under the key.  So the two agree on
    whether there is a value but for a stored [undefined], for which
    [has(key)] answers true and [get(key)] returns [undefined]. *)
Theorem has_agrees_with_get_but_for_undefined :
  ∀ (U : Type) (key : string) (w : Cache.World (option U)),
    snd (Cache.has key w) = snd (MaybeUndefined.get key w)
    ∧ (fst (Cache.has key w) = false → fst (MaybeUndefined.get key w) = None)
    ∧ (fst (Cache.has key w) = true →
       ∃ e, Cache.store (Cache.instance w) !! key = Some e
            ∧ fst (MaybeUndefined.get key w) = Cache.value e)
    ∧ (is_Some (fst (MaybeUndefined.get key w)) → fst (Cache.has key w) = true).
Proof.
  intros U key w. unfold Cache.has, MaybeUndefined.get.
  destruct (negb _); [repeat split; try done; by intros [? [=]]|].
  destruct (_ !! key) as [e|]; [|repeat split; try done; by intros [? [=]]].
  cbn. destruct (_ >? _)%Z; cbn;
    repeat split; try done; first [by intros [? [=]] | intros _; by exists e].
Qed.

(** X2. With the cache enabled, [set] on a key that holds no entry
    takes [size()] up by one, and [set] on a key that holds one, live
    or expired, replaces it: the size stays and the entry is the new
    value with a new timestamp. *)
Theorem set_inserts_or_replaces :
  ∀ (V : Type) (key : string) (v : V) (timeout : option Z) (w : Cache.World V),
    Cache.isEnabled w = true →
    Cache.size (Cache.set key v timeout w) =
      (if bool_decide (is_Some (Cache.store (Cache.instance w) !! key))
       then Cache.size w else S (Cache.size w))
    ∧ Cache.store (Cache.instance (Cache.set key v timeout w)) !! key =
        Some {| Cache.value := v;
                Cache.timestamp := Cache.clock w (Cache.reads w);
                Cache.timeout := default Constants.DEFAULT_CACHE_TIMEOUT timeout |}.
Proof.
  intros V key v timeout w He. split; [|by apply set_stores].
  unfold Cache.isEnabled in He. unfold Cache.size, Cache.set. rewrite He. cbn.
  rewrite map_size_insert. destruct (_ !! key); [|done].
  by rewrite bool_decide_eq_true_2.
Qed.

Lemma set_inserts_or_replaces_witness :
  let w : Cache.World string := Examples.worldAt 0 in
  let w1 := Cache.set "a" "1" None w in
  Cache.size w1 = 1 ∧ Cache.size (Cache.set "a" "2" (Some 5%Z) w1) = 1
  ∧ Cache.size (Cache.set "b" "2" (Some 5%Z) w1) = 2.
Proof.
  split; [|split].
  - apply (set_inserts_or_replaces string "a" "1" None (Examples.worldAt 0)). reflexivity.
  - apply (set_inserts_or_replaces string "a" "2" (Some 5%Z)
             (Cache.set "a" "1" None (Examples.worldAt 0))). reflexivity.
  - apply (set_inserts_or_replaces string "b" "2" (Some 5%Z)
             (Cache.set "a" "1" None (Examples.worldAt 0))). reflexivity.
Defined.

(** X3. A call on one key leaves what is stored under every other key
    and the switch as they were: [get], [has], [set] and [delete] never
    evict or refresh another entry, however stale it is. *)
Theorem calls_touch_their_key_only :
  ∀ (V : Type) (key other : string) (v : V) (timeout : option Z) (w : Cache.World V),
    key ≠ other →
    let unchanged (w' : Cache.World V) :=
      Cache.store (Cache.instance w') !! other = Cache.store (Cache.instance w) !! other
      ∧ Cache.isEnabled w' = Cache.isEnabled w in
    unchanged (snd (Cache.get key w))
    ∧ unchanged (snd (Cache.has key w))
    ∧ unchanged (Cache.set key v timeout w)
    ∧ unchanged (snd (Cache.delete key w)).
Proof.
  intros V key other v timeout w Hne unchanged. subst unchanged. cbn beta.
  rewrite (proj2 (has_tracks_served_entry key w)).
  assert (Hget : Cache.store (Cache.instance (snd (Cache.get key w))) !! other
                 = Cache.store (Cache.instance w) !! other
                 ∧ Cache.isEnabled (snd (Cache.get key w)) = Cache.isEnabled w).
  { unfold Cache.get, Cache.isEnabled. destruct (negb _); [done|].
    destruct (_ !! key) as [e|]; [|done]. cbn.
    destruct (_ >? _)%Z; cbn; [|done]. by rewrite lookup_delete_ne. }
  split; [exact Hget|]. split; [exact Hget|]. split.
  - unfold Cache.set, Cache.isEnabled. destruct (negb _); [done|]. cbn.
    by rewrite lookup_insert_ne.
  - unfold Cache.delete, Cache.isEnabled. cbn. by rewrite lookup_delete_ne.
Qed.

Lemma calls_touch_their_key_only_witness :
  let w : Cache.World string := Cache.set "b" "old" (Some 1%Z) (Examples.worldAt 0) in
  Cache.store (Cache.instance (Cache.set "a" "new" None w)) !! "b"
  = Cache.store (Cache.instance w) !! "b".
Proof.
  destruct (calls_touch_their_key_only string "a" "b" "new" None
              (Cache.set "b" "old" (Some 1%Z) (Examples.worldAt 0))) as (_ & _ & H & _).
  - discriminate.
  - exact (proj1 H).
Defined.

(** X4. [delete(key)] reports whether an entry was stored, not whether
    it was live, and works with the cache off: it returns true exactly
    when the store held the key, leaves the key absent and the size
    down by one in that case.  For an entry that has expired, [has]
    answers false where [delete] answers true. *)
Theorem delete_reports_presence :
  ∀ (V : Type) (key : string) (w : Cache.World V),
    fst (Cache.delete key w) = bool_decide (is_Some (Cache.store (Cache.instance w) !! key))
    ∧ Cache.store (Cache.instance (snd (Cache.delete key w))) !! key = None
    ∧ Cache.size (snd (Cache.delete key w)) =
        (if bool_decide (is_Some (Cache.store (Cache.instance w) !! key))
         then pred (Cache.size w) else Cache.size w)
    ∧ (∀ e, Cache.isEnabled w = true →
            Cache.store (Cache.instance w) !! key = Some e →
            (Cache.timeout e < Cache.clock w (Cache.reads w) - Cache.timestamp e)%Z →
            fst (Cache.has key w) = false ∧ fst (Cache.delete key w) = true).
Proof.
  intros V key w. unfold Cache.delete, Cache.size. cbn.
  rewrite lookup_delete_eq, map_size_delete.
  split; [done|]. split; [done|]. split.
  - destruct (_ !! key); [by rewrite bool_decide_eq_true_2|].
    rewrite bool_decide_eq_false_2; [done | by intros [? [=]]].
  - intros e He Hk Hlt. split.
    + by destruct (get_expired key w e He Hk Hlt) as (_ & _ & _ & Hh & _).
    + rewrite Hk. by apply bool_decide_eq_true_2.
Qed.

Lemma delete_reports_presence_witness :
  let w : Cache.World string :=
    Cache.set "k" "v" (Some 10%Z)
      {| Cache.instance := Cache.fresh;
         Cache.clock := fun n => match n with 0 => 0%Z | _ => 11%Z end;
         Cache.reads := 0 |} in
  fst (Cache.has "k" w) = false ∧ fst (Cache.delete "k" w) = true.
Proof.
  destruct (delete_reports_presence string "k"
              (Cache.set "k" "v" (Some 10%Z)
                 {| Cache.instance := Cache.fresh;
                    Cache.clock := fun n => match n with 0 => 0%Z | _ => 11%Z end;
                    Cache.reads := 0 |})) as (_ & _ & _ & H).
  apply (H {| Cache.value := "v"; Cache.timestamp := 0%Z; Cache.timeout := 10%Z |});
    [reflexivity | reflexivity | cbn; lia].
Defined.

Lemma off_or_empty_step {V} (c : CacheCall V) (w : Cache.World V) :
  Cache.isEnabled w = true ∨ Cache.store (Cache.instance w) = ∅ →
  Cache.isEnabled (afterCall c w) = true ∨ Cache.store (Cache.instance (afterCall c w)) = ∅.
Proof.
  unfold Cache.isEnabled. intros H.
  destruct (Cache.enabled (Cache.instance w)) eqn:He.
  - destruct c as [k|k v t|k|k| | |]; cbn.
    + unfold Cache.get. rewrite He. cbn.
      destruct (_ !! k); [|by left]. cbn. destruct (_ >? _)%Z; cbn; by left.
    + unfold Cache.set. rewrite He. cbn. by left.
    + unfold Cache.has. rewrite He. cbn.
      destruct (_ !! k); [|by left]. cbn. destruct (_ >? _)%Z; cbn; by left.
    + by left.
    + by right.
    + by left.
    + by right.
  - destruct H as [H|Hs]; [done|].
    destruct c as [k|k v t|k|k| | |]; cbn.
    + unfold Cache.get. rewrite He. cbn. by right.
    + unfold Cache.set. rewrite He. cbn. by right.
    + unfold Cache.has. rewrite He. cbn. by right.
    + right. rewrite Hs. apply delete_empty.
    + by right.
    + by left.
    + by right.
Qed.

(** X5. Whatever calls are made on the cache of a process, in whatever
    order, the cache is either on or empty: while it is off, [size()]
    is 0 and nothing is held. *)
Theorem cache_is_on_or_empty :
  ∀ (V : Type) (clock : nat → Z) (cs : list (CacheCall V)),
    let w := afterCalls cs (startingWorld clock) in
    Cache.isEnabled w = true ∨ (Cache.size w = 0 ∧ Cache.store (Cache.instance w) = ∅).
Proof.
  intros V clock cs.
  assert (H : ∀ w : Cache.World V,
             Cache.isEnabled w = true ∨ Cache.store (Cache.instance w) = ∅ →
             Cache.isEnabled (afterCalls cs w) = true
             ∨ Cache.store (Cache.instance (afterCalls cs w)) = ∅).
  { induction cs as [|c cs IH]; intros w Hw; [exact Hw|].
    cbn. apply IH. by apply off_or_empty_step. }
  cbn zeta. destruct (H (startingWorld clock)) as [He|Hs]; [by left | by left | right].
  split; [|exact Hs]. unfold Cache.size. rewrite Hs. apply map_size_empty.
Qed.

(** ** core/detector.ts: what caching does to detection *)

Section DetectorCaching.
Context {V : Type}.
Implicit Types (w : Cache.World V) (d : Detector.BaseDetector V).
Import Detector.

Lemma same_name_same_key d d2 : name d2 = name d → getCacheKey d2 = getCacheKey d.
Proof. unfold getCacheKey. by intros ->. Qed.

(** The world a read of an expired entry leaves. *)
Lemma get_expired_world key w e :
  Cache.isEnabled w = true →
  Cache.store (Cache.instance w) !! key = Some e →
  (Cache.timeout e < Cache.clock w (Cache.reads w) - Cache.timestamp e)%Z →
  Cache.isEnabled (snd (Cache.get key w)) = true
  ∧ Cache.clock (snd (Cache.get key w)) = Cache.clock w
  ∧ Cache.reads (snd (Cache.get key w)) = S (Cache.reads w).
Proof.
  unfold Cache.isEnabled, Cache.get. intros He Hk Hlt. rewrite He, Hk. cbn.
  destruct (Z.gtb_spec (Cache.clock w (Cache.reads w) - Cache.timestamp e) (Cache.timeout e));
    [done | lia].
Qed.

End DetectorCaching.

Section UndefinedResults.
Context {U : Type}.
Implicit Types (w : Cache.World (option U)) (d : Detector.BaseDetector (option U)).
Import Detector.

(** What [get] returns is the value of the entry it serves. *)
Lemma get_returns key w :
  MaybeUndefined.get key w = (mjoin (fst (Cache.get key w)), snd (Cache.get key w)).
Proof.
  unfold MaybeUndefined.get, Cache.get.
  destruct (negb _); [done|].
  destruct (_ !! key) as [e|]; [|done].
  cbn. by destruct (_ >? _)%Z.
Qed.

Lemma get_absent key w :
  Cache.store (Cache.instance w) !! key = None → Cache.get key w = (None, w).
Proof. unfold Cache.get. intros ->. by destruct (negb _). Qed.

(** A cached value that is not [undefined] is returned. *)
Lemma detectSync_serves d h w v :
  on (cache (options d)) = true →
  fst (Cache.get (getCacheKey d) w) = Some (Some v) →
  fst (MaybeUndefined.detectSync d h w) = Ok (Some v).
Proof.
  intros Hon Hg. unfold MaybeUndefined.detectSync. rewrite Hon, get_returns, Hg. reflexivity.
Qed.

(** With nothing cached, or [undefined], the routine runs and its
    result is stored. *)
Lemma detectSync_computes d h w :
  on (cache (options d)) = true →
  mjoin (fst (Cache.get (getCacheKey d) w)) = None →
  MaybeUndefined.detectSync d h w =
    match performDetection d h with
    | Ok r => (Ok r, Cache.set (getCacheKey d) r (cacheTimeout (options d))
                       (snd (Cache.get (getCacheKey d) w)))
    | Throw e => (Throw e, snd (Cache.get (getCacheKey d) w))
    end.
Proof.
  intros Hon Hg. unfold MaybeUndefined.detectSync. by rewrite Hon, get_returns, Hg.
Qed.

End UndefinedResults.

(** X6. Once a detector has computed and cached a result that is not
    [undefined], every detection under the same name with caching on is
    served that result while the elapsed time is at most the lifetime,
    whatever the host has become and whatever routine the detector
    has.  A result that is [undefined] is stored and never served: the
    next detection runs its routine.  Once the lifetime is exceeded the
    detection is recomputed and its result stored with the new reading
    of the clock. *)
Theorem live_defined_entry_is_served_whatever_the_host :
  ∀ (U : Type) (d d2 : Detector.BaseDetector (option U)) (h h2 : Host)
    (w : Cache.World (option U)) (r : option U),
    Cache.isEnabled w = true →
    Detector.on (Detector.cache (Detector.options d)) = true →
    Detector.on (Detector.cache (Detector.options d2)) = true →
    Detector.name d2 = Detector.name d →
    Cache.store (Cache.instance w) !! Detector.getCacheKey d = None →
    Detector.performDetection d h = Ok r →
    let w1 := snd (MaybeUndefined.detectSync d h w) in
    let elapsed := (Cache.clock w (S (Cache.reads w)) - Cache.clock w (Cache.reads w))%Z in
    let ttl := default Constants.DEFAULT_CACHE_TIMEOUT
                 (Detector.cacheTimeout (Detector.options d)) in
    fst (MaybeUndefined.detectSync d h w) = Ok r
    ∧ (is_Some r → (elapsed ≤ ttl)%Z → fst (MaybeUndefined.detectSync d2 h2 w1) = Ok r)
    ∧ (r = None → fst (MaybeUndefined.detectSync d2 h2 w1) = Detector.performDetection d2 h2)
    ∧ ((ttl < elapsed)%Z →
       fst (MaybeUndefined.detectSync d2 h2 w1) = Detector.performDetection d2 h2
       ∧ ∀ r2, Detector.performDetection d2 h2 = Ok r2 →
           Cache.store (Cache.instance (snd (MaybeUndefined.detectSync d2 h2 w1)))
             !! Detector.getCacheKey d =
           Some {| Cache.value := r2;
                   Cache.timestamp := Cache.clock w (S (S (Cache.reads w)));
                   Cache.timeout := default Constants.DEFAULT_CACHE_TIMEOUT
                                      (Detector.cacheTimeout (Detector.options d2)) |}).
Proof.
  intros U d d2 h h2 w r He Hon Hon2 Hname Hn Hr w1 elapsed ttl.
  pose proof (same_name_same_key d d2 Hname) as Hkey.
  assert (Hfirst : MaybeUndefined.detectSync d h w
                   = (Ok r, Cache.set (Detector.getCacheKey d) r
                              (Detector.cacheTimeout (Detector.options d)) w)).
  { rewrite (detectSync_computes d h w Hon) by (by rewrite (get_absent _ w Hn)).
    by rewrite Hr, (get_absent _ w Hn). }
  assert (Hw1 : w1 = Cache.set (Detector.getCacheKey d) r
                       (Detector.cacheTimeout (Detector.options d)) w).
  { unfold w1. by rewrite Hfirst. }
  pose proof (set_stores (Detector.getCacheKey d) r
                (Detector.cacheTimeout (Detector.options d)) w He) as Hs.
  destruct (set_clock (Detector.getCacheKey d) r
              (Detector.cacheTimeout (Detector.options d)) w He) as (He1 & Hc1 & Hr1).
  rewrite <- Hw1 in Hs, He1, Hc1, Hr1.
  split; [by rewrite Hfirst|].
  clearbody w1. rewrite <- Hkey in Hs.
  assert (Hlive : (elapsed ≤ ttl)%Z →
                  fst (Cache.get (Detector.getCacheKey d2) w1) = Some r).
  { intros Hle.
    destruct (get_live (Detector.getCacheKey d2) w1 _ He1 Hs) as (Hg & _); [|exact Hg].
    rewrite Hc1, Hr1. exact Hle. }
  assert (Hdead : (ttl < elapsed)%Z →
                  fst (Cache.get (Detector.getCacheKey d2) w1) = None
                  ∧ Cache.isEnabled (snd (Cache.get (Detector.getCacheKey d2) w1)) = true
                  ∧ Cache.clock (snd (Cache.get (Detector.getCacheKey d2) w1)) = Cache.clock w1
                  ∧ Cache.reads (snd (Cache.get (Detector.getCacheKey d2) w1))
                    = S (Cache.reads w1)).
  { intros Hlt.
    assert (Hexp : (Cache.timeout
                      {| Cache.value := r;
                         Cache.timestamp := Cache.clock w (Cache.reads w);
                         Cache.timeout := default Constants.DEFAULT_CACHE_TIMEOUT
                                            (Detector.cacheTimeout (Detector.options d)) |}
                    < Cache.clock w1 (Cache.reads w1) - Cache.clock w (Cache.reads w))%Z).
    { rewrite Hc1, Hr1. exact Hlt. }
    destruct (get_expired (Detector.getCacheKey d2) w1 _ He1 Hs Hexp) as (Hg & _).
    split; [exact Hg|].
    exact (get_expired_world (Detector.getCacheKey d2) w1 _ He1 Hs Hexp). }
  split; [|split].
  - intros [v ->] Hle. apply detectSync_serves; [exact Hon2 | by apply Hlive].
  - intros ->.
    rewrite (detectSync_computes d2 h2 w1 Hon2).
    + by destruct (Detector.performDetection d2 h2).
    + destruct (Z.le_gt_cases elapsed ttl) as [Hle|Hlt].
      * by rewrite (Hlive Hle).
      * by rewrite (proj1 (Hdead Hlt)).
  - intros Hlt. destruct (Hdead Hlt) as (Hg & He2 & Hc2 & Hr2).
    rewrite (detectSync_computes d2 h2 w1 Hon2) by (by rewrite Hg).
    split; [by destruct (Detector.performDetection d2 h2)|].
    intros r2 Hp2. rewrite Hp2. cbn. rewrite <- Hkey.
    rewrite (set_stores _ _ _ _ He2). by rewrite Hc2, Hr2, Hc1, Hr1.
Qed.

Lemma live_defined_entry_is_served_whatever_the_host_witness :
  let w : Cache.World (option string) := Examples.worldAt 0 in
  let w1 := snd (MaybeUndefined.detectSync MaybeUndefined.shellDetector
                   MaybeUndefined.shellHost w) in
  fst (MaybeUndefined.detectSync MaybeUndefined.shellDetector Examples.bareHost w1)
  = Ok (Some "/bin/zsh").
Proof.
  refine (proj1 (proj2 (live_defined_entry_is_served_whatever_the_host string
              MaybeUndefined.shellDetector MaybeUndefined.shellDetector
              MaybeUndefined.shellHost Examples.bareHost (Examples.worldAt 0)
              (Some "/bin/zsh") _ _ _ _ _ _)) _ _);
    [reflexivity | reflexivity | reflexivity | reflexivity | reflexivity | reflexivity | |].
  - by eexists.
  - cbn. lia.
Defined.

(** X7. [reset()] deletes the detector's entry and nothing else,
    whether the cache is on or off; the next detection is computed from
    the host as it then is. *)
Theorem reset_forces_recomputation :
  ∀ (V : Type) (d : Detector.BaseDetector V) (h : Host) (w : Cache.World V),
    let w' := Detector.reset d w in
    fst (Detector.detectSync d h w') = Detector.performDetection d h
    ∧ Cache.store (Cache.instance w') !! Detector.getCacheKey d = None
    ∧ Cache.isEnabled w' = Cache.isEnabled w
    ∧ ∀ k, k ≠ Detector.getCacheKey d →
           Cache.store (Cache.instance w') !! k = Cache.store (Cache.instance w) !! k.
Proof.
  intros V d h w w'.
  assert (Hn : Cache.store (Cache.instance w') !! Detector.getCacheKey d = None).
  { unfold w', Detector.reset, Cache.delete. cbn. apply lookup_delete_eq. }
  split; [by apply detectSync_uncached|]. split; [exact Hn|]. split; [done|].
  intros k Hk. unfold w', Detector.reset, Cache.delete. cbn. by rewrite lookup_delete_ne.
Qed.

(** X8. A detector whose [cache] option is off never reads and never
    writes the cache: on either path it computes, and leaves the world
    exactly as it was. *)
Theorem uncached_detector_leaves_the_cache_alone :
  ∀ (V : Type) (d : Detector.BaseDetector V) (h : Host) (w : Cache.World V),
    Detector.on (Detector.cache (Detector.options d)) = false →
    Detector.detectSync d h w = (Detector.performDetection d h, w)
    ∧ snd (Detector.detectAsync d h w) = w
    ∧ ∀ w', Detector.await (fst (Detector.detectAsync d h w)) w'
            = (Detector.performAsyncDetection d h, w').
Proof.
  intros V d h w Hoff.
  unfold Detector.detectSync, Detector.detectAsync, Detector.lookupCached,
    Detector.storeResult, Detector.await.
  rewrite Hoff. cbn. split; [by destruct (Detector.performDetection d h)|].
  split; [done|]. intros w'. by destruct (Detector.performAsyncDetection d h).
Qed.

Lemma uncached_detector_leaves_the_cache_alone_witness :
  let o := {| Detector.cache := Some false; Detector.cacheTimeout := None;
              Detector.async := None |} in
  let w : Cache.World CI.CIInfo := Examples.worldAt 0 in
  Detector.detectSync (Builtin.CIDetector o) Examples.travisHost w
  = (Ok (CI.performDetection Examples.travisHost), w).
Proof.
  apply (uncached_detector_leaves_the_cache_alone CI.CIInfo
           (Builtin.CIDetector
              {| Detector.cache := Some false; Detector.cacheTimeout := None;
                 Detector.async := None |})
           Examples.travisHost (Examples.worldAt 0)).
  reflexivity.
Defined.

(** X9. A detection that throws stores nothing: with no entry under
    its key before, the world is untouched, so the next call runs the
    routine again. *)
Theorem failed_detection_is_not_cached :
  ∀ (V : Type) (d : Detector.BaseDetector V) (h h2 : Host) (w : Cache.World V) (e : string),
    Cache.store (Cache.instance w) !! Detector.getCacheKey d = None →
    Detector.performDetection d h = Throw e →
    Detector.detectSync d h w = (Throw e, w)
    ∧ fst (Detector.detectSync d h2 (snd (Detector.detectSync d h w)))
      = Detector.performDetection d h2.
Proof.
  intros V d h h2 w e Hn Hr.
  assert (H1 : Detector.detectSync d h w = (Throw e, w)).
  { unfold Detector.detectSync, Detector.lookupCached, Cache.get.
    destruct (Detector.on _); [destruct (negb _); [|rewrite Hn]|]; by rewrite Hr. }
  split; [exact H1|]. rewrite H1. cbn. by apply detectSync_uncached.
Qed.

Lemma failed_detection_is_not_cached_witness :
  let d := Builtin.ContainerDetector Detector.noOptions in
  let w : Cache.World Container.ContainerInfo := Examples.worldAt 0 in
  Detector.detectSync d Examples.brokenHost w
  = (Throw "Error: Platform detection failed", w).
Proof.
  apply (failed_detection_is_not_cached Container.ContainerInfo
           (Builtin.ContainerDetector Detector.noOptions)
           Examples.brokenHost Examples.bareHost (Examples.worldAt 0)
           "Error: Platform detection failed"); reflexivity.
Defined.

(** ** index.ts: resetting the facade *)

(** X10. [reset()] of an [EnvironmentDetector] deletes the entries of
    its seven detectors and leaves every other entry of the shared
    cache, such as those of plugin detectors, and the switch as they
    were. *)
Theorem facade_reset_deletes_its_seven_entries :
  ∀ (V : Type) (self : Facade.EnvironmentDetector V) (w : Cache.World V) (k : string),
    let keys := [Detector.getCacheKey (Facade.osDetector self);
                 Detector.getCacheKey (Facade.containerDetector self);
                 Detector.getCacheKey (Facade.ciDetector self);
                 Detector.getCacheKey (Facade.cloudDetector self);
                 Detector.getCacheKey (Facade.nodeDetector self);
                 Detector.getCacheKey (Facade.modeDetector self);
                 Detector.getCacheKey (Facade.privilegeDetector self)] in
    Cache.store (Cache.instance (Facade.reset self w)) !! k =
      (if bool_decide (k ∈ keys) then None else Cache.store (Cache.instance w) !! k)
    ∧ Cache.isEnabled (Facade.reset self w) = Cache.isEnabled w.
Proof.
  intros V self w k keys. split; [|reflexivity].
  unfold Facade.reset, Detector.reset, Cache.delete. cbn.
  rewrite !lookup_delete. subst keys.
  repeat case_decide; case_bool_decide as Hin; try reflexivity;
    first [ exfalso; apply Hin; set_solver
          | exfalso; repeat (apply elem_of_cons in Hin as [Hin|Hin]; [congruence|]);
            by apply elem_of_nil in Hin ].
Qed.

(** ** plugins/manager.ts and plugins/base.ts: installing and removing *)

Section PluginLifecycle.
Context {D : Type} (detectorName : D → string).
Import Plugins.
Implicit Types (ctx : PluginContextImpl D) (self : PluginManagerImpl D)
  (plugin : Plugin D) (l : list D).

Lemma register_all_emitted l ctx :
  emitted (fold_left (fun c d => registerDetector detectorName d c) l ctx) = emitted ctx.
Proof. revert ctx. induction l as [|d l IH]; intros ctx; cbn; [done | by rewrite IH]. Qed.

Lemma register_all_other l ctx (n : string) :
  n ∉ map detectorName l →
  detectors (fold_left (fun c d => registerDetector detectorName d c) l ctx) !! n
  = detectors ctx !! n.
Proof.
  revert ctx. induction l as [|d l IH]; intros ctx Hn; cbn; [done|].
  cbn in Hn. apply not_elem_of_cons in Hn as [Hne Hn].
  rewrite IH by done. cbn. by rewrite lookup_insert_ne.
Qed.

Lemma register_all_registered l ctx (n : string) :
  n ∈ map detectorName l →
  is_Some (detectors (fold_left (fun c d => registerDetector detectorName d c) l ctx) !! n).
Proof.
  revert ctx. induction l as [|d l IH]; intros ctx Hn; cbn in *; [by apply elem_of_nil in Hn|].
  destruct (decide (n ∈ map detectorName l)) as [Hin|Hnin]; [by apply IH|].
  apply elem_of_cons in Hn as [->|Hn]; [|done].
  rewrite register_all_other by done. cbn. rewrite lookup_insert_eq. by eexists.
Qed.

Lemma elem_of_map_names l (d : D) : d ∈ l → detectorName d ∈ map detectorName l.
Proof.
  induction l as [|x l IH]; intros Hd; [by apply elem_of_nil in Hd|].
  cbn. apply elem_of_cons in Hd as [->|Hd]; [by left | right; by apply IH].
Qed.

Lemma unregister_all_emitted l ctx :
  emitted (fold_left (fun c d => unregisterDetector (detectorName d) c) l ctx) = emitted ctx.
Proof. revert ctx. induction l as [|d l IH]; intros ctx; cbn; [done | by rewrite IH]. Qed.

End PluginLifecycle.

(** X11. [use] of a plugin whose name is already installed throws
    "already installed" and changes nothing: the install hook is not
    run and no event is emitted.  In particular a plugin cannot be
    installed twice. *)
Theorem second_install_is_rejected :
  ∀ (D : Type) (plugin other : Plugins.Plugin D) (self : Plugins.PluginManagerImpl D),
    Plugins.name other = Plugins.name plugin →
    fst (Plugins.use plugin self) = Ok tt →
    Plugins.use other (snd (Plugins.use plugin self)) =
      (Throw (Plugins.Error ("Plugin '" +:+ Plugins.name other +:+ "' is already installed")),
       snd (Plugins.use plugin self)).
Proof.
  intros D plugin other self Hname Hok. revert Hok.
  unfold Plugins.use at 1 3 4.
  destruct (Plugins.plugins self !! Plugins.name plugin) eqn:Hp; [done|].
  destruct (Plugins.callOptional _ _) as [[[]|e] ctx1]; [|done].
  intros _. cbn. unfold Plugins.use. cbn. rewrite Hname, lookup_insert_eq. reflexivity.
Qed.

Lemma second_install_is_rejected_witness :
  fst (Plugins.use Examples.failingPlugin Examples.managerWithFailingPlugin)
  = Throw "Error: Plugin 'mock-plugin' is already installed".
Proof.
  pose proof (second_install_is_rejected string Examples.failingPlugin Examples.failingPlugin
                Plugins.emptyManager eq_refl eq_refl) as H.
  exact (f_equal fst H).
Defined.

(** X12. When the [onInstall] step of a [BasePlugin] throws without
    touching the context, [use] throws the wrapped error, emits the
    error event and does not install the plugin, but every detector of
    the plugin stays registered in the context: [BasePlugin.install]
    registers them before it runs [onInstall], and nothing unregisters
    them. *)
Theorem failed_install_leaves_detectors_registered :
  ∀ (D : Type) (detectorName : D → string) (name version : string)
    (detectors : list D) (onUninstall : option (Plugins.Hook D))
    (error : string) (self : Plugins.PluginManagerImpl D),
    Plugins.plugins self !! name = None →
    let plugin :=
      Plugins.BasePlugin detectorName name version detectors
        (Some (fun ctx => (Throw error, ctx))) onUninstall in
    let after := snd (Plugins.use plugin self) in
    fst (Plugins.use plugin self) =
      Throw (Plugins.Error ("Failed to install plugin '" +:+ name +:+ "': " +:+ error))
    ∧ Plugins.plugins after = Plugins.plugins self
    ∧ Plugins.emitted (Plugins.context after) =
        (Plugins.emitted (Plugins.context self) ++
         [{| Plugins.event := "plugin:error"; Plugins.pluginName := name;
             Plugins.error := Some error |}])%list
    ∧ ∀ d, d ∈ detectors →
           is_Some (Plugins.getDetector (detectorName d) (Plugins.context after)).
Proof.
  intros D detectorName name version detectors onUninstall error self Hn plugin after.
  unfold after, plugin, Plugins.use. cbn. rewrite Hn. cbn.
  split; [done|]. split; [done|]. split.
  - by rewrite register_all_emitted.
  - intros d Hd. unfold Plugins.getDetector. cbn.
    apply register_all_registered. by apply elem_of_map_names.
Qed.

Lemma failed_install_leaves_detectors_registered_witness :
  let after := snd (Plugins.use PluginExamples.failingInstall Plugins.emptyManager) in
  Plugins.get "broken" after = None
  ∧ is_Some (Plugins.getDetector "second" (Plugins.context after)).
Proof.
  split; [vm_compute; reflexivity|].
  destruct (failed_install_leaves_detectors_registered string (fun d => d)
              "broken" "1.0.0" ["first"; "second"] None "Error: Install failed"
              Plugins.emptyManager) as (_ & _ & _ & H).
  - reflexivity.
  - apply (H "second"). set_solver.
Defined.

(** X13. [remove] unregisters by name.  For a plugin whose uninstall
    hook leaves the registered detectors alone, after [remove], whether
    the hook returned or threw, no detector is registered under any
    name of the plugin's detector list, whoever registered it, and
    every other registration is as before. *)
Theorem remove_unregisters_by_name :
  ∀ (D : Type) (detectorName : D → string) (self : Plugins.PluginManagerImpl D)
    (pluginName : string) (plugin : Plugins.Plugin D) (n : string),
    Plugins.plugins self !! pluginName = Some plugin →
    (∀ ctx, Plugins.detectors (snd (Plugins.callOptional (Plugins.uninstall plugin) ctx))
            = Plugins.detectors ctx) →
    Plugins.getDetector n (Plugins.context (snd (Plugins.remove detectorName pluginName self)))
    = if bool_decide (n ∈ map detectorName (Plugins.plugin_detectors plugin))
      then None
      else Plugins.getDetector n (Plugins.context self).
Proof.
  intros D detectorName self pluginName plugin n Hp Hhook.
  unfold Plugins.remove, Plugins.getDetector. rewrite Hp.
  pose proof (Hhook (fold_left (fun c d => Plugins.unregisterDetector (detectorName d) c)
                       (Plugins.plugin_detectors plugin) (Plugins.context self))) as Hd.
  destruct (Plugins.callOptional _ _) as [[[]|e] ctx2]; cbn in *;
    rewrite Hd; apply unregister_all.
Qed.

Lemma remove_unregisters_by_name_witness :
  let m := PluginExamples.managerWithTwoSharing in
  let after := snd (Plugins.remove (fun d => d) "a" m) in
  Plugins.getDetector "shared" (Plugins.context m) = Some "shared"
  ∧ is_Some (Plugins.get "b" after)
  ∧ Plugins.getDetector "shared" (Plugins.context after) = None.
Proof.
  split; [vm_compute; reflexivity|]. split; [vm_compute; by eexists|].
  rewrite (remove_unregisters_by_name string (fun d => d)
             PluginExamples.managerWithTwoSharing "a" (PluginExamples.sharing "a") "shared").
  - reflexivity.
  - vm_compute; reflexivity.
  - intros ctx. reflexivity.
Defined.

(** X14. Installing and then removing a [BasePlugin] without custom
    hooks, whose name is not installed and whose detector names are not
    registered, succeeds twice and restores the plugin map and the
    detector registry; the two events are emitted in order; a second
    [remove] then throws "is not installed" and changes nothing. *)
Theorem install_then_remove_restores :
  ∀ (D : Type) (detectorName : D → string) (name version : string)
    (detectors : list D) (self : Plugins.PluginManagerImpl D),
    Plugins.plugins self !! name = None →
    (∀ d, d ∈ detectors →
          Plugins.getDetector (detectorName d) (Plugins.context self) = None) →
    let plugin := Plugins.BasePlugin detectorName name version detectors None None in
    let installed := Plugins.use plugin self in
    let removed := Plugins.remove detectorName name (snd installed) in
    fst installed = Ok tt
    ∧ Plugins.get name (snd installed) = Some plugin
    ∧ fst removed = Ok tt
    ∧ Plugins.plugins (snd removed) = Plugins.plugins self
    ∧ Plugins.detectors (Plugins.context (snd removed))
      = Plugins.detectors (Plugins.context self)
    ∧ Plugins.emitted (Plugins.context (snd removed)) =
        (Plugins.emitted (Plugins.context self) ++
         [{| Plugins.event := "plugin:installed"; Plugins.pluginName := name;
             Plugins.error := None |};
          {| Plugins.event := "plugin:removed"; Plugins.pluginName := name;
             Plugins.error := None |}])%list
    ∧ Plugins.remove detectorName name (snd removed) =
        (Throw (Plugins.Error ("Plugin '" +:+ name +:+ "' is not installed")), snd removed).
Proof.
  intros D detectorName name version detectors self Hn Hfresh plugin installed removed.
  unfold removed, installed, plugin, Plugins.use. cbn. rewrite Hn. cbn.
  unfold Plugins.remove, Plugins.get. cbn. rewrite !lookup_insert_eq. cbn.
  assert (Hplugins : base.delete name
                       (<[name := Plugins.BasePlugin detectorName name version detectors
                                    None None]> (Plugins.plugins self))
                     = Plugins.plugins self).
  { rewrite delete_insert_eq. by apply delete_id. }
  split; [done|]. split; [done|]. split; [done|]. split; [exact Hplugins|].
  split; [|split].
  - apply map_eq. intros n.
    rewrite (unregister_all detectorName detectors _ n). cbn.
    case_bool_decide as Hin.
    + symmetry. clear -Hin Hfresh. unfold Plugins.getDetector in Hfresh.
      induction detectors as [|d l IH]; [by apply elem_of_nil in Hin|].
      cbn in Hin. apply elem_of_cons in Hin as [->|Hin].
      * apply Hfresh. by left.
      * apply IH; [|done]. intros d' Hd'. apply Hfresh. by right.
    + by apply register_all_other.
  - rewrite unregister_all_emitted. cbn.
    rewrite register_all_emitted. by rewrite <- app_assoc.
  - rewrite Hplugins, Hn. reflexivity.
Qed.

Lemma install_then_remove_restores_witness :
  let removed := Plugins.remove (fun d => d) "plain"
                   (snd (Plugins.use PluginExamples.plainPlugin Plugins.emptyManager)) in
  Plugins.plugins (snd removed) = ∅
  ∧ Plugins.detectors (Plugins.context (snd removed)) = ∅.
Proof.
  destruct (install_then_remove_restores string (fun d => d) "plain" "1.0.0"
              ["first"; "second"] Plugins.emptyManager) as (_ & _ & _ & H1 & H2 & _).
  - reflexivity.
  - intros d Hd. reflexivity.
  - split; [exact H1 | exact H2].
Defined.

(** ** More on detectors/ci.ts and detectors/container.ts *)

Lemma getEnvBoolean_true_hasEnv h key : getEnvBoolean h key false = true → hasEnv h key = true.
Proof.
  intros Hb. destruct (hasEnv h key) eqn:He; [done|].
  by rewrite (hasEnv_false_getEnvBoolean h key He) in Hb.
Qed.

Lemma detectCI_of_named_provider h : CI.detectCIProvider h ≠ CI.unknown → CI.detectCI h = true.
Proof.
  unfold CI.detectCIProvider. intros Hp.
  repeat match type of Hp with
         | context [if ?b then _ else _] =>
             let Hb := fresh "Hb" in
             destruct b eqn:Hb;
             [ first [ apply getEnvBoolean_true_hasEnv in Hb | idtac ];
               eapply detectCI_of_provider_variable; [|exact Hb]; cbn; tauto
             | clear Hb ]
         end.
  done.
Qed.

(** X15. The provider scan never names a provider the CI scan misses:
    whenever [detectCIProvider] answers with a provider other than
    "unknown", the record is a CI record and names that provider. *)
Theorem named_provider_is_reported :
  ∀ h : Host,
    CI.detectCIProvider h ≠ CI.unknown →
    CI.isCI (CI.performDetection h) = true
    ∧ CI.provider (CI.performDetection h) = Some (CI.detectCIProvider h).
Proof.
  intros h Hp. unfold CI.performDetection.
  rewrite (detectCI_of_named_provider h Hp). cbn. done.
Qed.

Lemma named_provider_is_reported_witness :
  CI.isCI (CI.performDetection Examples.travisHost) = true
  ∧ CI.provider (CI.performDetection Examples.travisHost) = Some CI.travis_ci.
Proof.
  apply (named_provider_is_reported Examples.travisHost).
  vm_compute. discriminate.
Defined.

(** X16. A CI record is complete: when [isCI] is true the record has a
    provider, a pull-request flag and a name, and the name is never
    the empty string, also when CI_NAME is set to the empty string. *)
Theorem ci_record_is_complete :
  ∀ h : Host,
    CI.isCI (CI.performDetection h) = true →
    ∃ name isPR provider,
      CI.name (CI.performDetection h) = Some name
      ∧ name ≠ EmptyString
      ∧ CI.isPR (CI.performDetection h) = Some isPR
      ∧ CI.provider (CI.performDetection h) = Some provider.
Proof.
  intros h. unfold CI.performDetection.
  destruct (CI.detectCI h); cbn; [intros _ | discriminate].
  eexists _, _, _. split; [reflexivity|]. split; [|done].
  destruct (CI.detectCIProvider h); cbn; try discriminate.
  unfold Js.or_else.
  destruct (process_env h !! "CI_NAME") as [[|c s]|]; cbn; discriminate.
Qed.

Lemma ci_record_is_complete_witness :
  ∃ name isPR provider,
    CI.name (CI.performDetection Examples.jenkinsFalseHost) = Some name
    ∧ name ≠ EmptyString
    ∧ CI.isPR (CI.performDetection Examples.jenkinsFalseHost) = Some isPR
    ∧ CI.provider (CI.performDetection Examples.jenkinsFalseHost) = Some provider.
Proof.
  apply (ci_record_is_complete Examples.jenkinsFalseHost).
  vm_compute. reflexivity.
Defined.

Lemma container_throws_iff :
  ∀ h : Host,
    threw (Container.performDetection h)
    ↔ threw (os_platform (os h))
      ∨ (isDirectory h Constants.CONTAINER_FILES.KUBERNETES_SERVICE = false
         ∧ hasEnv h "KUBERNETES_SERVICE_HOST" = false
         ∧ hasEnv h "KUBERNETES_PORT" = false
         ∧ threw (os_hostname (os h))).
Proof.
  intros h. unfold Container.performDetection.
  destruct (os_platform (os h)) as [p|e] eqn:Hp.
  - destruct (detectWSL_returns h p Hp) as [info ->]. cbn.
    unfold Container.detectKubernetes.
    destruct (isDirectory h _); cbn; [intuition congruence|].
    destruct (hasEnv h "KUBERNETES_SERVICE_HOST"); cbn; [intuition congruence|].
    destruct (hasEnv h "KUBERNETES_PORT"); cbn; [intuition congruence|].
    destruct (os_hostname (os h)) as [n|e]; cbn.
    + destruct (_ && _); cbn; intuition congruence.
    + intuition congruence.
  - unfold Container.detectWSL. rewrite Hp. cbn. intuition congruence.
Qed.

(** X17. Container detection throws in two cases only: [os.platform()]
    throws, or [os.hostname()] throws and is consulted, which it is
    when neither the Kubernetes service directory nor one of the two
    Kubernetes variables is there.  A failing read of a file never
    makes it throw. *)
Theorem container_detection_fails_exactly_when :
  ∀ h : Host,
    threw (Container.performDetection h)
    ↔ threw (os_platform (os h))
      ∨ (isDirectory h Constants.CONTAINER_FILES.KUBERNETES_SERVICE = false
         ∧ hasEnv h "KUBERNETES_SERVICE_HOST" = false
         ∧ hasEnv h "KUBERNETES_PORT" = false
         ∧ threw (os_hostname (os h))).
Proof. exact container_throws_iff. Qed.

(** ** utils/process.ts: the version of the runtime *)

Section VersionFacts.

Lemma append_empty_r (s : string) : s +:+ EmptyString = s.
Proof. induction s as [|c s IH]; [done|]. rewrite append_cons. by f_equal. Qed.

Lemma isDigit_facts c :
  Js.isDigit c = true →
  Ascii.eqb c "." = false ∧ JsText.isWhiteSpace c = false
  ∧ Ascii.eqb c "-" = false ∧ Ascii.eqb c "+" = false.
Proof.
  destruct c as [[] [] [] [] [] [] [] []]; vm_compute; intros H;
    first [discriminate H | done].
Qed.

Lemma split_cons sep s : ∃ seg segs, JsText.split sep s = seg :: segs.
Proof.
  induction s as [|c s (seg & segs & IH)]; cbn; [by eexists _, _|].
  destruct (Ascii.eqb c sep); [by eexists _, _|]. rewrite IH. by eexists _, _.
Qed.

(** A run of digits stays in the first segment. *)
Lemma split_digits a s seg segs :
  allDigits a = true →
  JsText.split "." s = seg :: segs →
  JsText.split "." (a +:+ s) = (a +:+ seg) :: segs.
Proof.
  intros Ha Hs. induction a as [|c a IH]; [done|].
  cbn in Ha. apply andb_true_iff in Ha as [Hc Ha].
  rewrite append_cons. cbn. destruct (isDigit_facts c Hc) as (-> & _).
  by rewrite (IH Ha).
Qed.

Lemma split_digits_dot a s :
  allDigits a = true → JsText.split "." (a +:+ "." +:+ s) = a :: JsText.split "." s.
Proof.
  intros Ha. rewrite (split_digits a ("." +:+ s) EmptyString (JsText.split "." s) Ha).
  - by rewrite append_empty_r.
  - reflexivity.
Qed.

Lemma split_head_no_digit s seg segs :
  startsWithDigit s = false → JsText.split "." s = seg :: segs → startsWithDigit seg = false.
Proof.
  destruct s as [|c s]; cbn; [by intros _ [= <- _]|].
  intros Hc. destruct (Ascii.eqb c "."); [by intros [= <- _]|].
  destruct (split_cons "." s) as (seg' & segs' & ->). by intros [= <- _].
Qed.

Lemma decimal_app a seg acc :
  allDigits a = true → startsWithDigit seg = false →
  Container.decimal acc (a +:+ seg) = Container.decimal acc a.
Proof.
  intros Ha Hseg. revert acc. induction a as [|c a IH]; intros acc.
  - rewrite append_nil. destruct seg as [|c seg]; [done|]. cbn in *. by rewrite Hseg.
  - cbn in Ha. apply andb_true_iff in Ha as [Hc Ha].
    rewrite append_cons. cbn. rewrite Hc. by apply IH.
Qed.

(** [parseInt] reads a number up to the first character that is no
    digit. *)
Lemma parseInt_number a seg :
  number a → startsWithDigit seg = false →
  JsText.parseInt (a +:+ seg) = Some (Container.decimal 0 a).
Proof.
  intros [Hne Ha] Hseg. destruct a as [|c a]; [done|].
  assert (Hc : Js.isDigit c = true) by (cbn in Ha; by apply andb_true_iff in Ha as [? _]).
  destruct (isDigit_facts c Hc) as (_ & Hw & Hminus & Hplus).
  rewrite <- (decimal_app (String c a) seg 0%Z Ha Hseg).
  rewrite append_cons. unfold JsText.parseInt. cbn [JsText.trimStart]. rewrite Hw.
  assert (Hd : Container.parseDigits (String c (a +:+ seg))
               = Some (Container.decimal 0 (String c (a +:+ seg)))).
  { unfold Container.parseDigits. by rewrite Hc. }
  rewrite <- Hd. clear -Hminus Hplus.
  destruct c as [[] [] [] [] [] [] [] []]; first [discriminate Hminus | discriminate Hplus | reflexivity].
Qed.

Lemma parseInt_digits a : number a → JsText.parseInt a = Some (Container.decimal 0 a).
Proof.
  intros Ha. rewrite <- (append_empty_r a) at 1. by apply parseInt_number.
Qed.

End VersionFacts.

(** X18. A version string made of one leading character, three
    numbers separated by dots, and anything that does not go on with a
    digit (a pre-release tag, say) is parsed into these three numbers;
    the version string itself is passed through unchanged.  The
    numbers are below 2^53, where a JavaScript number is exact. *)
Theorem node_version_triad_is_parsed :
  ∀ (p : Process) (lead : ascii) (a b c rest : string),
    process_version p = String lead (a +:+ "." +:+ b +:+ "." +:+ c +:+ rest) →
    number a → number b → number c →
    startsWithDigit rest = false →
    (Container.decimal 0 a < 2 ^ 53)%Z →
    (Container.decimal 0 b < 2 ^ 53)%Z →
    (Container.decimal 0 c < 2 ^ 53)%Z →
    ProcessUtils.parseNodeVersion p =
      {| ProcessUtils.pv_version := process_version p;
         ProcessUtils.pv_major := Container.decimal 0 a;
         ProcessUtils.pv_minor := Container.decimal 0 b;
         ProcessUtils.pv_patch := Container.decimal 0 c |}.
Proof.
  intros p lead a b c rest Hv Ha Hb Hc Hrest _ _ _.
  unfold ProcessUtils.parseNodeVersion. rewrite Hv. cbn [JsText.slice1].
  rewrite (split_digits_dot a _ (proj2 Ha)), (split_digits_dot b _ (proj2 Hb)).
  destruct (split_cons "." rest) as (seg & segs & Hsplit).
  rewrite (split_digits c rest seg segs (proj2 Hc) Hsplit).
  cbn [map nth].
  rewrite (parseInt_digits a Ha), (parseInt_digits b Hb).
  rewrite (parseInt_number c seg Hc (split_head_no_digit rest seg segs Hrest Hsplit)).
  reflexivity.
Qed.

Lemma node_version_triad_is_parsed_witness :
  ProcessUtils.parseNodeVersion NodeExamples.preRelease =
    {| ProcessUtils.pv_version := "v18.0.0-pre";
       ProcessUtils.pv_major := 18;
       ProcessUtils.pv_minor := 0;
       ProcessUtils.pv_patch := 0 |}.
Proof.
  apply (node_version_triad_is_parsed NodeExamples.preRelease "v" "18" "0" "0" "-pre");
    first [ reflexivity | (split; [discriminate | reflexivity]) | (vm_compute; reflexivity) ].
Defined.

(** ** detectors/privileges.ts *)

(** X19. On Windows, with the [execSync] of utils/process.ts, which
    returns [null] where the command fails, the user is reported as
    administrator exactly when [net session] succeeds, whatever its
    output: the [whoami] and [dir] checks behind the [catch] are
    never consulted. *)
Theorem windows_admin_is_decided_by_net_session :
  ∀ (p : Process) (h : Host) (r : Privilege.PrivilegeInfo),
    os_platform (os h) = Ok "win32" →
    Privilege.performDetection p h = Ok r →
    Privilege.isAdmin r =
      match child_process_execSync p "net session 2>nul" with
      | Ok _ => true
      | Throw _ => false
      end.
Proof.
  intros p h r Hp. unfold Privilege.performDetection, Privilege.performDetectionWith.
  rewrite Hp. cbn. intros [= <-]. cbn.
  unfold Privilege.isWindowsAdmin, ProcessUtils.execSync.
  by destruct (child_process_execSync p "net session 2>nul").
Qed.

Lemma windows_admin_is_decided_by_net_session_witness :
  ∃ r, Privilege.performDetection NodeExamples.windowsAdministrator NodeExamples.windowsHost = Ok r
       ∧ Privilege.isAdmin r = true.
Proof.
  eexists. split; [vm_compute; reflexivity|].
  refine (windows_admin_is_decided_by_net_session NodeExamples.windowsAdministrator
            NodeExamples.windowsHost _ _ _); reflexivity.
Defined.

(** X20. On Linux and macOS, with the [execSync] of utils/process.ts,
    the user is reported as administrator exactly when the user is
    root or the output of [groups], in lower case, contains "admin",
    "sudo", "wheel" or "root"; a failing [groups] gives false, and the
    [sudo -n true] check behind the [catch] is never consulted. *)
Theorem unix_admin_is_root_or_group_member :
  ∀ (p : Process) (h : Host) (r : Privilege.PrivilegeInfo) (platform : string),
    os_platform (os h) = Ok platform →
    platform = "linux" ∨ platform = "darwin" →
    Privilege.performDetection p h = Ok r →
    Privilege.isAdmin r =
      ProcessUtils.isRoot p
      || match ProcessUtils.execSync p "groups" with
         | Some groups =>
             Js.includes (Js.toLowerCase groups) "admin"
             || Js.includes (Js.toLowerCase groups) "sudo"
             || Js.includes (Js.toLowerCase groups) "wheel"
             || Js.includes (Js.toLowerCase groups) "root"
         | None => false
         end.
Proof.
  intros p h r platform Hp Hplatform.
  unfold Privilege.performDetection, Privilege.performDetectionWith.
  rewrite Hp. cbn. intros [= <-]. cbn.
  assert (Privilege.isAdminOn (fun command => Ok (ProcessUtils.execSync p command)) p platform
          = Privilege.isUnixAdmin (fun command => Ok (ProcessUtils.execSync p command)) p) as ->.
  { by destruct Hplatform as [-> | ->]. }
  unfold Privilege.isUnixAdmin.
  destruct (ProcessUtils.isRoot p); [done|]. cbn.
  by destruct (ProcessUtils.execSync p "groups") as [[|c groups]|].
Qed.

Lemma unix_admin_is_root_or_group_member_witness :
  ∃ r, Privilege.performDetection NodeExamples.sudoer Examples.bareHost = Ok r
       ∧ Privilege.isRoot r = false
       ∧ Privilege.isAdmin r = true.
Proof.
  eexists. split; [vm_compute; reflexivity|]. split; [reflexivity|].
  refine (eq_trans
            (unix_admin_is_root_or_group_member NodeExamples.sudoer Examples.bareHost
               _ "linux" _ _ _) _);
    first [ reflexivity | (left; reflexivity) | (vm_compute; reflexivity) ].
Defined.

(** X21. Privilege detection throws only when [os.platform()] throws:
    a missing [process.getuid], a failing [os.userInfo()] and failing
    commands are absorbed.  In the record it returns, [isElevated] is
    [isRoot || isAdmin], [isRoot] is true exactly when the user id is
    0, the user name is missing exactly when [os.userInfo()] threw,
    and on a platform other than win32, darwin and linux [isAdmin] is
    false. *)
Theorem privilege_record_is_consistent :
  ∀ (p : Process) (h : Host),
    match Privilege.performDetection p h with
    | Throw _ => threw (os_platform (os h))
    | Ok r =>
        ∃ platform,
          os_platform (os h) = Ok platform
          ∧ Privilege.isElevated r = Privilege.isRoot r || Privilege.isAdmin r
          ∧ (Privilege.isRoot r = true ↔ Privilege.uid r = Some 0%Z)
          ∧ Privilege.uid r = process_getuid p
          ∧ Privilege.gid r = process_getgid p
          ∧ (Privilege.username r = None ↔ threw (os_userInfo_username p))
          ∧ (platform ≠ "win32" → platform ≠ "darwin" → platform ≠ "linux" →
             Privilege.isAdmin r = false)
    end.
Proof.
  intros p h. unfold Privilege.performDetection, Privilege.performDetectionWith.
  destruct (os_platform (os h)) as [platform|e]; cbn; [|done].
  exists platform. split; [done|]. split; [done|].
  split; [|split; [done|split; [done|split]]].
  - unfold ProcessUtils.isRoot, ProcessUtils.getUID.
    destruct (process_getuid p) as [uid|]; [|done].
    destruct (Z.eqb_spec uid 0) as [->|Hne]; [done|].
    split; [done | intros [= ->]; done].
  - unfold ProcessUtils.getUsername.
    destruct (os_userInfo_username p); cbn; [split; [discriminate | intros []] | done].
  - intros Hw Hd Hl. unfold Privilege.isAdminOn.
    destruct (String.eqb_spec platform "win32"); [done|].
    destruct (String.eqb_spec platform "darwin"); [done|].
    destruct (String.eqb_spec platform "linux"); [done|]. reflexivity.
Qed.

(** ** detectors/cloud.ts *)

Section CloudFacts.
Import Cloud.
Import MoreConstants.

Ltac cloud_names :=
  cbv [CLOUD_ENV_VARS.AWS_LAMBDA_FUNCTION_NAME CLOUD_ENV_VARS.AWS_EXECUTION_ENV
       CLOUD_ENV_VARS.AWS_REGION CLOUD_ENV_VARS.FUNCTION_NAME CLOUD_ENV_VARS.K_SERVICE
       CLOUD_ENV_VARS.WEBSITE_SITE_NAME CLOUD_ENV_VARS.VERCEL CLOUD_ENV_VARS.VERCEL_ENV
       CLOUD_ENV_VARS.NETLIFY CLOUD_ENV_VARS.CF_WORKER].

Lemma detectCloudflareWorkers_throws g :
  threw (detectCloudflareWorkers g)
  ↔ ∃ global, g = Some global ∧ global_caches global = Some CachesNotAnObject.
Proof.
  unfold detectCloudflareWorkers.
  destruct g as [global|]; cbn.
  - destruct (global_caches global) as [[[]|]|] eqn:Hc; cbn.
    + split; [intros [] | intros (x & [= <-] & Hx); congruence].
    + split; [intros [] | intros (x & [= <-] & Hx); congruence].
    + split; [intros _; by exists global | done].
    + split; [intros [] | intros (x & [= <-] & Hx); congruence].
  - split; [intros [] | by intros (x & Hx & _)].
Qed.

Lemma detectCloudProvider_named g h :
  namedByEnvironment h = true →
  ∃ provider, detectCloudProvider g h = Ok (Some provider) ∧ provider ≠ unknown
              ∧ provider ≠ cloudflare_workers.
Proof.
  unfold namedByEnvironment, detectCloudProvider. cloud_names.
  destruct (hasEnv h "AWS_LAMBDA_FUNCTION_NAME"), (hasEnv h "AWS_EXECUTION_ENV"); cbn;
    try (intros _; by eexists).
  destruct (hasEnv h "FUNCTION_NAME"), (hasEnv h "K_SERVICE"); cbn;
    try (intros _; by eexists).
  destruct (hasEnv h "WEBSITE_SITE_NAME" && hasEnv h "FUNCTIONS_EXTENSION_VERSION"); cbn;
    try (intros _; by eexists).
  destruct (hasEnv h "VERCEL"), (hasEnv h "VERCEL_ENV"); cbn;
    try (intros _; by eexists).
  destruct (hasEnv h "NETLIFY"), (hasEnv h "NETLIFY_BUILD_BASE"); cbn;
    try (intros _; by eexists).
  discriminate.
Qed.

Lemma detectCloudProvider_unnamed g h :
  namedByEnvironment h = false →
  detectCloudProvider g h =
    exc_bind (if hasEnv h "CF_WORKER" then Ok true else detectCloudflareWorkers g)
      (fun cloudflare =>
         if cloudflare : bool then Ok (Some cloudflare_workers)
         else if detectAWS h then Ok (Some aws_lambda)
         else Ok None).
Proof.
  unfold namedByEnvironment, detectCloudProvider. cloud_names.
  destruct (hasEnv h "AWS_LAMBDA_FUNCTION_NAME"), (hasEnv h "AWS_EXECUTION_ENV"); cbn;
    try discriminate.
  destruct (hasEnv h "FUNCTION_NAME"), (hasEnv h "K_SERVICE"); cbn; try discriminate.
  destruct (hasEnv h "WEBSITE_SITE_NAME" && hasEnv h "FUNCTIONS_EXTENSION_VERSION"); cbn;
    try discriminate.
  destruct (hasEnv h "VERCEL"), (hasEnv h "VERCEL_ENV"); cbn; try discriminate.
  destruct (hasEnv h "NETLIFY"), (hasEnv h "NETLIFY_BUILD_BASE"); cbn; try discriminate.
  reflexivity.
Qed.

Lemma detectCloudProvider_never_unknown g h provider :
  detectCloudProvider g h = Ok (Some provider) → provider ≠ unknown.
Proof.
  destruct (namedByEnvironment h) eqn:Hn.
  - destruct (detectCloudProvider_named g h Hn) as (pr & -> & Hpr & _). by intros [= <-].
  - rewrite (detectCloudProvider_unnamed g h Hn).
    destruct (if hasEnv h "CF_WORKER" then _ else _) as [[]|]; cbn; [by intros [= <-]| |done].
    destruct (detectAWS h); [by intros [= <-] | done].
Qed.

End CloudFacts.

(** X22. In every record cloud detection returns: [isCloud] is true
    exactly when a provider is given, and the provider is never
    "unknown"; without a provider the record is not serverless and has
    no function name and no region; AWS Lambda, Google Cloud
    Functions, Azure Functions and Cloudflare Workers are always
    serverless, while Vercel and Netlify are only with one of
    VERCEL_FUNCTION, NETLIFY_FUNCTION_NAME and NETLIFY_DEV; Netlify
    never has a region. *)
Theorem cloud_record_is_consistent :
  ∀ (g : option GlobalObject) (h : Host) (r : Cloud.CloudInfo),
    Cloud.performDetection g h = Ok r →
    Cloud.isCloud r = bool_decide (is_Some (Cloud.provider r))
    ∧ Cloud.provider r ≠ Some Cloud.unknown
    ∧ (Cloud.isCloud r = false →
       Cloud.isServerless r = false ∧ Cloud.functionName r = None ∧ Cloud.region r = None)
    ∧ (Cloud.provider r = Some Cloud.aws_lambda
       ∨ Cloud.provider r = Some Cloud.google_cloud_functions
       ∨ Cloud.provider r = Some Cloud.azure_functions
       ∨ Cloud.provider r = Some Cloud.cloudflare_workers →
       Cloud.isServerless r = true)
    ∧ (Cloud.provider r = Some Cloud.vercel ∨ Cloud.provider r = Some Cloud.netlify →
       Cloud.isServerless r =
         hasEnv h "VERCEL_FUNCTION" || hasEnv h "NETLIFY_FUNCTION_NAME" || hasEnv h "NETLIFY_DEV")
    ∧ (Cloud.provider r = Some Cloud.netlify → Cloud.region r = None).
Proof.
  intros g h r. unfold Cloud.performDetection.
  destruct (Cloud.detectCloudProvider g h) as [provider|e] eqn:Hp; cbn; [|done].
  intros [= <-]. cbn.
  assert (Hu : provider ≠ Some Cloud.unknown).
  { intros ->. by apply (detectCloudProvider_never_unknown g h _ Hp). }
  destruct provider as [[]|]; cbn; repeat split; try done;
    try (intros [H|[H|[H|H]]]; done); try (intros [H|H]; done).
Qed.

Lemma cloud_record_is_consistent_witness :
  ∃ r, Cloud.performDetection (Some CloudExamples.plainGlobal) CloudExamples.gcfHost = Ok r
       ∧ Cloud.provider r = Some Cloud.google_cloud_functions
       ∧ Cloud.isCloud r = true.
Proof.
  eexists. split; [vm_compute; reflexivity|]. split; [reflexivity|].
  refine (eq_trans
            (proj1 (cloud_record_is_consistent (Some CloudExamples.plainGlobal)
                      CloudExamples.gcfHost _ _)) _);
    vm_compute; reflexivity.
Defined.

Lemma cloud_throws_iff :
  ∀ (g : option GlobalObject) (h : Host),
    threw (Cloud.performDetection g h)
    ↔ namedByEnvironment h = false
      ∧ hasEnv h "CF_WORKER" = false
      ∧ ∃ global, g = Some global ∧ global_caches global = Some CachesNotAnObject.
Proof.
  intros g h. unfold Cloud.performDetection.
  destruct (namedByEnvironment h) eqn:Hn.
  - destruct (detectCloudProvider_named g h Hn) as (pr & -> & _). cbn.
    split; [intros [] | by intros [? _]].
  - rewrite (detectCloudProvider_unnamed g h Hn).
    destruct (hasEnv h "CF_WORKER"); cbn.
    + split; [intros [] | by intros (_ & ? & _)].
    + rewrite <- detectCloudflareWorkers_throws.
      destruct (Cloud.detectCloudflareWorkers g) as [[]|e]; cbn.
      * split; [intros [] | by intros (_ & _ & [])].
      * destruct (Cloud.detectAWS h); cbn; (split; [intros [] | by intros (_ & _ & [])]).
      * done.
Qed.

(** X23. Cloud detection throws in one case only: no variable names a
    provider, CF_WORKER is not set, and the global object has a
    [caches] property whose value is no object, on which the [in]
    operator of the first Cloudflare probe throws outside the [try]
    block.  An undefined [global] does not make it throw. *)
Theorem cloud_detection_fails_exactly_when :
  ∀ (g : option GlobalObject) (h : Host),
    threw (Cloud.performDetection g h)
    ↔ namedByEnvironment h = false
      ∧ hasEnv h "CF_WORKER" = false
      ∧ ∃ global, g = Some global ∧ global_caches global = Some CachesNotAnObject.
Proof. exact cloud_throws_iff. Qed.

(** X24. The last test of the provider scan reports as AWS Lambda, and
    therefore as serverless, any host on which [detectAWS] succeeds
    when nothing names a provider: an ECS task, or a virtual machine
    that exposes [/sys/hypervisor/uuid].  The record then has no
    function name. *)
Theorem aws_heuristic_reports_lambda :
  ∀ (g : option GlobalObject) (h : Host),
    namedByEnvironment h = false →
    hasEnv h "CF_WORKER" = false →
    Cloud.detectCloudflareWorkers g = Ok false →
    hasEnv h "ECS_CONTAINER_METADATA_URI" = true
    ∨ hasEnv h "ECS_CONTAINER_METADATA_URI_V4" = true
    ∨ fileExists h "/sys/hypervisor/uuid" = true →
    Cloud.performDetection g h =
      Ok {| Cloud.isCloud := true;
            Cloud.provider := Some Cloud.aws_lambda;
            Cloud.isServerless := true;
            Cloud.functionName := None;
            Cloud.region := Js.or_opt (getEnv h "AWS_REGION") (getEnv h "AWS_DEFAULT_REGION") |}.
Proof.
  intros g h Hn Hcf Hprobe Haws. unfold Cloud.performDetection.
  rewrite (detectCloudProvider_unnamed g h Hn), Hcf, Hprobe. cbn.
  assert (Cloud.detectAWS h = true) as ->.
  { unfold Cloud.detectAWS.
    destruct (_ || _) ; [done|].
    destruct (hasEnv h "ECS_CONTAINER_METADATA_URI"); [done|].
    destruct (hasEnv h "ECS_CONTAINER_METADATA_URI_V4"); [done|]. cbn.
    destruct Haws as [H | [H | H]]; first [discriminate H | by rewrite H]. }
  cbn. do 2 f_equal.
  unfold namedByEnvironment in Hn.
  unfold getEnv. unfold hasEnv in Hn.
  by destruct (process_env h !! "AWS_LAMBDA_FUNCTION_NAME").
Qed.

Lemma aws_heuristic_reports_lambda_witness :
  Cloud.performDetection (Some CloudExamples.plainGlobal) CloudExamples.ec2Host =
    Ok {| Cloud.isCloud := true;
          Cloud.provider := Some Cloud.aws_lambda;
          Cloud.isServerless := true;
          Cloud.functionName := None;
          Cloud.region := None |}.
Proof.
  refine (eq_trans
            (aws_heuristic_reports_lambda (Some CloudExamples.plainGlobal)
               CloudExamples.ec2Host _ _ _ _) _);
    first [ reflexivity | (right; right; vm_compute; reflexivity) | (vm_compute; reflexivity) ].
Defined.

(** ** core/detector.ts: the registry *)

Section RegistryFacts.
Context {D : Type} (name : D → string).
Implicit Types (m : JsMap.t D) (k n : string) (v d : D).

Lemma elem_keys k v m : (k, v) ∈ m → k ∈ JsMap.keys m.
Proof.
  induction m as [|[k' v'] m IH]; cbn; [by intros ?%elem_of_nil|].
  intros [[= -> ->]|H]%elem_of_cons; [left | right; by apply IH].
Qed.

Lemma get_Some_elem k v m : JsMap.get k m = Some v → (k, v) ∈ m.
Proof.
  induction m as [|[k' v'] m IH]; cbn; [done|].
  destruct (String.eqb_spec k' k) as [->|Hne].
  - intros [= ->]. left.
  - intros H. right. by apply IH.
Qed.

Lemma elem_get k v m : NoDup (JsMap.keys m) → (k, v) ∈ m → JsMap.get k m = Some v.
Proof.
  induction m as [|[k' v'] m IH]; cbn; [by intros _ ?%elem_of_nil|].
  intros [Hk Hm]%NoDup_cons [[= -> ->]|H]%elem_of_cons.
  - by rewrite String.eqb_refl.
  - destruct (String.eqb_spec k' k) as [->|Hne]; [|by apply IH].
    destruct Hk. by apply (elem_keys k v).
Qed.

Lemma get_None_keys k m : JsMap.get k m = None ↔ k ∉ JsMap.keys m.
Proof.
  induction m as [|[k' v'] m IH]; cbn; [split; [intros _ ?%elem_of_nil; done | done]|].
  destruct (String.eqb_spec k' k) as [->|Hne].
  - split; [done | intros H; destruct H; left].
  - rewrite IH, not_elem_of_cons. split; [by intros ? | by intros [_ ?]].
Qed.

Lemma get_set_same k v m : JsMap.get k (JsMap.set k v m) = Some v.
Proof.
  induction m as [|[k' v'] m IH]; cbn; [by rewrite String.eqb_refl|].
  destruct (String.eqb_spec k' k) as [->|Hne]; cbn.
  - by rewrite String.eqb_refl.
  - by destruct (String.eqb_spec k' k).
Qed.

Lemma get_set_other k n v m : n ≠ k → JsMap.get n (JsMap.set k v m) = JsMap.get n m.
Proof.
  intros Hn. induction m as [|[k' v'] m IH]; cbn.
  - by destruct (String.eqb_spec k n) as [->|].
  - destruct (String.eqb_spec k' k) as [->|Hne]; cbn.
    + by destruct (String.eqb_spec k n) as [->|].
    + by rewrite IH.
Qed.

Lemma keys_set_present k v m : JsMap.has k m = true → JsMap.keys (JsMap.set k v m) = JsMap.keys m.
Proof.
  unfold JsMap.has. induction m as [|[k' v'] m IH]; cbn; [done|].
  destruct (String.eqb_spec k' k) as [->|Hne]; cbn; [done|].
  intros H. f_equal. by apply IH.
Qed.

Lemma set_absent k v m : JsMap.has k m = false → JsMap.set k v m = (m ++ [(k, v)])%list.
Proof.
  unfold JsMap.has. induction m as [|[k' v'] m IH]; cbn; [done|].
  destruct (String.eqb_spec k' k) as [->|Hne]; cbn; [done|].
  intros H. f_equal. by apply IH.
Qed.

Lemma delete_set_absent k v m : JsMap.has k m = false → JsMap.delete k (JsMap.set k v m) = m.
Proof.
  unfold JsMap.has. induction m as [|[k' v'] m IH]; cbn; [by rewrite String.eqb_refl|].
  destruct (String.eqb_spec k' k) as [->|Hne]; cbn; [done|].
  destruct (String.eqb_spec k' k); [done|].
  intros H. f_equal. by apply IH.
Qed.

Lemma elem_set k v m x : x ∈ JsMap.set k v m → x = (k, v) ∨ x ∈ m.
Proof.
  induction m as [|[k' v'] m IH]; cbn.
  - intros [->|H]%elem_of_cons; [by left | by right].
  - destruct (String.eqb_spec k' k) as [->|Hne].
    + intros [->|H]%elem_of_cons; [by left | right; by right].
    + intros [->|H]%elem_of_cons; [right; left|].
      destruct (IH H) as [->|H']; [by left | right; by right].
Qed.

Lemma keys_set_elem k v m n : n ∈ JsMap.keys (JsMap.set k v m) → n = k ∨ n ∈ JsMap.keys m.
Proof.
  induction m as [|[k' v'] m IH]; cbn.
  - intros [->|H]%elem_of_cons; [by left | by right].
  - destruct (String.eqb_spec k' k) as [->|Hne]; cbn.
    + intros [->|H]%elem_of_cons; [by left | right; by right].
    + intros [->|H]%elem_of_cons; [right; left|].
      destruct (IH H) as [->|H']; [by left | right; by right].
Qed.

Lemma elem_delete k m x : x ∈ JsMap.delete k m → x ∈ m.
Proof.
  induction m as [|[k' v'] m IH]; cbn; [done|].
  destruct (String.eqb_spec k' k) as [->|Hne].
  - intros H. by right.
  - intros [->|H]%elem_of_cons; [left | right; by apply IH].
Qed.

Lemma keys_delete_elem k m n : n ∈ JsMap.keys (JsMap.delete k m) → n ∈ JsMap.keys m.
Proof.
  induction m as [|[k' v'] m IH]; cbn; [done|].
  destruct (String.eqb_spec k' k) as [->|Hne]; cbn.
  - intros H. by right.
  - intros [->|H]%elem_of_cons; [left | right; by apply IH].
Qed.

Lemma keyed_set v m : keyed name m → keyed name (JsMap.set (name v) v m).
Proof.
  intros [Hnd Hk]. split.
  - clear Hk. induction m as [|[k' v'] m IH]; cbn.
    + apply NoDup_cons. split; [by intros ?%elem_of_nil | apply NoDup_nil_2].
    + cbn in Hnd. apply NoDup_cons in Hnd as [Hk' Hm].
      destruct (String.eqb_spec k' (name v)) as [<-|Hne]; cbn.
      * by apply NoDup_cons.
      * apply NoDup_cons. split; [|by apply IH].
        intros [->|H]%keys_set_elem; done.
  - intros k x [[= -> ->]|H]%elem_set; [done | by apply Hk].
Qed.

Lemma keyed_delete k m : keyed name m → keyed name (JsMap.delete k m).
Proof.
  intros [Hnd Hk]. split.
  - clear Hk. induction m as [|[k' v'] m IH]; cbn; [done|].
    cbn in Hnd. apply NoDup_cons in Hnd as [Hk' Hm].
    destruct (String.eqb_spec k' k) as [->|Hne]; cbn; [done|].
    apply NoDup_cons. split; [|by apply IH].
    intros H%keys_delete_elem. done.
  - intros k' x H%elem_delete. by apply Hk.
Qed.

Lemma keyed_afterCalls cs r :
  keyed name (Registry.detectors r) →
  keyed name (Registry.detectors (fold_left (Registry.afterCall name) cs r)).
Proof.
  revert r. induction cs as [|c cs IH]; intros r Hr; [done|].
  cbn. apply IH. destruct c as [d|n|]; cbn.
  - by apply keyed_set.
  - by apply keyed_delete.
  - split; [apply NoDup_nil_2 | by intros k v ?%elem_of_nil].
Qed.

Lemma keyed_reachable cs : keyed name (Registry.detectors (Registry.afterCalls name cs)).
Proof.
  apply keyed_afterCalls. split; [apply NoDup_nil_2 | by intros k v ?%elem_of_nil].
Qed.

Lemma names_are_keys m :
  (∀ k v, (k, v) ∈ m → name v = k) → map name (JsMap.values m) = JsMap.keys m.
Proof.
  induction m as [|[k v] m IH]; cbn; [done|].
  intros Hk. rewrite (Hk k v) by left. f_equal. apply IH.
  intros k' v' H. apply Hk. by right.
Qed.

Lemma elem_values d m : d ∈ JsMap.values m → ∃ k, (k, d) ∈ m.
Proof.
  induction m as [|[k v] m IH]; cbn; [by intros ?%elem_of_nil|].
  intros [->|H]%elem_of_cons; [exists k; left|].
  destruct (IH H) as [k' Hk']. exists k'. by right.
Qed.

Lemma values_elem k d m : (k, d) ∈ m → d ∈ JsMap.values m.
Proof.
  induction m as [|[k' v'] m IH]; cbn; [by intros ?%elem_of_nil|].
  intros [[= -> ->]|H]%elem_of_cons; [left | right; by apply IH].
Qed.

End RegistryFacts.

(** X25. Whatever calls of [register], [unregister] and [clear] are
    made on the registry: [getAll] lists no two detectors of the same
    name; every listed detector is what [get] returns for its name;
    and what [get] returns for a name is a listed detector of that
    name. *)
Theorem registry_lists_each_name_once :
  ∀ (D : Type) (name : D → string) (cs : list (Registry.Call D)),
    let r := Registry.afterCalls name cs in
    NoDup (map name (Registry.getAll r))
    ∧ (∀ d, d ∈ Registry.getAll r → Registry.get (name d) r = Some d)
    ∧ (∀ n d, Registry.get n r = Some d → name d = n ∧ d ∈ Registry.getAll r).
Proof.
  intros D name cs r.
  destruct (keyed_reachable name cs) as [Hnd Hk]. fold r in Hnd, Hk.
  unfold Registry.getAll, Registry.get. split; [|split].
  - by rewrite (names_are_keys name _ Hk).
  - intros d [k Hd]%elem_values. rewrite (Hk k d Hd). by apply elem_get.
  - intros n d Hd%get_Some_elem. split; [by apply Hk | by apply (values_elem n)].
Qed.

(** X26. [register] on a registry reached by any calls: the detector
    is then what [get] returns for its name, and no other name is
    affected; when the name was registered already, the detector takes
    the place of the old one in the listing; when it was not, the
    detector is listed last, and unregistering it gives the registry
    back. *)
Theorem register_keeps_insertion_order :
  ∀ (D : Type) (name : D → string) (cs : list (Registry.Call D)) (d : D),
    let r := Registry.afterCalls name cs in
    Registry.get (name d) (Registry.register name d r) = Some d
    ∧ (∀ n, n ≠ name d → Registry.get n (Registry.register name d r) = Registry.get n r)
    ∧ (Registry.has (name d) r = true →
       map name (Registry.getAll (Registry.register name d r))
       = map name (Registry.getAll r))
    ∧ (Registry.has (name d) r = false →
       Registry.getAll (Registry.register name d r) = (Registry.getAll r ++ [d])%list
       ∧ Registry.unregister (name d) (Registry.register name d r) = r).
Proof.
  intros D name cs d r.
  pose proof (keyed_reachable name cs) as Hr. fold r in Hr.
  unfold Registry.get, Registry.getAll, Registry.has, Registry.register, Registry.unregister.
  cbn. split; [apply get_set_same|]. split; [intros n Hn; by apply get_set_other|]. split.
  - intros Hhas.
    change (map name (JsMap.values (JsMap.set (name d) d (Registry.detectors r)))
            = map name (JsMap.values (Registry.detectors r))).
    rewrite (names_are_keys name _ (proj2 (keyed_set name d _ Hr))).
    rewrite (names_are_keys name _ (proj2 Hr)).
    by apply keys_set_present.
  - intros Hhas. split.
    + rewrite (set_absent _ _ _ Hhas). unfold JsMap.values. by rewrite map_app.
    + rewrite (delete_set_absent _ _ _ Hhas). by destruct r.
Qed.

(** ** index.ts with the seven detectors of the library *)

Section EnvFacts.
Import Detector.

Lemma node_throws_iff p h :
  threw (Node.performDetection p h) ↔ threw (os_arch (os h)) ∨ threw (os_platform (os h)).
Proof.
  unfold Node.performDetection.
  destruct (os_arch (os h)); cbn; [|intuition].
  destruct (os_platform (os h)); cbn; intuition.
Qed.

Lemma privilege_throws_iff p h :
  threw (Privilege.performDetection p h) ↔ threw (os_platform (os h)).
Proof.
  unfold Privilege.performDetection, Privilege.performDetectionWith.
  by destruct (os_platform (os h)).
Qed.

Lemma threw_exc_map {A B} (f : A → B) (x : Exc A) : threw (exc_map f x) ↔ threw x.
Proof. by destruct x. Qed.

Lemma threw_all {V} (o1 o2 o3 o4 o5 o6 o7 : Exc V) :
  threw (Facade.all o1 o2 o3 o4 o5 o6 o7)
  ↔ threw o1 ∨ threw o2 ∨ threw o3 ∨ threw o4 ∨ threw o5 ∨ threw o6 ∨ threw o7.
Proof.
  destruct o1, o2, o3, o4, o5, o6, o7; cbn; intuition.
Qed.

Lemma new_with_options g p o w :
  Env.new g p (Some o) w =
    (fst (Env.new g p (Some o) w),
     match cache o with Some false => Cache.disable w | _ => w end).
Proof. reflexivity. Qed.

Lemma new_in_mode g p o w :
  all_in_mode (on (async o)) (fst (Env.new g p (Some o) w)).
Proof.
  unfold all_in_mode, on. cbn. destruct (async o) as [[]|]; cbn; by repeat split.
Qed.

End EnvFacts.

(** X27. An [EnvironmentDetector] made with [async: true] answers
    [undefined] from each of its thirteen boolean getters, and its
    summary is the empty string: [detect()] then returns a promise,
    which has none of the properties read.  None of these calls
    throws, whatever the host: a detection that fails rejects its
    promise. *)
Theorem async_mode_getters_are_undefined :
  ∀ (g : option GlobalObject) (p : Process) (o : Detector.DetectorOptions)
    (h : Host) (w0 w : Cache.World Env.Info),
    Detector.async o = Some true →
    let self := fst (Env.new g p (Some o) w0) in
    (∀ getter, getter ∈ booleanGetters → fst (getter self h w) = Ok None)
    ∧ fst (Env.getEnvironmentSummary self h w) = Ok EmptyString.
Proof.
  intros g p o h w0 w Ha self.
  pose proof (new_in_mode g p o w0) as Hm. fold self in Hm.
  unfold Detector.on in Hm. rewrite Ha in Hm. cbn in Hm.
  destruct Hm as (H1 & H2 & H3 & H4 & H5 & H6 & H7).
  split.
  - intros getter Hin. unfold booleanGetters in Hin.
    repeat (apply elem_of_cons in Hin as [-> | Hin];
            [ match goal with
              | |- fst (?f self h w) = _ => unfold f
              end;
              unfold Detector.bind;
              match goal with
              | |- context [Detector.detect ?d h w] =>
                  rewrite (detect_async_mode d h w) by assumption
              end; reflexivity
            | ]).
    by apply elem_of_nil in Hin.
  - unfold Env.getEnvironmentSummary, Facade.getEnvironmentInfo, Detector.bind, Detector.ret.
    repeat match goal with
           | |- context [Detector.detect ?d ?h' ?w'] =>
               rewrite (detect_async_mode d h' w') by assumption; cbn [fst snd]
           end.
    reflexivity.
Qed.

Lemma async_mode_getters_are_undefined_witness :
  let self := fst (Env.new (Some CloudExamples.plainGlobal) NodeExamples.sudoer
                     (Some asyncOptions) (Examples.worldAt 0)) in
  fst (Env.isLinux self Examples.bareHost (Examples.worldAt 0)) = Ok None
  ∧ fst (Env.getEnvironmentSummary self Examples.bareHost (Examples.worldAt 0)) = Ok EmptyString.
Proof.
  destruct (async_mode_getters_are_undefined (Some CloudExamples.plainGlobal)
              NodeExamples.sudoer asyncOptions Examples.bareHost
              (Examples.worldAt 0) (Examples.worldAt 0)) as [Hg Hs].
  - reflexivity.
  - split; [|exact Hs]. apply (Hg Env.isLinux).
    unfold booleanGetters. do 2 right. left.
Defined.

(** X28. For a synchronous [EnvironmentDetector] made with
    [cache: false], [getEnvironmentInfo] throws exactly when
    [os.platform()] throws, or [os.arch()] throws, or [os.hostname()]
    throws and the Kubernetes probe consults it, or the Cloudflare
    probe meets a [caches] global that is no object.  The three
    getters of the operating system never throw, as the OS detector
    falls back to its "unknown" record. *)
Theorem environment_info_fails_exactly_when :
  ∀ (g : option GlobalObject) (p : Process) (o : Detector.DetectorOptions)
    (h : Host) (w : Cache.World Env.Info),
    Detector.cache o = Some false →
    Detector.on (Detector.async o) = false →
    let made := Env.new g p (Some o) w in
    (threw (fst (Facade.getEnvironmentInfo (fst made) h (snd made)))
     ↔ threw (os_platform (os h))
       ∨ threw (os_arch (os h))
       ∨ (isDirectory h Constants.CONTAINER_FILES.KUBERNETES_SERVICE = false
          ∧ hasEnv h "KUBERNETES_SERVICE_HOST" = false
          ∧ hasEnv h "KUBERNETES_PORT" = false
          ∧ threw (os_hostname (os h)))
       ∨ (namedByEnvironment h = false
          ∧ hasEnv h "CF_WORKER" = false
          ∧ ∃ global, g = Some global ∧ global_caches global = Some CachesNotAnObject))
    ∧ ¬ threw (fst (Env.isWindows (fst made) h (snd made)))
    ∧ ¬ threw (fst (Env.isMacOS (fst made) h (snd made)))
    ∧ ¬ threw (fst (Env.isLinux (fst made) h (snd made))).
Proof.
  intros g p o h w Hc Hs made.
  pose proof (new_in_mode g p o w) as Hm. rewrite Hs in Hm.
  assert (Hw : snd made = Cache.disable w).
  { unfold made. rewrite new_with_options. cbn [snd]. by rewrite Hc. }
  assert (He : Cache.isEnabled (snd made) = false) by (rewrite Hw; apply disable_spec).
  fold made in Hm. split.
  - rewrite (sync_facade_outcome _ h _ Hm). cbv zeta.
    rewrite !detectSync_disabled by (cbn [snd]; exact He). cbn [fst snd].
    rewrite threw_exc_map, threw_all. cbn.
    rewrite !threw_exc_map.
    rewrite container_throws_iff, cloud_throws_iff, node_throws_iff, privilege_throws_iff.
    cbn. tauto.
  - destruct Hm as (H1 & _).
    repeat split;
      match goal with
      | |- ¬ threw (fst (?f _ _ _)) => unfold f
      end;
      unfold Detector.bind;
      rewrite (detect_sync_mode _ h _ H1), (detectSync_disabled _ h _ He); cbn; tauto.
Qed.

Lemma environment_info_fails_exactly_when_witness :
  let made := Env.new (Some CloudExamples.plainGlobal) NodeExamples.sudoer
                (Some uncachedOptions) (Examples.worldAt 0) in
  threw (fst (Facade.getEnvironmentInfo (fst made) Examples.brokenHost (snd made)))
  ∧ ¬ threw (fst (Env.isWindows (fst made) Examples.brokenHost (snd made))).
Proof.
  destruct (environment_info_fails_exactly_when (Some CloudExamples.plainGlobal)
              NodeExamples.sudoer uncachedOptions Examples.brokenHost (Examples.worldAt 0))
    as (Hinfo & Hos & _).
  - reflexivity.
  - reflexivity.
  - split; [|exact Hos]. apply Hinfo. left. exact I.
Defined.
